(* ===== verification/_CoqProject ===== *)
-Q . S2P
Prelude.v
Datetime.v
DataLoader.v
ValueCounts.v
Stats.v
RouteAnalyzer.v
H3Visualizer.v
Analyzers.v
Format.v
Pipeline.v
Main.v
