(* ===== verification/Prelude.v ===== *)
(** * A verification development for shehio/maps (Citibike trip analysis)

    The program under verification ([src/src/]) loads one Citibike
    trip-history CSV into a pandas DataFrame and runs independent
    reporting passes over that one table:

    - [data_loader.py] ([CitibikeDataLoader.load], [_preprocess_data])
      reads the file, converts the [started_at]/[ended_at] columns with
      [pd.to_datetime] and adds [trip_duration_mins];
    - [analyzers/trip_analyzer.py], [spatial_analyzer.py],
      [city_analyzer.py] print grouped counts ([value_counts]),
      percentages, mean and median durations, hourly and day-of-week
      distributions; [SpatialAnalyzer] writes a [station_pair] column
      into the shared DataFrame;
    - [analyzers/route_analyzer.py] ([RouteAnalyzer.analyze],
      [_get_osrm_route], [_visualize_route]) drops trips with a missing
      coordinate, computes the geodesic length of every trip, picks the
      longest one ([idxmax]), asks the OSRM web service for a cycling
      route and falls back to the straight segment on any failure;
    - [visualizers/h3_visualizer.py] ([H3Visualizer]) counts trip
      starts and ends per H3 hexagon ([_get_hexagons]), scales each
      hexagon's colour by its count relative to the busiest one
      ([_add_hexagons_to_map], [_get_color]) and adds a legend;
    - [main.py] runs the loader, the four analyzers and the visualizer
      in sequence and turns any exception into one printed message.

    ** Files of the development, in dependency order

    - [Prelude.v] (this file): Python exceptions as the type [exn], the
      result type [res] with stdpp's monad notation ([x ← c; k]), a
      model of the insertion-ordered Python [dict] used as a counter
      ([PyDict]) with its laws ([PyDictFacts]), sums and counts over
      lists, string lemmas, the hint databases [maps] and [maps_rw] and
      the tactic [res_inv].
    - [Datetime.v] (Module [Datetime]): [pd.to_datetime] on the ISO
      timestamps of the data set (["YYYY-MM-DD HH:MM:SS[.fffffffff]"])
      as nanoseconds since the epoch in the signed 64-bit range
      ([parse_datetime], [parse_civil], [to_ns], [days_from_civil]),
      the two formats pandas infers for them ([ts_format],
      [guess_format], [parse_datetime_as]), and the
      [.dt.hour]/[.dt.day_name()] accessors.
    - [DataLoader.v] (Module [DataLoader]): [CitibikeDataLoader.load]
      and [_preprocess_data] ([load], [preprocess_data], [to_datetime]
      with the column's inferred format [column_format],
      [to_datetime_cell], [sub_datetime], [duration_mins]) from the
      outcome of [pd.read_csv] ([csv_file]) to [res (list trip)].
    - [ValueCounts.v] (Module [ValueCounts]): [Series.value_counts]
      (grouping with [PyDict.incr], then a stable sort by decreasing
      count), [head], [sort_index], and the percentage series
      [counts / len(df) * 100].
    - [Stats.v] (Module [Stats]): [Series.mean] and [Series.median] with
      NaN skipped.
    - [RouteAnalyzer.v] (Module [RouteAnalyzer], Section [Route]):
      [RouteAnalyzer.analyze] ([analyze], [dropna_coords], [idxmax]),
      [_get_osrm_route] ([fetch_route] for the [try] body,
      [fallback_route] for the handler) and [_visualize_route]; the
      geodesic length, [requests.get], [polyline.decode] and float
      printing are Section variables (libraries or a remote service);
      the latitude check of geopy's [Point] and every Python failure of
      the JSON handling are modelled.
    - [H3Visualizer.v] (Module [H3Visualizer], Section [H3]):
      [_get_hexagons] ([count_cells]), [_add_hexagons_to_map]
      ([hexagon_polygon]), [_get_color] ([format_02x] for [:02x]),
      [_add_legends] ([str_replace] for [str.replace]), [_save_maps]
      ([save_maps]) and [create_visualizations], the methods of the
      object [visualizer] built by [__init__] ([init]), which is the
      Section variable [self]; what [create_visualizations] does to the
      file system and the console is its list of [effect]s;
      [h3.latlng_to_cell] and [h3.cell_to_boundary] are Section
      variables over an abstract cell type with decidable equality.
    - [Analyzers.v] (Module [Analyzers]): the shared DataFrame as the
      record [frame] (rows and the [station_pair] column once written),
      the interface [BaseAnalyzer] as a type class with one instance per
      analyzer, its contract [AnalyzerKeepsRows] (columns may be added,
      rows are kept), [TripAnalyzer] ([trip_analyze]), [SpatialAnalyzer]
      ([spatial_analyze]) and [CityAnalyzer].
    - [Format.v] (Module [Format]): the text of the first report
      section, [_analyze_basic_stats] ([basic_stats_lines]), with
      Python's [{n:,}] ([format_thousands]) and [{x:.2f}] ([format_2f])
      format specifications and the readers the round trips are stated
      against.
    - [Pipeline.v] (Module [Pipeline]): the loop of [main()] over the
      analyzers, as the function [run_analyzers] and as the step
      relation [loop_step] on [loop_state] (analyzers left, shared
      frame, outputs printed, exception caught), both stated against
      the contract of the interface only; [run_analyzers_steps] shows
      that the state the function computes is one the loop reaches.
    - [Main.v] (Module [Main]): [main()] as the list of its events
      (status lines with their leading ["\n"], analyzer outputs, the
      visualizer's directory, saved maps and printed paths, the error
      line of the catch-all handler).

    ** Modelling choices

    - A float column is [option Q]: [None] is NaN, a number is its exact
      rational value.  Arithmetic on durations, percentages, means,
      medians and colour intensities is exact; the theorems describe
      the computation up to IEEE rounding.
    - Timestamps are [Z] nanoseconds, as pandas' [datetime64[ns]]; a
      parsed value outside the signed 64-bit range is an error, as
      pandas' [OutOfBoundsDatetime].  Integers are kept at their width
      where the code overflows: the difference of two timestamps is
      checked against [int64] as pandas does.
    - Console output is modelled as the values printed (records of
      reports); the text is modelled for the basic statistics section,
      not for the Series tables pandas prints; map documents are records of the
      markers, polygons, polylines and legends added to them, with the
      path they are saved to.
    - Exceptions are values of [exn]; [try]/[except] is a match on
      [res]; [main]'s [except Exception] turns any of them into the line
      ["Error: " ++ str(e)].
    - The DataFrame that [main] passes to every analyzer is one object:
      [frame] is threaded through the analyzers so that a column written
      by one is seen by the next.
    - No definition runs on fuel except [H3Visualizer.hex_digits_rev],
      [str_replace_fuel] and [Format.groups_fuel], whose fuel is the bit
      length of the number or the length of the string, enough for every
      input ([str_replace_fuel_enough], [thousands_groups_spec]).
    - [{x:.2f}] rounds the exact rational value, ties to even; Python
      rounds the nearest double, so the last digit can differ on values
      within one ulp of a tie.

    ** Theorems (numbered C1..C37 in PROJECT.json, each with a witness
       at a concrete input when it has hypotheses)

    - loader (C3, C8-C10): every loaded row's duration is
      (end - start) in minutes and fits in [int64], every row is kept
      with its cells, loading succeeds exactly when every timestamp
      parses in the format inferred from the first non-missing cell of
      its column and every row's difference fits in [int64] (a column
      mixing timestamps with and without fractional seconds, or a ride
      of more than about 292 years, aborts the load), and only the two
      error kinds of the loader escape;
    - timestamps (C11-C13, C31, C32): the parser reads back what the
      printer writes, the hour accessor returns the hour field, every
      accepted string is a valid date and time, the [n]-th day after
      1970-01-01 gets day number [n], and the 64-bit nanosecond range
      is exactly the years 1678-2261 up to the two partial boundary
      years;
    - route analysis (C1, C2, C6, C7, C17, C18): the chosen trip is the
      first of the longest ones and is what is printed and drawn; the
      fallback route never raises and is the two end points with the
      straight-line distance and zero duration; an empty selection
      raises [ValueError] when the distance column is assigned; a
      non-numeric duration raises [TypeError] outside the [try];
    - hexagons (C4, C5, C14-C16, C33): the counter counts exactly the
      rows with both coordinates, keys are distinct and counts
      positive, the busiest cell is drawn at full intensity, every
      colour is a well-formed [#rrggbb] string, sparse cells are drawn
      black, and [create_visualizations] creates the output directory,
      saves a start map showing each start cell once with its boundary
      and its number of trips under the red legend, then the end map
      of the end cells under the blue one, and prints their paths;
    - value counts and statistics (C19-C23): counts are exact,
      percentages add up to 100 only without NaN, the mean lies within
      the data, the median splits it in halves, both are NaN on an
      empty column;
    - analyzers (C24-C26): the hourly table is sorted and exact,
      [SpatialAnalyzer] raises exactly on an all-missing start-name
      column and otherwise writes the pair column and counts pairs;
    - pipeline (C27-C30, C34): a successful run prints the four analyses
      and saves the maps of the loaded rows; a load failure, a table
      without complete coordinates and a table without start names each
      end the run with one error line and no map; every run ends either
      in an error line with no map saved or in the maps of the loaded
      rows and ["Analysis complete!"];
    - the analyzer loop (C35): every reachable state keeps the loaded
      rows, runs the analyzers in list order and stops at the first
      exception;
    - printed text (C36, C37): [format(n, ',')] writes comma-separated
      groups of three digits that read back as [n]; the basic
      statistics section prints the trip count so, and the mean and
      median as [nan] exactly without durations, otherwise with two
      decimals within [0.005] of the exact value.

    Helper lemmas are not claims: [idxmax_first_max],
    [parse_render_civil], [next_day_succ], [format_02x_roundtrip],
    [value_counts_keys], [run_analyzers_rows], [loop_inv_step] and the
    others carry the proofs.

    ** Not modelled

    CSV parsing and dtype inference by [pd.read_csv] beyond its outcome
    (a missing file, a failure, the rows; a column with no value is
    float64), the text pandas prints for a Series (the reports other
    than the basic statistics are modelled as the values printed),
    tile rendering and HTML
    generation by folium, the geodesic on the WGS-84 ellipsoid, the H3
    index arithmetic, the polyline codec and the HTTP transport.  The
    file system is not modelled: a failing [mkdir] or file write, which
    [main]'s handler would report, does not occur in the model.  The
    texts of library exception messages are those of the libraries
    where they are fixed strings ([idxmax] on an empty Series) and
    shortened where the library formats them with the offending values
    (numpy's ufunc error, [pd.to_datetime]'s format error).

    [pd.to_datetime] is modelled on the timestamp format of the data set
    (["YYYY-MM-DD HH:MM:SS"] with an optional fraction).  As pandas 2
    does, the format is inferred from the first non-missing cell of the
    column, with or without fractional seconds, and every other cell
    must be written in it: a column mixing the two forms raises.  The
    other formats pandas can infer are left out.  The constructors
    [CitibikeDataLoader(path)] and [BaseAnalyzer(df)] only store their
    argument; the model passes the path and the table directly.
*)

From stdpp Require Export base list decidable options strings sets.
From Stdlib Require Export Ascii ZArith QArith Qround Qabs Lia Lqa Sorted Permutation.
Close Scope Q_scope.
Set Warnings "-clear-no-such-hyp".

Create HintDb maps.
Create Rewrite HintDb maps_rw.

Declare Scope maps_scope.
Delimit Scope maps_scope with maps.

(** ** Python exceptions *)

(** The exceptions the modelled code raises or catches. *)
Inductive exn : Type :=
| FileNotFoundError (msg : string)
| ValueError (msg : string)
| KeyError (key : string)
| IndexError (msg : string)
| TypeError (msg : string)
| OverflowError (msg : string)
| HTTPError (status : Z)
| Exception (msg : string).

(** [str(e)]; a [KeyError] prints its key in quotes. *)
Definition exn_str (e : exn) : string :=
  match e with
  | FileNotFoundError m | ValueError m | IndexError m | TypeError m | OverflowError m
  | Exception m => m
  | KeyError k => "'" +:+ k +:+ "'"
  | HTTPError _ => "HTTP error"
  end.

(** ** Results: a value or a raised exception *)

Inductive res (A : Type) : Type :=
| Ok (a : A)
| Err (e : exn).
Arguments Ok {A} a.
Arguments Err {A} e.

#[export] Instance res_ret : MRet res := λ A a, Ok a.
#[export] Instance res_bind : MBind res :=
  λ A B f c, match c with Ok a => f a | Err e => Err e end.
#[export] Instance res_fmap : FMap res :=
  λ A B f c, match c with Ok a => Ok (f a) | Err e => Err e end.

(** [try: c except: h] for a handler that catches every exception. *)
Definition res_catch {A} (c : res A) (h : exn → res A) : res A :=
  match c with Ok a => Ok a | Err e => h e end.

(** Python's [for] loop over a list whose body may raise: the first
    exception stops the loop. *)
Fixpoint res_mapM {A B} (f : A → res B) (l : list A) : res (list B) :=
  match l with
  | [] => Ok []
  | x :: l' => y ← f x; ys ← res_mapM f l'; Ok (y :: ys)
  end.

Notation "'raise' e" := (Err e) (at level 10, only parsing) : maps_scope.

(** ** A Python [dict] used as a counter

    [d[k] = d.get(k, 0) + 1] on a dict that keeps insertion order: an
    existing key keeps its position, a new key goes to the end. *)
Module PyDict.
Section Dict.
Context {K : Type} `{EqDecision K}.

Fixpoint get (d : list (K * nat)) (k : K) : option nat :=
  match d with
  | [] => None
  | (k', c) :: d' => if decide (k = k') then Some c else get d' k
  end.

Definition get_default (d : list (K * nat)) (k : K) : nat :=
  default 0%nat (get d k).

Fixpoint incr (d : list (K * nat)) (k : K) : list (K * nat) :=
  match d with
  | [] => [(k, 1)]
  | (k', c) :: d' =>
      if decide (k = k') then (k', S c) :: d' else (k', c) :: incr d' k
  end.

Definition keys (d : list (K * nat)) : list K := map fst d.
Definition values (d : list (K * nat)) : list nat := map snd d.
End Dict.
End PyDict.

(** ** Python string literals *)

(** ["\n"], the line feed (ASCII 10). *)
Definition newline : string := String (ascii_of_nat 10) EmptyString.

(** ** Sums and counts over lists *)

Definition sum_nat (l : list nat) : nat := foldr Nat.add 0 l.
Definition sumQ (l : list Q) : Q := foldr Qplus 0%Q l.

(** Number of elements of [l] satisfying the boolean test [p]. *)
Definition count_if {A} (p : A → bool) (l : list A) : nat :=
  length (List.filter p l).

(** Elements of a column that are not NaN/None. *)
Definition present {A} (l : list (option A)) : list A :=
  omap id l.


(** ** Laws of the result monad *)

Lemma bind_Ok {A B} (a : A) (f : A → res B) : (Ok a ≫= f) = f a.
Proof. reflexivity. Qed.

Lemma bind_Err {A B} (e : exn) (f : A → res B) : (Err e ≫= f) = Err e.
Proof. reflexivity. Qed.

Lemma Ok_inj {A} (a b : A) : Ok a = Ok b → a = b.
Proof. by intros [=]. Qed.

Lemma bind_Ok_inv {A B} (c : res A) (f : A → res B) (b : B) :
  (c ≫= f) = Ok b → ∃ a, c = Ok a ∧ f a = Ok b.
Proof. destruct c; simpl; [eauto | discriminate]. Qed.

Lemma bind_Err_inv {A B} (c : res A) (f : A → res B) (e : exn) :
  (c ≫= f) = Err e → c = Err e ∨ ∃ a, c = Ok a ∧ f a = Err e.
Proof. destruct c; simpl; [eauto | intros [= ->]; auto]. Qed.

#[export] Hint Rewrite @bind_Ok @bind_Err : maps_rw.

(** Splits every [c ≫= f = Ok b] hypothesis into its two steps. *)
Ltac res_inv :=
  repeat match goal with
  | H : (_ ≫= _) = Ok _ |- _ =>
      let a := fresh "a" in let Ha := fresh "Ha" in
      apply bind_Ok_inv in H as (a & Ha & H)
  | H : Ok _ = Ok _ |- _ => injection H as H
  | H : Ok _ = Err _ |- _ => discriminate H
  | H : Err _ = Ok _ |- _ => discriminate H
  end.

Lemma res_mapM_Ok {A B} (f : A → res B) (l : list A) (l' : list B) :
  res_mapM f l = Ok l' ↔ Forall2 (λ x y, f x = Ok y) l l'.
Proof.
  revert l'; induction l as [|x l IH]; intros l'; simpl.
  - split; [intros [= <-]; constructor | intros H; inversion H; reflexivity].
  - split.
    + intros H. res_inv. subst. constructor; [done | by apply IH].
    + intros H. inversion H as [|? y ? ys Hy Hys]; subst.
      rewrite Hy. simpl. apply IH in Hys. by rewrite Hys.
Qed.

Lemma res_mapM_Ok_Forall {A B} (f : A → res B) (l : list A) :
  (∃ l', res_mapM f l = Ok l') ↔ Forall (λ x, ∃ y, f x = Ok y) l.
Proof.
  setoid_rewrite res_mapM_Ok. induction l as [|x l IH].
  - split; [constructor | eauto].
  - rewrite Forall_cons, <- IH. split.
    + intros [l' H]. inversion H; subst. eauto.
    + intros [[y Hy] [l' Hl']]. eauto.
Qed.

Lemma res_mapM_length {A B} (f : A → res B) (l : list A) (l' : list B) :
  res_mapM f l = Ok l' → length l' = length l.
Proof. intros H%res_mapM_Ok. symmetry. by eapply Forall2_length. Qed.

(** The first failing element decides the exception. *)
Lemma res_mapM_Err {A B} (f : A → res B) (l1 l2 : list A) (x : A) (e : exn) :
  (∀ y, y ∈ l1 → ∃ b, f y = Ok b) → f x = Err e →
  res_mapM f (l1 ++ x :: l2) = Err e.
Proof.
  intros Hok Hx. induction l1 as [|y l1 IH]; simpl.
  - by rewrite Hx.
  - destruct (Hok y) as [b Hb]; [set_solver|]. rewrite Hb. simpl.
    rewrite IH; [done|]. intros z Hz. apply Hok. set_solver.
Qed.

(** ** Laws of the counter dict *)

Module PyDictFacts.
  Import PyDict.
Section Facts.
Context {K : Type} `{EqDecision K}.
Implicit Types (d : list (K * nat)) (k : K).

Lemma get_incr d k k' :
  get (incr d k) k' = if decide (k' = k) then Some (S (get_default d k)) else get d k'.
Proof.
  unfold get_default. induction d as [|[k0 c] d IH]; simpl.
  - repeat case_decide; subst; done.
  - repeat case_decide; subst; simpl; repeat case_decide; subst; try done.
Qed.

Lemma keys_incr_in d k : k ∈ keys d → keys (incr d k) = keys d.
Proof.
  induction d as [|[k0 c] d IH]; simpl; [set_solver|].
  intros Hin. case_decide; subst; simpl; [done|].
  f_equal. apply IH. set_solver.
Qed.

Lemma keys_incr_notin d k : k ∉ keys d → keys (incr d k) = keys d ++ [k].
Proof.
  induction d as [|[k0 c] d IH]; simpl; [done|].
  intros Hin. case_decide; subst; simpl; [set_solver|].
  f_equal. apply IH. set_solver.
Qed.

Lemma get_Some_in d k c : get d k = Some c → k ∈ keys d.
Proof.
  induction d as [|[k0 c0] d IH]; simpl; [done|].
  case_decide; subst; [set_solver|]. intros Hg. apply IH in Hg. set_solver.
Qed.

Lemma get_None_notin d k : get d k = None ↔ k ∉ keys d.
Proof.
  induction d as [|[k0 c0] d IH]; simpl; [set_solver|].
  case_decide; subst; [split; [done|set_solver]|].
  rewrite IH. set_solver.
Qed.

(** In a dict with distinct keys, [get] finds exactly the stored pairs. *)
Lemma get_Some_elem d k (c : nat) :
  NoDup (keys d) → get d k = Some c ↔ (k, c) ∈ d.
Proof.
  induction d as [|[k' c'] d IH]; simpl; intros Hnd.
  - split; [done|]. by intros ?%elem_of_nil.
  - apply NoDup_cons in Hnd as [Hk' Hnd]. rewrite elem_of_cons. case_decide; subst.
    + split; [intros [= ->]; by left|]. intros [[= ->]|Hin]; [done|].
      destruct Hk'. apply list_elem_of_In, in_map_iff. exists (k', c). split; [done|].
      by apply list_elem_of_In.
    + rewrite IH by done. split; [by right|]. by intros [[= -> _]|?].
Qed.

Lemma incr_NoDup d k : NoDup (keys d) → NoDup (keys (incr d k)).
Proof.
  intros Hnd. destruct (decide (k ∈ keys d)).
  - by rewrite keys_incr_in.
  - rewrite keys_incr_notin by done. apply NoDup_app. split_and!; [done| |].
    + intros x Hx Hx'. set_solver.
    + apply NoDup_singleton.
Qed.

Lemma sum_values_incr d k : sum_nat (values (incr d k)) = S (sum_nat (values d)).
Proof.
  induction d as [|[k0 c] d IH]; simpl; [done|].
  case_decide; simpl; [lia|]. rewrite IH. lia.
Qed.

Lemma incr_positive d k :
  Forall (λ kc, 0 < kc.2)%nat d → Forall (λ kc, 0 < kc.2)%nat (incr d k).
Proof.
  induction d as [|[k0 c] d IH]; simpl; intros Hpos.
  - constructor; [simpl; lia | constructor].
  - inversion Hpos; subst. case_decide; constructor; simpl in *; auto with lia.
Qed.
End Facts.
End PyDictFacts.

#[export] Hint Resolve PyDictFacts.incr_NoDup PyDictFacts.incr_positive : maps.

(** ** Lists up to reordering

    Sorting a counter dict ([value_counts]) or a column ([median])
    reorders it; sums, counts and key sets do not see the order, which
    these [Proper] instances let [rewrite] use. *)

#[export] Instance sum_nat_proper : Proper ((≡ₚ) ==> (=)) sum_nat.
Proof. intros l l' H. induction H; unfold sum_nat in *; simpl; lia. Qed.

#[export] Instance count_if_proper {A} (p : A → bool) : Proper ((≡ₚ) ==> (=)) (count_if p).
Proof. intros l l' H. unfold count_if. induction H; simpl; repeat case_match; simpl; lia. Qed.

#[export] Instance PyDict_values_proper {K} : Proper ((≡ₚ) ==> (≡ₚ)) (@PyDict.values K).
Proof. intros d d' H. by apply Permutation_map. Qed.

#[export] Instance PyDict_keys_proper {K} : Proper ((≡ₚ) ==> (≡ₚ)) (@PyDict.keys K).
Proof. intros d d' H. by apply Permutation_map. Qed.

(** ** Strings

    stdpp makes [String.append] [simpl never]; these equations step it. *)

Lemma string_app_cons (c : ascii) (s t : string) : String c s +:+ t = String c (s +:+ t).
Proof. reflexivity. Qed.

Lemma string_app_nil_l (t : string) : "" +:+ t = t.
Proof. reflexivity. Qed.

Lemma string_app_nil_r (s : string) : s +:+ "" = s.
Proof. induction s as [|c s IH]; [done|]. rewrite !string_app_cons. cbn. by rewrite IH. Qed.

Lemma string_app_assoc (s1 s2 s3 : string) : (s1 +:+ s2) +:+ s3 = s1 +:+ (s2 +:+ s3).
Proof. induction s1 as [|c s1 IH]; [done|]. rewrite !string_app_cons. cbn. by rewrite IH. Qed.

Lemma string_length_app (s1 s2 : string) :
  String.length (s1 +:+ s2) = (String.length s1 + String.length s2)%nat.
Proof. induction s1 as [|c s1 IH]; [done|]. rewrite !string_app_cons. cbn. by rewrite IH. Qed.

#[export] Hint Rewrite string_app_cons string_app_nil_l string_app_nil_r string_app_assoc
  string_length_app : maps_rw.
