(* ===== verification/Datetime.v ===== *)
(** * Timestamps: [pd.to_datetime] on the data set's ISO strings

    [_preprocess_data] ([src/src/data_loader.py], lines 21-23) converts
    the [started_at] and [ended_at] columns with [pd.to_datetime].  The
    Citibike files write these columns as ["YYYY-MM-DD HH:MM:SS"] with an
    optional fraction of up to nine digits.  A parsed value is the
    number of nanoseconds since 1970-01-01 00:00:00 ([datetime64[ns]]),
    which must fit pandas' signed 64-bit range (the least value is the
    NaT sentinel).  pandas 2 guesses one format for the column from its
    first non-missing value, with or without the fraction ([ts_format],
    [guess_format]), and parses every value in it ([parse_datetime_as]):
    ["%Y-%m-%d %H:%M:%S"] leaves a fraction unconverted and
    ["%Y-%m-%d %H:%M:%S.%f"] does not match a value without one; both
    raise.  The [.dt.hour] and [.dt.day_name()] accessors used by
    [TripAnalyzer._analyze_temporal_patterns] are floor divisions of
    that number. *)

From S2P Require Import Prelude.
From Stdlib Require Import Ascii.
Close Scope Q_scope.
Open Scope Z_scope.

Module Datetime.

Definition ns_per_second : Z := 1000000000.
Definition ns_per_minute : Z := 60 * ns_per_second.
Definition ns_per_hour : Z := 3600 * ns_per_second.
Definition ns_per_day : Z := 86400 * ns_per_second.

(** Bounds of [datetime64[ns]]: [-2^63] is NaT. *)
Definition ns_min : Z := - 2 ^ 63 + 1.
Definition ns_max : Z := 2 ^ 63 - 1.

(** ** The civil calendar *)

Definition is_leap (y : Z) : bool :=
  (y mod 4 =? 0) && (negb (y mod 100 =? 0) || (y mod 400 =? 0)).

Definition days_in_month (y m : Z) : Z :=
  if m =? 2 then (if is_leap y then 29 else 28)
  else if (m =? 4) || (m =? 6) || (m =? 9) || (m =? 11) then 30
  else 31.

(** Day number of a proleptic Gregorian date, 1970-01-01 being day 0
    (the era/year-of-era computation used by numpy's datetime code). *)
Definition days_from_civil (y m d : Z) : Z :=
  let y' := if m <=? 2 then y - 1 else y in
  let era := y' / 400 in
  let yoe := y' - era * 400 in
  let mp := if 2 <? m then m - 3 else m + 9 in
  let doy := (153 * mp + 2) / 5 + d - 1 in
  let doe := yoe * 365 + yoe / 4 - yoe / 100 + doy in
  era * 146097 + doe - 719468.

(** A broken-down timestamp, as the string spells it. *)
Record civil : Type := mk_civil {
  year : Z; month : Z; day : Z;
  hour : Z; minute : Z; second : Z; nanos : Z }.

Definition valid_civil (c : civil) : Prop :=
  0 <= year c <= 9999 ∧ 1 <= month c <= 12 ∧
  1 <= day c <= days_in_month (year c) (month c) ∧
  0 <= hour c < 24 ∧ 0 <= minute c < 60 ∧ 0 <= second c < 60 ∧
  0 <= nanos c < ns_per_second.

Definition valid_civil_b (c : civil) : bool :=
  (0 <=? year c) && (year c <=? 9999) && (1 <=? month c) && (month c <=? 12) &&
  (1 <=? day c) && (day c <=? days_in_month (year c) (month c)) &&
  (0 <=? hour c) && (hour c <? 24) && (0 <=? minute c) && (minute c <? 60) &&
  (0 <=? second c) && (second c <? 60) && (0 <=? nanos c) && (nanos c <? ns_per_second).

Definition to_ns (c : civil) : Z :=
  days_from_civil (year c) (month c) (day c) * ns_per_day
  + hour c * ns_per_hour + minute c * ns_per_minute
  + second c * ns_per_second + nanos c.

(** ** The parser *)

Definition digit_val (ch : ascii) : option Z :=
  let n := nat_of_ascii ch in
  if (48 <=? n)%nat && (n <=? 57)%nat then Some (Z.of_nat n - 48) else None.

(** Exactly [n] decimal digits, most significant first. *)
Fixpoint parse_digits (n : nat) (acc : Z) (s : string) : option (Z * string) :=
  match n with
  | O => Some (acc, s)
  | S n' =>
      match s with
      | EmptyString => None
      | String ch s' => v ← digit_val ch; parse_digits n' (acc * 10 + v) s'
      end
  end.

Definition expect (ch : ascii) (s : string) : option string :=
  match s with
  | String ch' s' => if decide (ch = ch') then Some s' else None
  | EmptyString => None
  end.

(** The fraction after the dot: one to nine digits, to nanoseconds. *)
Definition parse_fraction (s : string) : option Z :=
  let k := String.length s in
  if (1 <=? k)%nat && (k <=? 9)%nat then
    '(v, rest) ← parse_digits k 0 s;
    match rest with
    | EmptyString => Some (v * 10 ^ (9 - Z.of_nat k))
    | _ => None
    end
  else None.

Definition parse_civil (s : string) : option civil :=
  '(y, r) ← parse_digits 4 0 s; r ← expect "-" r;
  '(mo, r) ← parse_digits 2 0 r; r ← expect "-" r;
  '(d, r) ← parse_digits 2 0 r; r ← expect " " r;
  '(h, r) ← parse_digits 2 0 r; r ← expect ":" r;
  '(mi, r) ← parse_digits 2 0 r; r ← expect ":" r;
  '(sec, r) ← parse_digits 2 0 r;
  ns ← match r with
       | EmptyString => Some 0
       | String "." f => parse_fraction f
       | _ => None
       end;
  let c := mk_civil y mo d h mi sec ns in
  if valid_civil_b c then Some c else None.

(** [pd.to_datetime] on one non-missing cell: [None] is the parse
    error ([DateParseError]) or the out-of-bounds error. *)
Definition parse_datetime (s : string) : option Z :=
  c ← parse_civil s;
  let t := to_ns c in
  if (ns_min <=? t) && (t <=? ns_max) then Some t else None.

(** ** The format [pd.to_datetime] infers *)

(** The two formats pandas guesses from a timestamp of the data set:
    ["%Y-%m-%d %H:%M:%S"] and ["%Y-%m-%d %H:%M:%S.%f"]. *)
Inductive ts_format : Type := FmtSeconds | FmtFraction.

#[export] Instance ts_format_eq_dec : EqDecision ts_format.
Proof. solve_decision. Defined.

(** The format of a value: a fraction follows the seconds at position 19. *)
Definition guess_format (s : string) : ts_format :=
  match String.get 19 s with
  | Some "."%char => FmtFraction
  | _ => FmtSeconds
  end.

(** [pd.to_datetime] on one cell once the column's format is fixed: a
    value written in the other format is refused. *)
Definition parse_datetime_as (f : ts_format) (s : string) : option Z :=
  if decide (guess_format s = f) then parse_datetime s else None.

(** ** The printer (the format of the CSV files) *)

Definition digit_char (v : Z) : ascii := ascii_of_nat (Z.to_nat (48 + v)).

Fixpoint render_digits (n : nat) (v : Z) : string :=
  match n with
  | O => EmptyString
  | S n' => String (digit_char (v / 10 ^ Z.of_nat n')) (render_digits n' (v mod 10 ^ Z.of_nat n'))
  end.

Definition render_civil (c : civil) : string :=
  render_digits 4 (year c) +:+ "-" +:+ render_digits 2 (month c) +:+ "-" +:+
  render_digits 2 (day c) +:+ " " +:+ render_digits 2 (hour c) +:+ ":" +:+
  render_digits 2 (minute c) +:+ ":" +:+ render_digits 2 (second c) +:+
  (if nanos c =? 0 then "" else "." +:+ render_digits 9 (nanos c)).

(** ** Accessors *)

(** [Series.dt.hour]. *)
Definition dt_hour (t : Z) : Z := (t / ns_per_hour) mod 24.

(** [Series.dt.dayofweek]: Monday is 0; 1970-01-01 was a Thursday. *)
Definition dt_dayofweek (t : Z) : Z := (t / ns_per_day + 3) mod 7.

Definition day_names : list string :=
  ["Monday"; "Tuesday"; "Wednesday"; "Thursday"; "Friday"; "Saturday"; "Sunday"].

(** [Series.dt.day_name()]. *)
Definition dt_day_name (t : Z) : string :=
  default "" (day_names !! Z.to_nat (dt_dayofweek t)).

(** The calendar successor of a date. *)
Definition next_day (y m d : Z) : Z * Z * Z :=
  if d <? days_in_month y m then (y, m, d + 1)
  else if m <? 12 then (y, m + 1, 1)
  else (y + 1, 1, 1).

(** A timestamp of the data set's kind, for the witnesses below:
    2025-01-31 23:59:58.123. *)
Definition demo_civil : civil := mk_civil 2025 1 31 23 59 58 123000000.

(** The [n]-th calendar day after 1970-01-01, by counting with [next_day]. *)
Fixpoint days_after (n : nat) : Z * Z * Z :=
  match n with
  | O => (1970, 1, 1)
  | S n => let '(y, m, d) := days_after n in next_day y m d
  end.

(** ** Digits *)

Lemma digit_val_char (v : Z) : 0 <= v < 10 → digit_val (digit_char v) = Some v.
Proof.
  intros Hv.
  assert (v = 0 ∨ v = 1 ∨ v = 2 ∨ v = 3 ∨ v = 4 ∨ v = 5 ∨ v = 6 ∨ v = 7 ∨ v = 8 ∨ v = 9)
    as Hcases by lia.
  repeat destruct Hcases as [-> | Hcases]; [..|subst]; reflexivity.
Qed.

Lemma pow10_succ (n : nat) : 10 ^ Z.of_nat (S n) = 10 * 10 ^ Z.of_nat n.
Proof. rewrite Nat2Z.inj_succ, Z.pow_succ_r; lia. Qed.

Lemma pow10_pos (n : nat) : 0 < 10 ^ Z.of_nat n.
Proof. apply Z.pow_pos_nonneg; lia. Qed.

#[local] Hint Resolve pow10_pos : maps.

(** Reading back [n] printed digits: the parser inverts the printer. *)
Lemma parse_render_digits (n : nat) (acc v : Z) (r : string) :
  0 <= v < 10 ^ Z.of_nat n →
  parse_digits n acc (render_digits n v +:+ r) = Some (acc * 10 ^ Z.of_nat n + v, r).
Proof.
  revert acc v. induction n as [|n IH]; intros acc v Hv; simpl.
  - f_equal. f_equal. simpl in Hv. lia.
  - pose proof (pow10_pos n) as Hp. rewrite pow10_succ in Hv.
    rewrite digit_val_char.
    2: { split; [apply Z.div_pos; lia | apply Z.div_lt_upper_bound; lia]. }
    simpl. rewrite IH by (apply Z.mod_pos_bound; lia).
    f_equal. f_equal. rewrite pow10_succ.
    pose proof (Z.div_mod v (10 ^ Z.of_nat n)). lia.
Qed.

Lemma length_render_digits (n : nat) (v : Z) : String.length (render_digits n v) = n.
Proof. revert v. induction n; simpl; auto. Qed.

Lemma valid_civil_b_spec (c : civil) : valid_civil_b c = true ↔ valid_civil c.
Proof.
  unfold valid_civil_b, valid_civil.
  rewrite !andb_true_iff, !Z.leb_le, !Z.ltb_lt. tauto.
Qed.

Lemma days_in_month_bounds (y m : Z) : 28 <= days_in_month y m <= 31.
Proof. unfold days_in_month. repeat (destruct (_ =? _)); try destruct (is_leap y); simpl; lia. Qed.

Lemma parse_render_fraction (v : Z) :
  0 <= v < ns_per_second → parse_fraction (render_digits 9 v) = Some v.
Proof.
  intros Hv. unfold parse_fraction. rewrite length_render_digits.
  rewrite <- (string_app_nil_r (render_digits 9 v)).
  rewrite parse_render_digits by (unfold ns_per_second in Hv; simpl; lia).
  simpl. f_equal. lia.
Qed.

#[local] Arguments render_digits : simpl never.

(** Steps of the round trip: one field read back, then the separator. *)
Ltac parse_field :=
  rewrite parse_render_digits, Z.mul_0_l, Z.add_0_l by (simpl; lia);
  rewrite ?string_app_cons, ?string_app_nil_l; cbn -[render_digits parse_digits parse_fraction];
  try (rewrite decide_True by done; cbn -[render_digits parse_digits parse_fraction]).

(** Reading back a printed timestamp gives the same broken-down time. *)
Lemma parse_render_civil (c : civil) :
  valid_civil c → parse_civil (render_civil c) = Some c.
Proof.
  intros Hv. pose proof (days_in_month_bounds (year c) (month c)) as Hdim.
  destruct c as [y mo d h mi sec ns]. unfold valid_civil in Hv. cbn in Hv, Hdim.
  destruct Hv as (Hy & Hmo & Hd & Hh & Hmi & Hsec & Hns). unfold ns_per_second in Hns.
  unfold parse_civil, render_civil. cbn [year month day hour minute second nanos].
  do 6 parse_field.
  destruct (Z.eqb_spec ns 0) as [->|Hne];
    rewrite ?string_app_cons, ?string_app_nil_l; cbn -[render_digits parse_fraction].
  - rewrite (proj2 (valid_civil_b_spec _)); [done|]. unfold valid_civil, ns_per_second; simpl; lia.
  - rewrite parse_render_fraction by (unfold ns_per_second; lia). cbn -[render_digits].
    rewrite (proj2 (valid_civil_b_spec _)); [done|]. unfold valid_civil, ns_per_second; simpl; lia.
Qed.

Lemma floor_div_split (a r b : Z) : 0 < b → 0 <= r < b → (a * b + r) / b = a.
Proof.
  intros Hb Hr. rewrite Z.add_comm, Z.div_add by lia. rewrite Z.div_small by lia. lia.
Qed.

(** C13: Every accepted string denotes a valid calendar time. *)
Lemma parse_civil_valid (s : string) (c : civil) :
  parse_civil s = Some c → valid_civil c.
Proof.
  unfold parse_civil. intros H.
  repeat match type of H with
  | (?m ≫= _) = Some _ => destruct m as [[? ?]|] eqn:?; simpl in H; [|discriminate]
  | (?m ≫= _) = Some _ => destruct m eqn:?; simpl in H; [|discriminate]
  | context [match ?r with EmptyString => _ | String _ _ => _ end] => destruct r as [|[[] [] [] [] [] [] [] []] ?]
  end; try discriminate;
  destruct (valid_civil_b _) eqn:Hb; try discriminate;
  injection H as <-; by apply valid_civil_b_spec.
Qed.

(** C11: [pd.to_datetime] reads back every printed in-range timestamp. *)
Theorem parse_datetime_render (c : civil) :
  valid_civil c → ns_min <= to_ns c <= ns_max →
  parse_datetime (render_civil c) = Some (to_ns c).
Proof.
  intros Hv Hr. unfold parse_datetime. rewrite parse_render_civil by done. simpl.
  destruct (Z.leb_spec ns_min (to_ns c)), (Z.leb_spec (to_ns c) ns_max); simpl; done || lia.
Qed.

(** C12: [.dt.hour] of a parsed timestamp is its hour field. *)
Theorem dt_hour_to_ns (c : civil) : valid_civil c → dt_hour (to_ns c) = hour c.
Proof.
  intros (_ & _ & _ & Hh & Hmi & Hs & Hns). unfold dt_hour.
  set (D := days_from_civil (year c) (month c) (day c)).
  replace (to_ns c) with ((D * 24 + hour c) * ns_per_hour
    + (minute c * ns_per_minute + second c * ns_per_second + nanos c))
    by (unfold to_ns, ns_per_day, ns_per_hour, ns_per_minute; fold D; lia).
  rewrite floor_div_split.
  - rewrite Z.add_comm, Z.mod_add by lia. apply Z.mod_small. lia.
  - unfold ns_per_hour, ns_per_second. lia.
  - unfold ns_per_hour, ns_per_minute, ns_per_second in *. lia.
Qed.

(** [.dt.dayofweek] of a parsed timestamp depends only on the date. *)
Lemma dt_dayofweek_to_ns (c : civil) :
  valid_civil c → dt_dayofweek (to_ns c) = (days_from_civil (year c) (month c) (day c) + 3) mod 7.
Proof.
  intros (_ & _ & _ & Hh & Hmi & Hs & Hns). unfold dt_dayofweek.
  set (D := days_from_civil (year c) (month c) (day c)).
  replace (to_ns c) with (D * ns_per_day
    + (hour c * ns_per_hour + minute c * ns_per_minute + second c * ns_per_second + nanos c))
    by (unfold to_ns; fold D; lia).
  rewrite floor_div_split; [done| |].
  - unfold ns_per_day, ns_per_second. lia.
  - unfold ns_per_day, ns_per_hour, ns_per_minute, ns_per_second in *. lia.
Qed.

Lemma is_leap_spec (y : Z) :
  is_leap y = true ↔ y mod 4 = 0 ∧ (y mod 100 ≠ 0 ∨ y mod 400 = 0).
Proof.
  unfold is_leap. rewrite andb_true_iff, orb_true_iff, negb_true_iff, !Z.eqb_eq, Z.eqb_neq.
  tauto.
Qed.

(** Evaluates the month offsets [(153 * mp + 2) / 5] once the month is known. *)
Ltac eval_month_offsets :=
  repeat match goal with
  | |- context [(153 * ?k + 2) / 5] =>
      let v := eval vm_compute in ((153 * k + 2) / 5) in
      change ((153 * k + 2) / 5) with v
  end.

Lemma div_step (r k : Z) :
  0 < k → r / k - (r - 1) / k = if r mod k =? 0 then 1 else 0.
Proof.
  intros Hk. pose proof (Z.div_mod r k ltac:(lia)) as Hr.
  pose proof (Z.mod_pos_bound r k Hk) as Hm.
  destruct (Z.eqb_spec (r mod k) 0) as [H0|H0].
  - assert ((r - 1) / k = r / k - 1) as -> by (symmetry; apply Z.div_unique with (k - 1); lia).
    lia.
  - assert ((r - 1) / k = r / k) as -> by (symmetry; apply Z.div_unique with (r mod k - 1); lia).
    lia.
Qed.

Lemma mod_400_mod (y k : Z) : k = 4 ∨ k = 100 → y mod k = (y mod 400) mod k.
Proof.
  intros Hk. rewrite (Z.div_mod y 400) at 1 by lia. rewrite Z.add_comm.
  destruct Hk as [-> | ->];
    [replace (400 * (y / 400)) with ((100 * (y / 400)) * 4) by lia
    |replace (400 * (y / 400)) with ((4 * (y / 400)) * 100) by lia];
    by rewrite Z.mod_add.
Qed.

Lemma mod100_mod4 (r : Z) : r mod 100 = 0 → r mod 4 = 0.
Proof.
  rewrite !Z.mod_divide by lia. intros H. eapply Z.divide_trans; [|exact H]. by exists 25.
Qed.

(** The step from the last day of February to March 1st, the one place
    where the year of the era changes. *)
Lemma days_from_civil_march_1 (y : Z) :
  days_from_civil y 3 1 = days_from_civil y 2 (days_in_month y 2) + 1.
Proof.
  unfold days_from_civil, days_in_month. simpl. eval_month_offsets.
  pose proof (Z.div_mod y 400 ltac:(lia)) as Hy. pose proof (Z.mod_pos_bound y 400 ltac:(lia)) as Hr.
  pose proof (mod_400_mod y 4 ltac:(lia)) as H4. pose proof (mod_400_mod y 100 ltac:(lia)) as H100.
  destruct (is_leap y) eqn:Hl;
    [apply is_leap_spec in Hl | apply not_true_iff_false in Hl; rewrite is_leap_spec in Hl];
    rewrite H4, H100 in Hl; set (r := y mod 400) in *; set (q := y / 400) in *; clearbody r q;
    destruct (Z.eq_dec r 0) as [Hr0|Hr0].
  all: try (assert ((y - 1) / 400 = q - 1) as -> by (symmetry; apply Z.div_unique with 399; lia);
            replace (y - q * 400) with 0 by lia; replace (y - 1 - (q - 1) * 400) with 399 by lia;
            subst r; change (0 mod 4) with 0 in Hl; change (0 mod 100) with 0 in Hl;
            change (0 / 4) with 0; change (0 / 100) with 0;
            change (399 / 4) with 99; change (399 / 100) with 3; lia).
  all: assert ((y - 1) / 400 = q) as -> by (symmetry; apply Z.div_unique with (r - 1); lia);
       replace (y - q * 400) with r by lia; replace (y - 1 - q * 400) with (r - 1) by lia;
       pose proof (div_step r 4 ltac:(lia)); pose proof (div_step r 100 ltac:(lia));
       pose proof (mod100_mod4 r);
       destruct (Z.eqb_spec (r mod 4) 0), (Z.eqb_spec (r mod 100) 0); lia.
Qed.

Lemma next_day_succ (y m d : Z) :
  1 <= m <= 12 → 1 <= d <= days_in_month y m →
  let '(y', m', d') := next_day y m d in
  days_from_civil y' m' d' = days_from_civil y m d + 1.
Proof.
  intros Hm Hd. unfold next_day.
  destruct (Z.ltb_spec d (days_in_month y m)).
  { unfold days_from_civil. destruct (m <=? 2), (2 <? m); lia. }
  assert (d = days_in_month y m) as -> by lia.
  destruct (Z.ltb_spec m 12).
  - assert (m = 1 ∨ m = 2 ∨ m = 3 ∨ m = 4 ∨ m = 5 ∨ m = 6 ∨ m = 7 ∨ m = 8 ∨ m = 9 ∨ m = 10 ∨ m = 11)
      as Hcases by lia.
    repeat destruct Hcases as [-> | Hcases]; [..|subst];
      try (unfold days_from_civil, days_in_month; simpl; eval_month_offsets; lia).
    apply days_from_civil_march_1.
  - assert (m = 12) as -> by lia. unfold days_from_civil, days_in_month. simpl.
    eval_month_offsets. replace (y + 1 - 1) with y by lia. lia.
Qed.

Lemma next_day_valid (y m d : Z) :
  1 <= m <= 12 → 1 <= d <= days_in_month y m →
  let '(y', m', d') := next_day y m d in 1 <= m' <= 12 ∧ 1 <= d' <= days_in_month y' m'.
Proof.
  intros Hm Hd. unfold next_day.
  pose proof (days_in_month_bounds y (m + 1)). pose proof (days_in_month_bounds (y + 1) 1).
  destruct (Z.ltb_spec d (days_in_month y m)); [lia|].
  destruct (Z.ltb_spec m 12); lia.
Qed.

Lemma days_from_civil_range (y m d : Z) :
  1 <= m <= 12 → 1 <= d <= 31 →
  (1678 <= y <= 2261 → -106650 <= days_from_civil y m d <= 106650) ∧
  (2263 <= y → 107016 <= days_from_civil y m d) ∧
  (y <= 1676 → days_from_civil y m d <= -107016).
Proof.
  intros Hm Hd. unfold days_from_civil.
  destruct (Z.leb_spec m 2), (Z.ltb_spec 2 m); cbv beta iota zeta; split_and!; intros;
    Z.div_mod_to_equations; lia.
Qed.

(** C31: pandas' nanosecond range in calendar terms: every valid
    timestamp of the years 1678 to 2261 is read back, every valid
    timestamp of a year up to 1676 or from 2263 on is refused (its
    nanosecond count does not fit in 64 bits). *)
Theorem parse_datetime_range (c : civil) :
  valid_civil c →
  (1678 <= year c <= 2261 → parse_datetime (render_civil c) = Some (to_ns c)) ∧
  (year c <= 1676 ∨ 2263 <= year c → parse_datetime (render_civil c) = None).
Proof.
  intros Hv. pose proof Hv as (Hy & Hm & Hd & Hh & Hmi & Hs & Hns).
  pose proof (days_in_month_bounds (year c) (month c)).
  destruct (days_from_civil_range (year c) (month c) (day c)) as (H1 & H2 & H3); [lia|lia|].
  assert (ns_min = -9223372036854775807) as Emin by reflexivity.
  assert (ns_max = 9223372036854775807) as Emax by reflexivity.
  unfold parse_datetime. rewrite parse_render_civil by done. simpl.
  unfold to_ns, ns_per_day, ns_per_hour, ns_per_minute, ns_per_second in *. rewrite Emin, Emax.
  split; intros Hyr; case_match eqn:E; try done.
  - specialize (H1 Hyr). apply andb_false_iff in E as [E|E]; apply Z.leb_gt in E; lia.
  - apply andb_true_iff in E as [E1 E2]. apply Z.leb_le in E1, E2.
    destruct Hyr as [Hyr|Hyr]; [specialize (H3 Hyr) | specialize (H2 Hyr)]; lia.
Qed.

(** C32: [days_from_civil] numbers days from the epoch: the [n]-th
    calendar day after 1970-01-01 gets day number [n], and every date
    reached that way is a valid date. *)
Theorem days_from_civil_epoch (n : nat) :
  let '(y, m, d) := days_after n in
  days_from_civil y m d = Z.of_nat n ∧ 1 <= m <= 12 ∧ 1 <= d <= days_in_month y m.
Proof.
  induction n as [|n IH]; [split_and!; reflexivity || (unfold days_in_month; simpl; lia)|].
  simpl. destruct (days_after n) as [[y m] d]. destruct IH as (IH & Hm & Hd).
  pose proof (next_day_succ y m d Hm Hd) as Hs. pose proof (next_day_valid y m d Hm Hd) as Hv.
  destruct (next_day y m d) as [[y' m'] d']. split; [lia | exact Hv].
Qed.

(** ** Witnesses *)

Lemma demo_civil_valid : valid_civil demo_civil.
Proof. apply valid_civil_b_spec. reflexivity. Qed.

Lemma parse_datetime_render_witness :
  (valid_civil demo_civil ∧ ns_min <= to_ns demo_civil <= ns_max) ∧
  parse_datetime (render_civil demo_civil) = Some (to_ns demo_civil).
Proof.
  assert (ns_min <= to_ns demo_civil <= ns_max) as Hr by (split; apply Z.leb_le; reflexivity).
  split; [split; [apply demo_civil_valid | exact Hr] |].
  apply parse_datetime_render; [apply demo_civil_valid | exact Hr].
Defined.

Lemma dt_hour_to_ns_witness : valid_civil demo_civil ∧ dt_hour (to_ns demo_civil) = 23.
Proof. split; [apply demo_civil_valid | apply (dt_hour_to_ns demo_civil), demo_civil_valid]. Defined.

Lemma parse_civil_valid_witness :
  parse_civil "2025-01-31 23:59:58.123" = Some demo_civil ∧ valid_civil demo_civil.
Proof.
  split; [reflexivity|]. apply (parse_civil_valid "2025-01-31 23:59:58.123"). reflexivity.
Defined.
Lemma parse_datetime_range_witness :
  valid_civil demo_civil ∧
  ((1678 <= year demo_civil <= 2261 →
      parse_datetime (render_civil demo_civil) = Some (to_ns demo_civil)) ∧
   (year demo_civil <= 1676 ∨ 2263 <= year demo_civil →
      parse_datetime (render_civil demo_civil) = None)).
Proof. split; [apply demo_civil_valid | exact (parse_datetime_range demo_civil demo_civil_valid)]. Defined.

End Datetime.
