(* ===== verification/DataLoader.v ===== *)
(** * The data loader: [CitibikeDataLoader] ([src/src/data_loader.py])

    [load] reads the CSV file and preprocesses it inside one [try]
    block with two handlers: [FileNotFoundError] is re-raised with the
    message ["Data file not found: <path>"], every other exception is
    wrapped as [Exception("Error processing file: <str(e)>")].
    [_preprocess_data] converts [started_at] then [ended_at] with
    [pd.to_datetime], which infers one format from the first
    non-missing cell of the column ([column_format]) and applies it to
    every cell (a bad cell, or one written without the fraction the
    first cell has or with one it lacks, aborts the whole column), and
    adds
    [trip_duration_mins = (ended_at - started_at).dt.total_seconds() / 60].
    The subtraction is pandas' overflow-checked one on the [int64]
    nanosecond values ([sub_datetime]): a difference outside [int64]
    raises [OverflowError], which the generic handler wraps, and the
    difference [-2^63] is NaT's sentinel, so its duration is NaN.

    [pd.read_csv] is not modelled: its outcome is the [csv_file] value,
    a missing file, a file it fails on with some exception, or the rows
    it produced. *)

From S2P Require Import Prelude Datetime.
Close Scope Q_scope.

Module DataLoader.
Import Datetime.

(** A row as [pd.read_csv] produces it: strings stay strings, the
    coordinate columns are floats, an empty cell is NaN ([None]). *)
Record csv_row : Type := mk_csv_row {
  raw_ride_id : option string;
  raw_rideable_type : option string;
  raw_started_at : option string;
  raw_ended_at : option string;
  raw_start_station_name : option string;
  raw_start_station_id : option string;
  raw_end_station_name : option string;
  raw_end_station_id : option string;
  raw_start_lat : option Q;
  raw_start_lng : option Q;
  raw_end_lat : option Q;
  raw_end_lng : option Q;
  raw_member_casual : option string }.

(** A row of the preprocessed DataFrame: timestamps are [datetime64[ns]]
    ([None] is NaT) and the derived duration column is added. *)
Record trip : Type := mk_trip {
  ride_id : option string;
  rideable_type : option string;
  started_at : option Z;
  ended_at : option Z;
  start_station_name : option string;
  start_station_id : option string;
  end_station_name : option string;
  end_station_id : option string;
  start_lat : option Q;
  start_lng : option Q;
  end_lat : option Q;
  end_lng : option Q;
  member_casual : option string;
  trip_duration_mins : option Q }.

(** What [pd.read_csv(self.file_path)] does. *)
Inductive csv_file : Type :=
| CsvMissing
| CsvFails (e : exn)
| CsvTable (rows : list csv_row).

Definition read_csv (src : csv_file) (path : string) : res (list csv_row) :=
  match src with
  | CsvMissing => Err (FileNotFoundError ("[Errno 2] No such file or directory: " +:+ path))
  | CsvFails e => Err e
  | CsvTable rows => Ok rows
  end.

(** [pd.to_datetime] on one cell, in the format [f] inferred for its
    column: NaN gives NaT; a string that is not a timestamp in range, or
    not written in [f], raises [ValueError] (pandas' [DateParseError],
    [OutOfBoundsDatetime] or "doesn't match format"; the message is
    abbreviated). *)
Definition to_datetime_cell (f : ts_format) (cell : option string) : res (option Z) :=
  match cell with
  | None => Ok None
  | Some s =>
      match parse_datetime_as f s with
      | Some t => Ok (Some t)
      | None => Err (ValueError ("time data " +:+ s +:+ " doesn't match format"))
      end
  end.

(** The format pandas 2 infers for a column ([guess_datetime_format] on
    the first non-missing value); an all-missing column converts to NaT
    whatever the format. *)
Definition column_format (col : list (option string)) : ts_format :=
  match omap id col with
  | s :: _ => guess_format s
  | [] => FmtSeconds
  end.

(** [pd.to_datetime] on a column: every cell in the column's format; the
    first bad cell raises. *)
Definition to_datetime (col : list (option string)) : res (list (option Z)) :=
  res_mapM (to_datetime_cell (column_format col)) col.

(** The [int64] range of [datetime64[ns]] and [timedelta64[ns]] values;
    its minimum is also the sentinel of NaT. *)
Definition int64_min : Z := - 2 ^ 63.
Definition int64_max : Z := 2 ^ 63 - 1.

(** [ended_at - started_at] on one row, as pandas subtracts the [int64]
    nanosecond values ([add_overflowsafe] of [e] and [-s]): NaT on
    either side gives NaT, a difference outside [int64] raises
    [OverflowError], and a difference equal to the NaT sentinel reads
    back as NaT. *)
Definition sub_datetime (s e : option Z) : res (option Z) :=
  match s, e with
  | Some s, Some e =>
      let d := (e - s)%Z in
      if (d <? int64_min)%Z || (int64_max <? d)%Z then Err (OverflowError "Overflow in int64 addition")
      else if (d =? int64_min)%Z then Ok None
      else Ok (Some d)
  | _, _ => Ok None
  end.

(** [df['ended_at'] - df['started_at']]: an overflow in any row raises. *)
Definition sub_datetime_col (st en : list (option Z)) : res (list (option Z)) :=
  res_mapM (λ se, sub_datetime se.1 se.2) (zip st en).

(** [.dt.total_seconds() / 60] of a [timedelta64[ns]] cell; NaT gives NaN. *)
Definition duration_mins (td : option Z) : option Q :=
  (λ d, inject_Z d / inject_Z ns_per_minute)%Q <$> td.

(** The row of the preprocessed frame built from a CSV row, its two
    converted timestamps and their difference. *)
Definition trip_of_row (r : csv_row) (s e td : option Z) : trip := {|
  ride_id := raw_ride_id r;
  rideable_type := raw_rideable_type r;
  started_at := s;
  ended_at := e;
  start_station_name := raw_start_station_name r;
  start_station_id := raw_start_station_id r;
  end_station_name := raw_end_station_name r;
  end_station_id := raw_end_station_id r;
  start_lat := raw_start_lat r;
  start_lng := raw_start_lng r;
  end_lat := raw_end_lat r;
  end_lng := raw_end_lng r;
  member_casual := raw_member_casual r;
  trip_duration_mins := duration_mins td |}.

Fixpoint build_trips (rows : list csv_row) (st en tds : list (option Z)) : list trip :=
  match rows, st, en, tds with
  | r :: rows', s :: st', e :: en', td :: tds' => trip_of_row r s e td :: build_trips rows' st' en' tds'
  | _, _, _, _ => []
  end.

(** [_preprocess_data]: the [started_at] column first, then [ended_at],
    then the duration column. *)
Definition preprocess_data (rows : list csv_row) : res (list trip) :=
  st ← to_datetime (map raw_started_at rows);
  en ← to_datetime (map raw_ended_at rows);
  tds ← sub_datetime_col st en;
  Ok (build_trips rows st en tds).

(** [CitibikeDataLoader.load]: the [try] block and its two handlers. *)
Definition load (src : csv_file) (file_path : string) : res (list trip) :=
  match (rows ← read_csv src file_path; preprocess_data rows) with
  | Ok df => Ok df
  | Err (FileNotFoundError _) => Err (FileNotFoundError ("Data file not found: " +:+ file_path))
  | Err e => Err (Exception ("Error processing file: " +:+ exn_str e))
  end.

(** A small table of the data set's shape, for the witnesses below: the
    second row has a missing start time and a missing end latitude. *)
Definition demo_row (ride : string) (st en : option string) (slat slng elat elng : option Q)
    : csv_row :=
  mk_csv_row (Some ride) (Some "classic_bike") st en (Some "Grove St PATH") (Some "JC005")
    (Some "Hamilton Park") (Some "JC009") slat slng elat elng (Some "member").

Definition demo_rows : list csv_row :=
  [demo_row "A1" (Some "2025-01-01 08:00:00") (Some "2025-01-01 08:12:30.500")
     (Some (407196 # 10000)%Q) (Some (-740431 # 10000)%Q) (Some (407276 # 10000)%Q)
     (Some (-740447 # 10000)%Q);
   demo_row "A2" None (Some "2025-01-02 09:00:00.250")
     (Some (407196 # 10000)%Q) (Some (-740431 # 10000)%Q) None (Some (-740447 # 10000)%Q)].

(** The table pandas refuses: the [ended_at] column mixes a timestamp
    with fractional seconds and one without. *)
Definition demo_mixed_rows : list csv_row :=
  [demo_row "M1" (Some "2025-01-01 08:00:00") (Some "2025-01-01 08:12:30.500") None None None None;
   demo_row "M2" (Some "2025-01-02 08:00:00") (Some "2025-01-02 09:00:00") None None None None].

(** The difference of two timestamps fits in [int64]. *)
Definition diff_fits (s e : option Z) : Prop :=
  match s, e with
  | Some s, Some e => (int64_min <= e - s <= int64_max)%Z
  | _, _ => True
  end.

(** What loading needs of one row, given the formats [fs] and [fe] of the
    two columns: both timestamps convert and their difference fits in
    [int64]. *)
Definition row_loads (fs fe : ts_format) (r : csv_row) : Prop :=
  match to_datetime_cell fs (raw_started_at r), to_datetime_cell fe (raw_ended_at r) with
  | Ok s, Ok e => diff_fits s e
  | _, _ => False
  end.

(** A file whose one ride starts in 1700 and ends in 2250: both
    timestamps are in range, their difference is not. *)
Definition demo_overflow_rows : list csv_row :=
  [demo_row "L1" (Some "1700-01-01 00:00:00") (Some "2250-01-01 00:00:00") None None None None].

(** ** Properties *)

Lemma sub_datetime_spec (s e td : option Z) :
  sub_datetime s e = Ok td →
  diff_fits s e ∧
  td = match s, e with
       | Some s, Some e => if (e - s =? int64_min)%Z then None else Some (e - s)%Z
       | _, _ => None
       end.
Proof.
  destruct s as [s|], e as [e|]; simpl; [|by intros [= <-]..].
  destruct (Z.ltb_spec (e - s) int64_min), (Z.ltb_spec int64_max (e - s)); simpl; try discriminate.
  destruct (Z.eqb (e - s) int64_min); intros [= <-]; split; done || lia.
Qed.

Lemma sub_datetime_fits (s e : option Z) : (∃ td, sub_datetime s e = Ok td) ↔ diff_fits s e.
Proof.
  split; [intros [td (? & _)%sub_datetime_spec]; done|].
  destruct s as [s|], e as [e|]; simpl; eauto. intros Hd.
  destruct (Z.ltb_spec (e - s) int64_min), (Z.ltb_spec int64_max (e - s)); simpl; try lia.
  case_match; eauto.
Qed.

Lemma build_trips_duration (rows : list csv_row) (st en tds : list (option Z)) :
  Forall2 (λ se td, sub_datetime se.1 se.2 = Ok td) (zip st en) tds →
  Forall (λ t, diff_fits (started_at t) (ended_at t) ∧
     trip_duration_mins t =
       duration_mins (match started_at t, ended_at t with
                      | Some s, Some e => if (e - s =? int64_min)%Z then None else Some (e - s)%Z
                      | _, _ => None
                      end)) (build_trips rows st en tds).
Proof.
  revert st en tds. induction rows as [|r rows IH]; intros [|s st] [|e en] tds Htd; simpl; auto.
  inversion Htd as [|? td ? tds' Hsub Hrest]; subst. constructor; [|by apply IH].
  apply sub_datetime_spec in Hsub as [? ->]. done.
Qed.

Lemma preprocess_Ok (rows : list csv_row) (trips : list trip) :
  preprocess_data rows = Ok trips →
  ∃ st en tds, to_datetime (map raw_started_at rows) = Ok st ∧
               to_datetime (map raw_ended_at rows) = Ok en ∧
               sub_datetime_col st en = Ok tds ∧
               trips = build_trips rows st en tds.
Proof. unfold preprocess_data. intros H. res_inv. subst. eauto 10. Qed.

Lemma build_trips_Forall2 (fs fe : ts_format) (rows : list csv_row)
    (st en tds : list (option Z)) :
  Forall2 (λ c v, to_datetime_cell fs c = Ok v) (map raw_started_at rows) st →
  Forall2 (λ c v, to_datetime_cell fe c = Ok v) (map raw_ended_at rows) en →
  Forall2 (λ se td, sub_datetime se.1 se.2 = Ok td) (zip st en) tds →
  Forall2 (λ r t, ∃ s e td, to_datetime_cell fs (raw_started_at r) = Ok s ∧
                            to_datetime_cell fe (raw_ended_at r) = Ok e ∧
                            sub_datetime s e = Ok td ∧ t = trip_of_row r s e td)
    rows (build_trips rows st en tds).
Proof.
  revert st en tds. induction rows as [|r rows IH]; intros st en tds Hs He Htd;
    inversion Hs; inversion He; subst; simpl; [constructor|].
  inversion Htd; subst. constructor; eauto 10.
Qed.

(** Rows that each load give the three converted columns. *)
Lemma rows_load_columns (fs fe : ts_format) (rows : list csv_row) :
  Forall (row_loads fs fe) rows →
  ∃ st en tds, Forall2 (λ c v, to_datetime_cell fs c = Ok v) (map raw_started_at rows) st ∧
               Forall2 (λ c v, to_datetime_cell fe c = Ok v) (map raw_ended_at rows) en ∧
               Forall2 (λ se td, sub_datetime se.1 se.2 = Ok td) (zip st en) tds.
Proof.
  induction 1 as [|r rows Hr _ (st & en & tds & Hs & He & Htd)]; [exists [], [], []; eauto|].
  unfold row_loads in Hr.
  destruct (to_datetime_cell fs (raw_started_at r)) as [s|] eqn:Hs0; [|done].
  destruct (to_datetime_cell fe (raw_ended_at r)) as [e|] eqn:He0; [|done].
  destruct (proj2 (sub_datetime_fits s e) Hr) as [td Htd0].
  exists (s :: st), (e :: en), (td :: tds). simpl. split_and!; by constructor.
Qed.

Lemma load_Ok_inv (src : csv_file) (p : string) (trips : list trip) :
  load src p = Ok trips → ∃ rows, src = CsvTable rows ∧ preprocess_data rows = Ok trips.
Proof.
  unfold load. destruct src as [| e | rows]; simpl; [by intros [=]| |].
  - destruct e; by intros [=].
  - destruct (preprocess_data rows) as [df|[]] eqn:Hp; intros [=]; subst; eauto.
Qed.

(** C3: Every row of a loaded table carries the duration of its own trip:
    [(ended_at - started_at)] in minutes, which fits in [int64], or NaN
    when a timestamp is NaT or the difference is the NaT sentinel
    [-2^63]. *)
Theorem load_duration_consistent (src : csv_file) (p : string) (trips : list trip) :
  load src p = Ok trips →
  Forall (λ t, diff_fits (started_at t) (ended_at t) ∧
     trip_duration_mins t =
       match started_at t, ended_at t with
       | Some s, Some e => if (e - s =? int64_min)%Z then None
                           else Some (inject_Z (e - s) / inject_Z ns_per_minute)%Q
       | _, _ => None
       end) trips.
Proof.
  intros (rows & -> & (st & en & tds & _ & _ & Htd & ->)%preprocess_Ok)%load_Ok_inv.
  apply res_mapM_Ok in Htd. eapply Forall_impl; [exact (build_trips_duration rows _ _ _ Htd)|].
  intros t [Hf ->]. split; [done|].
  destruct (started_at t), (ended_at t); [destruct (_ =? _)%Z|..]; reflexivity.
Qed.

(** C10: The loaded table has one row per CSV row, in order: the row's cells
    with its two timestamps converted by [pd.to_datetime] in the format
    inferred for their column, and the duration of their difference. *)
Theorem load_rows (rows : list csv_row) (p : string) (trips : list trip) :
  load (CsvTable rows) p = Ok trips →
  Forall2 (λ r t, ∃ s e td,
      to_datetime_cell (column_format (map raw_started_at rows)) (raw_started_at r) = Ok s ∧
      to_datetime_cell (column_format (map raw_ended_at rows)) (raw_ended_at r) = Ok e ∧
                            sub_datetime s e = Ok td ∧ t = trip_of_row r s e td)
    rows trips.
Proof.
  intros (? & [= <-] & (st & en & tds & Hs & He & Htd & ->)%preprocess_Ok)%load_Ok_inv.
  apply res_mapM_Ok in Hs, He, Htd. by apply build_trips_Forall2.
Qed.

(** C8: Loading an existing file succeeds exactly when, in every row,
    both timestamp cells convert in the format pandas infers from the
    first non-missing cell of their column (a column mixing timestamps
    with and without fractional seconds fails), and the trip's duration
    fits in the [int64] nanoseconds of [timedelta64[ns]]: a ride of more
    than about 292 years makes the whole load fail with
    [OverflowError]. *)
Theorem load_Ok_iff (rows : list csv_row) (p : string) :
  (∃ trips, load (CsvTable rows) p = Ok trips) ↔
  Forall (row_loads (column_format (map raw_started_at rows))
                    (column_format (map raw_ended_at rows))) rows.
Proof.
  split.
  - intros [trips (? & [= <-] & (st & en & tds & Hs & He & Htd & ->)%preprocess_Ok)%load_Ok_inv].
    apply res_mapM_Ok in Hs, He, Htd.
    eapply Forall2_Forall_l; [exact (build_trips_Forall2 _ _ _ _ _ _ Hs He Htd)|].
    apply Forall_forall. intros r _ t (s & e & td & Hs0 & He0 & Htd0 & _).
    unfold row_loads. rewrite Hs0, He0. by apply sub_datetime_spec in Htd0 as [? _].
  - intros (st & en & tds & Hs & He & Htd)%rows_load_columns.
    apply res_mapM_Ok in Hs, He, Htd. change (sub_datetime_col st en = Ok tds) in Htd.
    unfold load, preprocess_data, read_csv, to_datetime. rewrite bind_Ok, Hs, bind_Ok, He, bind_Ok, Htd.
    simpl. eauto.
Qed.

(** C9: The loader raises only its two exception kinds: the file-not-found
    error naming the path, or the wrapped processing error. *)
Theorem load_errors (src : csv_file) (p : string) (e : exn) :
  load src p = Err e →
  e = FileNotFoundError ("Data file not found: " +:+ p) ∨
  ∃ m, e = Exception ("Error processing file: " +:+ m).
Proof.
  unfold load. destruct (_ ≫= _) as [df|[]]; intros [= <-]; eauto.
Qed.
(** ** Witnesses *)

Lemma load_duration_consistent_witness :
  ∃ trips, load (CsvTable demo_rows) "data.csv" = Ok trips ∧
  Forall (λ t, diff_fits (started_at t) (ended_at t) ∧
     trip_duration_mins t =
       match started_at t, ended_at t with
       | Some s, Some e => if (e - s =? int64_min)%Z then None
                           else Some (inject_Z (e - s) / inject_Z ns_per_minute)%Q
       | _, _ => None
       end) trips.
Proof.
  eexists. split; [reflexivity|]. apply (load_duration_consistent (CsvTable demo_rows) "data.csv").
  reflexivity.
Defined.

Lemma load_rows_witness :
  ∃ trips, load (CsvTable demo_rows) "data.csv" = Ok trips ∧
  Forall2 (λ r t, ∃ s e td,
      to_datetime_cell (column_format (map raw_started_at demo_rows)) (raw_started_at r) = Ok s ∧
      to_datetime_cell (column_format (map raw_ended_at demo_rows)) (raw_ended_at r) = Ok e ∧
                            sub_datetime s e = Ok td ∧ t = trip_of_row r s e td)
    demo_rows trips.
Proof. eexists. split; [reflexivity|]. apply (load_rows demo_rows "data.csv"). reflexivity. Defined.

(** Both timestamps of [demo_overflow_rows] are in range, yet loading
    fails: the duration does not fit in [int64]. *)
Lemma load_overflow_example :
  (∃ st, to_datetime (map raw_started_at demo_overflow_rows) = Ok st) ∧
  (∃ en, to_datetime (map raw_ended_at demo_overflow_rows) = Ok en) ∧
  load (CsvTable demo_overflow_rows) "data.csv" =
    Err (Exception ("Error processing file: " +:+ "Overflow in int64 addition")).
Proof. split_and!; [eexists; reflexivity | eexists; reflexivity | reflexivity]. Qed.

(** A column whose first timestamp has fractional seconds and whose
    second has none: each cell is a valid timestamp, yet the column does
    not convert, and the load fails. *)
Lemma load_mixed_format_example :
  (∀ c, c ∈ map raw_ended_at demo_mixed_rows →
        ∀ s, c = Some s → is_Some (parse_datetime s)) ∧
  load (CsvTable demo_mixed_rows) "data.csv" =
    Err (Exception ("Error processing file: " +:+
                    "time data 2025-01-02 09:00:00 doesn't match format")).
Proof.
  split; [|reflexivity].
  intros c Hc s ->. simpl in Hc.
  repeat (apply elem_of_cons in Hc as [[= ->]|Hc]; [eexists; reflexivity|]).
  by apply elem_of_nil in Hc.
Qed.

Lemma load_errors_witness :
  load CsvMissing "data.csv" = Err (FileNotFoundError "Data file not found: data.csv") ∧
  (FileNotFoundError "Data file not found: data.csv" =
     FileNotFoundError ("Data file not found: " +:+ "data.csv") ∨
   ∃ m, FileNotFoundError "Data file not found: data.csv" =
        Exception ("Error processing file: " +:+ m)).
Proof. split; [reflexivity|]. apply (load_errors CsvMissing "data.csv"). reflexivity. Defined.
End DataLoader.
