(* ===== verification/ValueCounts.v ===== *)
(** * [Series.value_counts] and the tables built from it

    [TripAnalyzer], [SpatialAnalyzer] and [CityAnalyzer] print the
    result of [value_counts()] on a column, its first rows ([head]),
    the hourly table sorted by hour ([sort_index]) and the percentage
    series [counts / len(df) * 100].  [value_counts] drops NaN, groups
    the remaining values in order of first occurrence (a hash-table
    pass, modelled with the counter dict [PyDict.incr] of the prelude)
    and sorts the groups by count, largest first.  pandas sorts with a
    stable algorithm when the table is small and an unstable one
    otherwise; the model sorts with stdpp's stable [merge_sort], and no
    theorem of this file depends on the order of equal counts. *)

From S2P Require Import Prelude.
From stdpp Require Import sorting.
Close Scope Q_scope.

Module ValueCounts.

Section VC.
Context {K : Type} `{EqDecision K}.

(** The order of [value_counts]: larger counts first. *)
Definition by_count_desc : relation (K * nat) := λ x y, (y.2 ≤ x.2)%nat.

#[export] Instance by_count_desc_dec : RelDecision by_count_desc :=
  λ x y, decide (y.2 ≤ x.2)%nat.

(** The grouping pass: the non-NaN values, counted in a dict in order of
    first occurrence. *)
Definition count_values (col : list (option K)) : list (K * nat) :=
  foldl PyDict.incr [] (present col).

(** [col.value_counts()]. *)
Definition value_counts (col : list (option K)) : list (K * nat) :=
  merge_sort by_count_desc (count_values col).

(** [s.head(n)]; pandas' default is [n = 5]. *)
Definition head (n : nat) (s : list (K * nat)) : list (K * nat) := take n s.

(** [s / len(df) * 100] for a count series [s]. *)
Definition percentages (s : list (K * nat)) (len : nat) : list (K * Q) :=
  map (λ kc, (kc.1, inject_Z (Z.of_nat kc.2) / inject_Z (Z.of_nat len) * 100)%Q) s.

(** The number of cells of [col] holding [k]: what a count must be. *)
Definition occurrences (col : list (option K)) (k : K) : nat :=
  count_if (λ v, bool_decide (v = Some k)) col.
End VC.

(** [s.sort_index()] on a count series with integer keys (the hours of
    [TripAnalyzer._analyze_temporal_patterns]). *)
Definition by_key : relation (Z * nat) := λ x y, (x.1 ≤ y.1)%Z.

#[export] Instance by_key_dec : RelDecision by_key := λ x y, decide (x.1 ≤ y.1)%Z.

Definition sort_index (s : list (Z * nat)) : list (Z * nat) := merge_sort by_key s.

(** A rider-type column with one missing cell. *)
Definition demo_col : list (option string) := [Some "member"; Some "casual"; None; Some "member"].

(** ** Facts about the dict and the sort *)

Section Facts.
Context {K : Type} `{EqDecision K}.
Implicit Types (d : list (K * nat)) (col : list (option K)).

#[local] Instance by_count_desc_trans : Transitive (@by_count_desc K).
Proof. intros x y z; unfold by_count_desc; lia. Qed.

#[local] Instance by_count_desc_total : Total (@by_count_desc K).
Proof. intros x y; unfold by_count_desc; lia. Qed.

Lemma foldl_incr_get d (l : list K) (k : K) :
  PyDict.get_default (foldl PyDict.incr d l) k =
  (PyDict.get_default d k + count_if (λ v, bool_decide (v = k)) l)%nat.
Proof.
  revert d. induction l as [|v l IH]; intros d; simpl; [unfold count_if; simpl; lia|].
  rewrite IH. unfold count_if; simpl. unfold PyDict.get_default at 1.
  rewrite PyDictFacts.get_incr. unfold PyDict.get_default.
  case_decide; case_bool_decide; subst; simpl; try congruence; lia.
Qed.

Lemma foldl_incr_invariant d (l : list K) :
  NoDup (PyDict.keys d) → Forall (λ kc, 0 < kc.2)%nat d →
  NoDup (PyDict.keys (foldl PyDict.incr d l)) ∧ Forall (λ kc, 0 < kc.2)%nat (foldl PyDict.incr d l).
Proof. revert d. induction l as [|v l IH]; intros d ??; simpl; [done|]. apply IH; auto with maps. Qed.

Lemma foldl_incr_sum d (l : list K) :
  sum_nat (PyDict.values (foldl PyDict.incr d l)) = (sum_nat (PyDict.values d) + length l)%nat.
Proof.
  revert d. induction l as [|v l IH]; intros d; simpl; [lia|].
  rewrite IH, PyDictFacts.sum_values_incr. lia.
Qed.

Lemma count_if_present col (k : K) :
  count_if (λ v, bool_decide (v = k)) (present col) = occurrences col k.
Proof.
  unfold occurrences, count_if. induction col as [|[v|] col IH]; simpl; [done| |done].
  repeat case_bool_decide; simplify_eq; simpl; congruence.
Qed.

Lemma get_Permutation d d' (k : K) :
  NoDup (PyDict.keys d) → d ≡ₚ d' → PyDict.get d k = PyDict.get d' k.
Proof.
  intros Hnd Hp. assert (NoDup (PyDict.keys d')) as Hnd'.
  { unfold PyDict.keys. by rewrite <- Hp. }
  destruct (PyDict.get d k) as [c|] eqn:Hg.
  - symmetry. apply PyDictFacts.get_Some_elem; [done|]. rewrite <- Hp. by apply PyDictFacts.get_Some_elem.
  - destruct (PyDict.get d' k) as [c|] eqn:Hg'; [|done].
    apply PyDictFacts.get_Some_elem in Hg'; [|done]. rewrite <- Hp in Hg'.
    apply PyDictFacts.get_Some_elem in Hg'; [congruence|done].
Qed.

Lemma value_counts_Permutation col : value_counts col ≡ₚ count_values col.
Proof. apply merge_sort_Permutation. Qed.

Lemma count_values_get col (k : K) :
  PyDict.get_default (count_values col) k = occurrences col k.
Proof. unfold count_values. rewrite foldl_incr_get, count_if_present. done. Qed.

Lemma count_values_invariant col :
  NoDup (PyDict.keys (count_values col)) ∧ Forall (λ kc, 0 < kc.2)%nat (count_values col).
Proof. apply foldl_incr_invariant; [apply NoDup_nil_2 | constructor]. Qed.

Lemma value_counts_invariant col :
  NoDup (PyDict.keys (value_counts col)) ∧ Forall (λ kc, 0 < kc.2)%nat (value_counts col).
Proof.
  rewrite value_counts_Permutation. apply count_values_invariant.
Qed.

Lemma value_counts_get col (k : K) :
  PyDict.get_default (value_counts col) k = occurrences col k.
Proof.
  unfold PyDict.get_default. rewrite <- (get_Permutation (count_values col)).
  - apply count_values_get.
  - apply count_values_invariant.
  - symmetry. apply value_counts_Permutation.
Qed.

Lemma value_counts_sorted col : StronglySorted by_count_desc (value_counts col).
Proof. apply StronglySorted_merge_sort; apply _. Qed.

Lemma percentages_sum (s : list (K * nat)) (len : nat) :
  (sumQ (map snd (percentages s len)) ==
   inject_Z (Z.of_nat (sum_nat (PyDict.values s))) / inject_Z (Z.of_nat len) * 100)%Q.
Proof.
  induction s as [|[k c] s IH]; simpl; [unfold Qdiv; simpl; ring|].
  unfold sumQ in *. simpl. rewrite IH. unfold sum_nat. simpl.
  rewrite Nat2Z.inj_add, inject_Z_plus. unfold Qdiv. ring.
Qed.

(** [p / n * 100] is 100 exactly when [p = n], for a positive [n]. *)
Lemma Q_percent_100 (p n : nat) :
  n ≠ 0%nat → (inject_Z (Z.of_nat p) / inject_Z (Z.of_nat n) * 100 == 100)%Q ↔ p = n.
Proof.
  intros Hn. destruct n as [|n]; [done|].
  unfold Qeq, Qdiv, Qmult, Qinv, inject_Z. simpl.
  rewrite Pos.mul_1_l, Pos.mul_1_r, Zpos_P_of_succ_nat. split; intros; lia.
Qed.

Lemma length_present_le {A} (l : list (option A)) : (length (present l) ≤ length l)%nat.
Proof. unfold present. induction l as [|[a|] l IH]; cbn in *; lia. Qed.

Lemma length_present {A} (l : list (option A)) :
  length (present l) = length l ↔ Forall is_Some l.
Proof.
  pose proof (length_present_le l) as Hle. unfold present in *.
  induction l as [|[a|] l IH]; cbn in *.
  - split; [constructor|done].
  - rewrite Forall_cons, <- IH by lia.
    split; [intros [= H]; split; [by eexists|done] | intros [_ H]; by f_equal].
  - rewrite Forall_cons. pose proof (length_present_le l). unfold present in *.
    split; [lia|]. intros [[? [=]] _].
Qed.

End Facts.

#[export] Hint Resolve value_counts_invariant value_counts_sorted : maps.

#[local] Instance by_key_trans : Transitive by_key.
Proof. intros x y z; unfold by_key; lia. Qed.

#[local] Instance by_key_total : Total by_key.
Proof. intros x y; unfold by_key; lia. Qed.

Lemma sort_index_Permutation (s : list (Z * nat)) : sort_index s ≡ₚ s.
Proof. apply merge_sort_Permutation. Qed.

(** Sorted by key with distinct keys means strictly increasing keys. *)
Lemma sort_index_strict (s : list (Z * nat)) :
  NoDup (PyDict.keys s) → StronglySorted (λ x y, (x.1 < y.1)%Z) (sort_index s).
Proof.
  intros Hnd. assert (NoDup (PyDict.keys (sort_index s))) as Hnd' by by rewrite sort_index_Permutation.
  assert (StronglySorted by_key (sort_index s)) as Hs by (apply StronglySorted_merge_sort; apply _).
  clear Hnd. induction Hs as [|a l Hl IH Hall]; constructor.
  - apply IH. unfold PyDict.keys in *. simpl in Hnd'. by apply NoDup_cons in Hnd' as [_ ?].
  - unfold PyDict.keys in Hnd'. simpl in Hnd'. apply NoDup_cons in Hnd' as [Hn _].
    rewrite Forall_forall in Hall |- *. intros y Hy. specialize (Hall y Hy). unfold by_key in Hall.
    assert (a.1 ≠ y.1); [|lia]. intros Heq. apply Hn. rewrite Heq.
    apply list_elem_of_In, in_map, list_elem_of_In, Hy.
Qed.

Lemma sort_index_get (s : list (Z * nat)) (k : Z) :
  NoDup (PyDict.keys s) → PyDict.get (sort_index s) k = PyDict.get s k.
Proof. intros Hnd. symmetry. apply get_Permutation; [done|]. by rewrite sort_index_Permutation. Qed.

(** ** The properties of the tables *)

Section Tables.
Context {K : Type} `{EqDecision K}.
Implicit Types (col : list (option K)).

(** A key is listed exactly when some cell holds it. *)
Lemma value_counts_keys col (k : K) : k ∈ PyDict.keys (value_counts col) ↔ Some k ∈ col.
Proof.
  destruct (value_counts_invariant col) as [Hnd Hpos].
  pose proof (value_counts_get col k) as Hk. unfold PyDict.get_default, occurrences, count_if in *.
  destruct (PyDict.get (value_counts col) k) as [c|] eqn:Hg; simpl in Hk; split.
  - intros _. apply PyDictFacts.get_Some_elem in Hg; [|done]. rewrite Forall_forall in Hpos.
    specialize (Hpos _ Hg). simpl in Hpos. subst c.
    destruct (List.filter _ _) as [|v l] eqn:Hf; [simpl in Hpos; lia|].
    assert (v ∈ List.filter (λ v, bool_decide (v = Some k)) col) as Hv by (rewrite Hf; left).
    apply list_elem_of_In, filter_In in Hv as [Hv Hb]. apply bool_decide_eq_true in Hb. subst.
    by apply list_elem_of_In.
  - intros _. by eapply PyDictFacts.get_Some_in.
  - intros Hin. by apply PyDictFacts.get_None_notin in Hg.
  - intros Hin. apply list_elem_of_In in Hin.
    assert (In (Some k) (List.filter (λ v, bool_decide (v = Some k)) col)) as Hf.
    { apply filter_In. split; [done|]. by apply bool_decide_eq_true. }
    destruct (List.filter _ _); [done|]. simpl in Hk. lia.
Qed.

(** In a list sorted by decreasing count, the first [n] entries have the
    largest counts. *)
Lemma sorted_take_drop_count (s : list (K * nat)) (n : nat) (x y : K * nat) :
  StronglySorted by_count_desc s → x ∈ take n s → y ∈ drop n s → (y.2 ≤ x.2)%nat.
Proof.
  intros Hs Hx Hy. rewrite <- (take_drop n s) in Hs.
  exact (StronglySorted_app_1_elem_of _ _ _ _ _ Hs Hx Hy).
Qed.

(** C19: [value_counts] counts every value exactly: the count stored for a
    key is the number of cells holding it, a key is listed iff some cell
    holds it, keys are listed once and no count is zero. *)
Theorem value_counts_spec col :
  (∀ k, PyDict.get_default (value_counts col) k = occurrences col k) ∧
  (∀ k, k ∈ PyDict.keys (value_counts col) ↔ Some k ∈ col) ∧
  NoDup (PyDict.keys (value_counts col)) ∧
  Forall (λ kc, 0 < kc.2)%nat (value_counts col).
Proof.
  destruct (value_counts_invariant col) as [Hnd Hpos].
  split_and!; [apply value_counts_get | apply value_counts_keys | done | done].
Qed.

(** C20: The percentage table [counts / len(df) * 100] of a column sums
    to [100 * (non-NaN cells) / len(df)]: it adds up to 100 exactly when
    the column has no NaN, since [value_counts] drops NaN cells while
    [len(df)] counts them. *)
Theorem percentages_total col :
  length col ≠ 0%nat →
  (sumQ (map snd (percentages (value_counts col) (length col))) ==
     inject_Z (Z.of_nat (length (present col))) / inject_Z (Z.of_nat (length col)) * 100)%Q ∧
  ((sumQ (map snd (percentages (value_counts col) (length col))) == 100)%Q ↔ Forall is_Some col).
Proof.
  intros Hn. rewrite percentages_sum, value_counts_Permutation. unfold count_values.
  rewrite foldl_incr_sum. split; [reflexivity|].
  rewrite Q_percent_100 by done. apply length_present.
Qed.

End Tables.

(** ** Witnesses *)

Lemma percentages_total_witness :
  length demo_col ≠ 0%nat ∧
  ((sumQ (map snd (percentages (value_counts demo_col) (length demo_col))) ==
     inject_Z (Z.of_nat (length (present demo_col))) / inject_Z (Z.of_nat (length demo_col)) * 100)%Q ∧
  ((sumQ (map snd (percentages (value_counts demo_col) (length demo_col))) == 100)%Q ↔
     Forall is_Some demo_col)).
Proof.
  assert (length demo_col ≠ 0%nat) as Hn by (vm_compute; discriminate).
  split; [exact Hn | exact (percentages_total demo_col Hn)].
Defined.

End ValueCounts.
