(* ===== verification/Stats.v ===== *)
(** * [Series.mean] and [Series.median] with NaN skipped

    [TripAnalyzer._analyze_basic_stats] prints the mean and the median
    of the [trip_duration_mins] column.  pandas skips NaN in both
    ([skipna=True]) and returns NaN when no number is left; the median
    of an even number of values is the mean of the two middle ones
    (numpy's [nanmedian]).  Values are exact rationals, NaN is [None]. *)

From S2P Require Import Prelude.
From stdpp Require Import sorting.
Close Scope Q_scope.

Module Stats.

#[export] Instance Qle_rel_dec : RelDecision Qle :=
  λ x y, match Qlt_le_dec y x with
         | left H => right (Qlt_not_le _ _ H)
         | right H => left H
         end.

(** [col.mean()]. *)
Definition mean (col : list (option Q)) : option Q :=
  match present col with
  | [] => None
  | vs => Some (sumQ vs / inject_Z (Z.of_nat (length vs)))%Q
  end.

(** The non-NaN values in increasing order. *)
Definition sorted_values (col : list (option Q)) : list Q := merge_sort Qle (present col).

(** [col.median()]. *)
Definition median (col : list (option Q)) : option Q :=
  let vs := sorted_values col in
  let n := length vs in
  match n with
  | O => None
  | _ => if Nat.even n then Some ((nth (n / 2 - 1) vs 0 + nth (n / 2) vs 0) / 2)%Q
         else Some (nth (n / 2) vs 0%Q)
  end.

(** A duration column with a missing value. *)
Definition demo_durations : list (option Q) := [Some 12%Q; None; Some 3%Q; Some 7%Q; Some 30%Q].

(** ** Lemmas *)

#[local] Instance Qle_trans' : Transitive Qle.
Proof. intros x y z. apply Qle_trans. Qed.

#[local] Instance Qle_total : Total Qle.
Proof. intros x y. destruct (Qlt_le_dec x y); [left; by apply Qlt_le_weak | by right]. Qed.

Lemma sorted_values_Permutation col : sorted_values col ≡ₚ present col.
Proof. apply merge_sort_Permutation. Qed.

Lemma sorted_values_sorted col : StronglySorted Qle (sorted_values col).
Proof. apply StronglySorted_merge_sort; apply _. Qed.

Lemma count_if_app {A} (p : A → bool) (l1 l2 : list A) :
  count_if p (l1 ++ l2) = (count_if p l1 + count_if p l2)%nat.
Proof. unfold count_if. induction l1 as [|x l1 IH]; simpl; [done|]. case_match; simpl; lia. Qed.

Lemma count_if_all {A} (p : A → bool) (l : list A) :
  Forall (λ x, p x = true) l → count_if p l = length l.
Proof. unfold count_if. induction 1 as [|x l Hx _ IH]; simpl; [done|]. rewrite Hx. simpl. lia. Qed.

Lemma count_if_le {A} (p : A → bool) (l : list A) : (count_if p l ≤ length l)%nat.
Proof. unfold count_if. induction l as [|x l IH]; simpl; [lia|]. case_match; simpl; lia. Qed.

(** In an increasing list, everything up to position [i] is at most the
    element at [i], everything from [i] on is at least it. *)
Lemma sorted_take_le (vs : list Q) (i : nat) (a : Q) :
  StronglySorted Qle vs → vs !! i = Some a → Forall (λ v, v <= a)%Q (take (S i) vs).
Proof.
  intros Hs. revert i. induction Hs as [|x vs Hs IH Hx]; intros i Hi; [done|].
  destruct i as [|i]; simpl in Hi.
  - injection Hi as ->. repeat constructor. apply Qle_refl.
  - constructor; [|by apply IH]. rewrite Forall_forall in Hx. apply Hx.
    apply list_elem_of_lookup_2 in Hi. done.
Qed.

Lemma sorted_drop_ge (vs : list Q) (i : nat) (a : Q) :
  StronglySorted Qle vs → vs !! i = Some a → Forall (λ v, a <= v)%Q (drop i vs).
Proof.
  intros Hs. revert i. induction Hs as [|x vs Hs IH Hx]; intros i Hi; [done|].
  destruct i as [|i]; simpl in Hi; [|by apply IH].
  injection Hi as ->. constructor; [apply Qle_refl | done].
Qed.

Lemma count_le_sorted (vs : list Q) (i : nat) (a m : Q) :
  StronglySorted Qle vs → vs !! i = Some a → (a <= m)%Q →
  (S i ≤ count_if (λ v, Qle_bool v m) vs)%nat.
Proof.
  intros Hs Hi Ham. rewrite <- (take_drop (S i) vs), count_if_app.
  rewrite (count_if_all _ (take (S i) vs)).
  - apply lookup_lt_Some in Hi. rewrite length_take. lia.
  - eapply Forall_impl; [by eapply sorted_take_le|]. intros v Hv. apply Qle_bool_iff.
    exact (Qle_trans _ _ _ Hv Ham).
Qed.

Lemma count_ge_sorted (vs : list Q) (i : nat) (a m : Q) :
  StronglySorted Qle vs → vs !! i = Some a → (m <= a)%Q →
  (length vs - i ≤ count_if (λ v, Qle_bool m v) vs)%nat.
Proof.
  intros Hs Hi Hma. rewrite <- (take_drop i vs), count_if_app.
  rewrite (count_if_all _ (drop i vs)).
  - rewrite length_drop, take_drop. lia.
  - eapply Forall_impl; [by eapply sorted_drop_ge|]. intros v Hv. apply Qle_bool_iff.
    exact (Qle_trans _ _ _ Hma Hv).
Qed.

Lemma sumQ_bounds (lo hi : Q) (vs : list Q) :
  Forall (λ v, lo <= v <= hi)%Q vs →
  (inject_Z (Z.of_nat (length vs)) * lo <= sumQ vs <= inject_Z (Z.of_nat (length vs)) * hi)%Q.
Proof.
  unfold sumQ. induction 1 as [|v vs [Hlo Hhi] _ [IHlo IHhi]]; simpl.
  - rewrite !Qmult_0_l. split; apply Qle_refl.
  - rewrite Nat2Z.inj_succ, <- Z.add_1_l, inject_Z_plus, !Qmult_plus_distr_l, !Qmult_1_l.
    split; apply Qplus_le_compat; assumption.
Qed.

Lemma sorted_lookup_le (vs : list Q) (i j : nat) (a b : Q) :
  StronglySorted Qle vs → vs !! i = Some a → vs !! j = Some b → (i ≤ j)%nat → (a <= b)%Q.
Proof.
  intros Hs Ha Hb Hij. pose proof (sorted_take_le vs j b Hs Hb) as Hall.
  rewrite Forall_forall in Hall. apply Hall, (list_elem_of_lookup_2 _ i).
  rewrite lookup_take_lt by lia. done.
Qed.

Lemma half_sum_bounds (a b : Q) : (a <= b)%Q → (a <= (a + b) / 2 <= b)%Q.
Proof.
  intros Hab. split; [apply Qle_shift_div_l | apply Qle_shift_div_r]; lra.
Qed.

Lemma even_div2 (n : nat) : Nat.even n = true → n = (2 * (n / 2))%nat.
Proof. intros H. apply Nat.even_spec in H as [k ->]. rewrite (Nat.mul_comm 2 k), Nat.div_mul; lia. Qed.

Lemma odd_div2 (n : nat) : Nat.even n = false → n = (2 * (n / 2) + 1)%nat.
Proof.
  intros H. assert (Nat.odd n = true) as Ho by (unfold Nat.odd; by rewrite H).
  apply Nat.odd_spec in Ho as [k ->]. replace ((2 * k + 1) / 2)%nat with k; [lia|].
  apply (Nat.div_unique _ _ _ 1); lia.
Qed.

Lemma length_sorted_values col : length (sorted_values col) = length (present col).
Proof. apply Permutation_length, sorted_values_Permutation. Qed.

Lemma mean_None_iff (col : list (option Q)) : mean col = None ↔ present col = [].
Proof. unfold mean. destruct (present col); split; done. Qed.

Lemma median_None_iff (col : list (option Q)) : median col = None ↔ present col = [].
Proof.
  unfold median. cbv zeta. rewrite <- length_zero_iff_nil, <- length_sorted_values.
  destruct (length (sorted_values col)); [done|]. split; [by destruct (Nat.even _) | lia].
Qed.

(** ** Properties *)

(** C21: The printed mean duration lies between any lower and upper bound
    of the non-NaN durations. *)
Theorem mean_bounds (col : list (option Q)) (lo hi m : Q) :
  Forall (λ v, lo <= v <= hi)%Q (present col) → mean col = Some m → (lo <= m <= hi)%Q.
Proof.
  unfold mean. intros Hb Hm. destruct (present col) as [|v vs]; [discriminate|].
  injection Hm as <-. apply sumQ_bounds in Hb as [Hlo Hhi].
  assert (0 < inject_Z (Z.of_nat (length (v :: vs))))%Q as Hpos by (unfold Qlt; simpl; lia).
  split; [apply Qle_shift_div_l | apply Qle_shift_div_r]; try done; by rewrite Qmult_comm.
Qed.

(** C22: The printed median is a median of the non-NaN durations: at least
    half of them are at most it and at least half are at least it. *)
Theorem median_spec (col : list (option Q)) (m : Q) :
  median col = Some m →
  (length (present col) ≤ 2 * count_if (λ v, Qle_bool v m) (present col))%nat ∧
  (length (present col) ≤ 2 * count_if (λ v, Qle_bool m v) (present col))%nat.
Proof.
  intros Hm. pose proof (sorted_values_sorted col) as Hs.
  rewrite <- (sorted_values_Permutation col).
  unfold median in Hm. cbv zeta in Hm. set (vs := sorted_values col) in *.
  destruct (length vs) as [|n] eqn:Hn; [discriminate|].
  destruct (Nat.even (S n)) eqn:He; [apply even_div2 in He | apply odd_div2 in He];
    set (k := S n / 2) in *; injection Hm as <-.
  - destruct (lookup_lt_is_Some_2 vs (k - 1)) as [a Ha]; [lia|].
    destruct (lookup_lt_is_Some_2 vs k) as [b Hb]; [lia|].
    rewrite (nth_lookup_Some _ _ _ _ Ha), (nth_lookup_Some _ _ _ _ Hb).
    destruct (half_sum_bounds a b) as [Ham Hmb];
      [exact (sorted_lookup_le vs (k - 1) k a b Hs Ha Hb ltac:(lia))|].
    pose proof (count_le_sorted vs (k - 1) a _ Hs Ha Ham).
    pose proof (count_ge_sorted vs k b _ Hs Hb Hmb). lia.
  - destruct (lookup_lt_is_Some_2 vs k) as [a Ha]; [lia|].
    rewrite (nth_lookup_Some _ _ _ _ Ha).
    pose proof (count_le_sorted vs k a a Hs Ha (Qle_refl a)).
    pose proof (count_ge_sorted vs k a a Hs Ha (Qle_refl a)). lia.
Qed.

(** C23: With no number left after skipping NaN (an empty file, or a
    column of NaN), mean and median are NaN rather than an exception. *)
Theorem stats_nan (col : list (option Q)) :
  (mean col = None ↔ present col = []) ∧ (median col = None ↔ present col = []).
Proof. split; [apply mean_None_iff | apply median_None_iff]. Qed.

(** ** Witnesses *)

Lemma mean_bounds_witness :
  (Forall (λ v, 3 <= v <= 30)%Q (present demo_durations) ∧ mean demo_durations = Some (52 # 4)%Q) ∧
  (3 <= 52 # 4 <= 30)%Q.
Proof.
  assert (Forall (λ v, 3 <= v <= 30)%Q (present demo_durations)) as Hb
    by (repeat constructor; vm_compute; discriminate).
  assert (mean demo_durations = Some (52 # 4)%Q) as Hm by reflexivity.
  split; [split; assumption | exact (mean_bounds demo_durations 3 30 _ Hb Hm)].
Defined.

Lemma median_spec_witness :
  median demo_durations = Some (19 # 2)%Q ∧
  (length (present demo_durations) ≤ 2 * count_if (λ v, Qle_bool v (19 # 2)) (present demo_durations))%nat ∧
  (length (present demo_durations) ≤ 2 * count_if (λ v, Qle_bool (19 # 2) v) (present demo_durations))%nat.
Proof.
  assert (median demo_durations = Some (19 # 2)%Q) as Hm by (vm_compute; reflexivity).
  split; [exact Hm | exact (median_spec demo_durations _ Hm)].
Defined.

End Stats.
