(* ===== verification/RouteAnalyzer.v ===== *)
(** * The longest-route analysis: [RouteAnalyzer] ([src/src/analyzers/route_analyzer.py])

    [analyze] (lines 15-48) drops the trips with a missing coordinate,
    computes [geodesic((start_lat, start_lng), (end_lat, end_lng))] for
    every remaining trip, selects the row of [idxmax] (the first row of
    largest distance), requests a cycling route for it from OSRM
    ([_get_osrm_route], lines 50-73), prints a comparison and draws the
    map ([_visualize_route], lines 75-115).

    The geodesic on the ellipsoid, the HTTP transport, the polyline
    decoder and Python's float-to-string conversion are Section
    variables: every theorem holds whatever they compute.  What the code
    does around them is modelled: geopy's refusal of a latitude outside
    [-90, 90] ([ValueError]), every Python failure of the JSON handling
    (HTTP status, JSON decoding, [KeyError], [IndexError], [TypeError]),
    the [except Exception] fallback, the division of the duration when
    it is printed, which is outside the [try], and pandas' behaviour on
    an empty selection ([distance_column]). *)

From S2P Require Import Prelude DataLoader.
Close Scope Q_scope.
#[local] Set Warnings "-register-all".

Module RouteAnalyzer.
Import DataLoader.

(** A coordinate pair; which component is the latitude depends on the
    call site, as in the code. *)
Definition latlng : Type := (Q * Q)%type.

(** JSON values as [response.json()] returns them. *)
Inductive json : Type :=
| JNull
| JBool (b : bool)
| JNum (q : Q)
| JStr (s : string)
| JArr (l : list json)
| JObj (kv : list (string * json)).

(** What [requests.get(url)] gives: a transport failure, or a response
    with its status and its body parsed as JSON ([None]: not JSON). *)
Inductive http_response : Type :=
| ConnectionError (msg : string)
| Response (status : Z) (body : option json).

(** The dict [_get_osrm_route] returns. *)
Record route : Type := mk_route {
  geometry : list latlng;
  distance : Q;
  duration : json }.

(** What [analyze] prints (lines 38-45), as values. *)
Record route_report : Type := mk_report {
  rep_start_station : option string;
  rep_end_station : option string;
  rep_straight_km : Q;
  rep_route_km : Q;
  rep_cycling_min : Q;
  rep_trip_min : option Q }.

(** A folium marker and the map of [_visualize_route]. *)
Record marker : Type := mk_marker {
  mk_location : latlng;
  mk_popup : string;
  mk_color : string }.

Record route_map : Type := mk_route_map {
  rm_center : latlng;
  rm_zoom : Z;
  rm_markers : list marker;
  rm_line : list latlng;
  rm_line_popup_km : Q;
  rm_path : string }.

Definition osrm_url : string := "http://router.project-osrm.org/route/v1/cycling/".

(** [str(x)] of a string cell: NaN prints as ["nan"]. *)
Definition py_str (o : option string) : string := default "nan" o.

(** [dropna(subset=['start_lat', 'start_lng', 'end_lat', 'end_lng'])]. *)
Definition has_coords (t : trip) : bool :=
  match start_lat t, start_lng t, end_lat t, end_lng t with
  | Some _, Some _, Some _, Some _ => true
  | _, _, _, _ => false
  end.

Definition dropna_coords (df : list trip) : list trip := List.filter has_coords df.

(** The [(lat, lng)] pairs of a trip whose coordinates are present. *)
Definition start_point (t : trip) : latlng := (default 0%Q (start_lat t), default 0%Q (start_lng t)).
Definition end_point (t : trip) : latlng := (default 0%Q (end_lat t), default 0%Q (end_lng t)).

(** geopy's [Point] accepts a latitude in [-90, 90] only. *)
Definition lat_ok (p : latlng) : bool := Qle_bool (Qabs p.1) 90%Q.

(** [json['key']]: a dict lookup (the last binding of a key wins, as
    [json.loads] keeps it); any other value is not subscriptable by a
    string. *)
Definition json_get_key (j : json) (k : string) : res json :=
  match j with
  | JObj kv =>
      match list_find (λ kv', kv'.1 = k) (reverse kv) with
      | Some (_, (_, v)) => Ok v
      | None => Err (KeyError k)
      end
  | JArr _ => Err (TypeError "list indices must be integers or slices, not str")
  | JStr _ => Err (TypeError "string indices must be integers")
  | _ => Err (TypeError "object is not subscriptable")
  end.

(** [json[0]]. *)
Definition json_get_0 (j : json) : res json :=
  match j with
  | JArr (v :: _) => Ok v
  | JArr [] => Err (IndexError "list index out of range")
  | JStr (String c _) => Ok (JStr (String c EmptyString))
  | JStr EmptyString => Err (IndexError "string index out of range")
  | JObj _ => Err (KeyError "0")
  | _ => Err (TypeError "object is not subscriptable")
  end.

(** Python's [x / n] on a JSON number ([bool] is an [int]). *)
Definition json_div (j : json) (n : Q) : res Q :=
  match j with
  | JNum q => Ok (q / n)%Q
  | JBool b => Ok ((if b then 1 else 0) / n)%Q
  | _ => Err (TypeError "unsupported operand type(s) for /")
  end.

(** The body of an OSRM reply carrying one route. *)
Definition osrm_body (g : string) (meters : Q) (dur : json) : json :=
  JObj [("routes", JArr [JObj [("geometry", JStr g); ("distance", JNum meters); ("duration", dur)]])].

(** Concrete stand-ins for the witnesses: a taxicab distance, a service
    that is down or answers with one route, a decoder, and a table
    where two trips tie for the longest and one lacks a coordinate. *)
Definition demo_geodesic (a b : latlng) : Q := (Qabs (a.1 - b.1) + Qabs (a.2 - b.2))%Q.
Definition demo_down (url : string) : http_response := ConnectionError "Max retries exceeded".
Definition demo_reply (dur : json) (url : string) : http_response :=
  Response 200 (Some (osrm_body "_p~iF~ps|U" 2500 dur)).
Definition demo_decode (s : string) : option (list latlng) := Some [(385 # 10, -1202 # 10)%Q].
Definition demo_float_str (q : Q) : string := "0.0".

Definition demo_trip (name : string) (slat slng elat elng : option Q) : trip :=
  mk_trip (Some name) (Some "classic_bike") (Some 0%Z) (Some 600000000000%Z) (Some name) None
    (Some "Hamilton Park") None slat slng elat elng (Some "member") (Some 10%Q).

Definition demo_df : list trip :=
  [demo_trip "S1" (Some 40%Q) (Some (-74)%Q) (Some (401 # 10)%Q) (Some (-74)%Q);
   demo_trip "S2" (Some 40%Q) (Some (-74)%Q) None (Some (-74)%Q);
   demo_trip "S3" (Some 40%Q) (Some (-74)%Q) (Some (401 # 10)%Q) (Some (-74)%Q);
   demo_trip "S4" (Some 40%Q) (Some (-74)%Q) (Some (4005 # 100)%Q) (Some (-74)%Q)].

Section Route.

(** [geodesic(a, b).kilometers] once both points are accepted. *)
Variable geodesic_km : latlng → latlng → Q.
(** [requests.get]. *)
Variable http_get : string → http_response.
(** [polyline.decode]: [None] when it raises. *)
Variable polyline_decode : string → option (list latlng).
(** [str(x)] of a float, as the f-string of line 52 writes it. *)
Variable float_str : Q → string.

(** [geodesic(a, b).kilometers], with geopy's argument check. *)
Definition geodesic (a b : latlng) : res Q :=
  if lat_ok a && lat_ok b then Ok (geodesic_km a b)
  else Err (ValueError "Latitude must be in the [-90; 90] range.").

(** Line 21-27: the straight-line distance of one row. *)
Definition trip_distance_km (t : trip) : res Q := geodesic (start_point t) (end_point t).

(** Line 30, [idxmax]: the first row of maximal distance. *)
Fixpoint idxmax (best : trip * Q) (l : list (trip * Q)) : trip * Q :=
  match l with
  | [] => best
  | x :: l' => if Qle_bool x.2 best.2 then idxmax best l' else idxmax x l'
  end.

(** Lines 52-53: the request URL, longitude first. *)
Definition osrm_request (start_coords end_coords : latlng) : string :=
  osrm_url +:+ float_str start_coords.1 +:+ "," +:+ float_str start_coords.2 +:+ ";" +:+
  float_str end_coords.1 +:+ "," +:+ float_str end_coords.2.

(** Lines 56-63: the body of the [try]. *)
Definition fetch_route (url : string) : res route :=
  match http_get url with
  | ConnectionError m => Err (Exception m)
  | Response status body =>
      if (400 <=? status)%Z && (status <? 600)%Z then Err (HTTPError status)
      else
        match body with
        | None => Err (ValueError "Expecting value")
        | Some j =>
            routes ← json_get_key j "routes";
            r ← json_get_0 routes;
            g ← json_get_key r "geometry";
            geom ← (match g with
                    | JStr s => match polyline_decode s with
                                | Some pts => Ok pts
                                | None => Err (IndexError "string index out of range")
                                end
                    | _ => Err (TypeError "object of this type has no len()")
                    end);
            d ← json_get_key r "distance";
            km ← json_div d 1000%Q;
            dur ← json_get_key r "duration";
            Ok (mk_route geom km dur)
        end
  end.

(** Lines 66-73: the fallback built in the [except] handler; its
    [geodesic] call is outside any [try]. *)
Definition fallback_route (start_coords end_coords : latlng) : res route :=
  let a := (start_coords.2, start_coords.1) in
  let b := (end_coords.2, end_coords.1) in
  km ← geodesic a b;
  Ok (mk_route [a; b] km (JNum 0%Q)).

(** [_get_osrm_route]. *)
Definition get_osrm_route (start_coords end_coords : latlng) : res route :=
  match fetch_route (osrm_request start_coords end_coords) with
  | Ok r => Ok r
  | Err _ => fallback_route start_coords end_coords
  end.

(** [_visualize_route] (lines 75-115): the map it saves. *)
Definition visualize_route (t : trip) (trip_km : Q) (route_coords : list latlng) : route_map :=
  let s := start_point t in
  let e := end_point t in
  {| rm_center := ((s.1 + e.1) / 2, (s.2 + e.2) / 2)%Q;
     rm_zoom := 12;
     rm_markers := [mk_marker s ("Start: " +:+ py_str (start_station_name t)) "green";
                    mk_marker e ("End: " +:+ py_str (end_station_name t)) "red"];
     rm_line := route_coords;
     rm_line_popup_km := trip_km;
     rm_path := "output/longest_route.html" |}.

(** Lines 21-27: [valid_trips.apply(..., axis=1)] and the assignment of
    its result to the new column.  On an empty table [apply] probes the
    function with an all-NaN row, geopy refuses it, and [apply] returns
    an empty copy of the table; assigning that many-column DataFrame to
    one column raises [ValueError] (pandas 2). *)
Definition empty_apply_error : exn :=
  ValueError "Cannot set a DataFrame with multiple columns to the single column trip_distance_km".

Definition distance_column (valid_trips : list trip) : res (list Q) :=
  match valid_trips with
  | [] => Err empty_apply_error
  | _ => res_mapM trip_distance_km valid_trips
  end.

(** [RouteAnalyzer.analyze]; the empty case of [idxmax] (line 30) is
    kept although the assignment above already refuses an empty table. *)
Definition analyze (df : list trip) : res (route_report * route_map) :=
  let valid_trips := dropna_coords df in
  dists ← distance_column valid_trips;
  match combine valid_trips dists with
  | [] => Err (ValueError "attempt to get argmax of an empty sequence")
  | first :: rest =>
      let '(longest, km) := idxmax first rest in
      let s := start_point longest in
      let e := end_point longest in
      rc ← get_osrm_route (s.2, s.1) (e.2, e.1);
      cyc ← json_div (duration rc) 60%Q;
      Ok (mk_report (start_station_name longest) (end_station_name longest) km
            (distance rc) cyc (trip_duration_mins longest),
          visualize_route longest km (geometry rc))
  end.

(** ** Selection of the longest trip *)

(** [idxmax] returns the first element of maximal distance: every
    element before it is strictly shorter, every element after it is no
    longer. *)
Lemma idxmax_first_max (best : trip * Q) (l : list (trip * Q)) :
  ∃ pre post, best :: l = pre ++ idxmax best l :: post ∧
    Forall (λ x, x.2 < (idxmax best l).2)%Q pre ∧
    Forall (λ x, x.2 <= (idxmax best l).2)%Q post.
Proof.
  revert best. induction l as [|x l IH]; intros best; simpl.
  - exists [], []. auto.
  - destruct (Qle_bool x.2 best.2) eqn:Hle.
    + apply Qle_bool_iff in Hle.
      destruct (IH best) as (pre & post & Heq & Hpre & Hpost).
      destruct pre as [|b pre]; simpl in Heq; injection Heq as Hb Hl.
      * rewrite <- Hb in Hpost |- *. exists [], (x :: post).
        split; [by rewrite Hl|]. split; [done|]. by constructor.
      * subst b. exists (best :: x :: pre), post. split; [by rewrite Hl at 1|].
        inversion Hpre as [|? ? Hbest Hpre']; subst.
        split; [|done]. repeat constructor; [done| |done].
        eapply Qle_lt_trans; eassumption.
    + assert (best.2 < x.2)%Q as Hlt.
      { apply Qnot_le_lt. intros H. apply Qle_bool_iff in H. congruence. }
      destruct (IH x) as (pre & post & Heq & Hpre & Hpost).
      exists (best :: pre), post. split; [by rewrite Heq|]. split; [|done].
      constructor; [|done].
      destruct pre as [|y pre]; simpl in Heq; injection Heq as Hy _.
      * rewrite <- Hy. done.
      * subst y. inversion Hpre; subst. eapply Qlt_trans; eassumption.
Qed.

Lemma combine_distances (l : list trip) (ds : list Q) :
  res_mapM trip_distance_km l = Ok ds →
  Forall (λ p, trip_distance_km p.1 = Ok p.2) (combine l ds) ∧ map fst (combine l ds) = l.
Proof.
  intros H%res_mapM_Ok. induction H as [|t d l ds Hd _ [IH1 IH2]]; simpl; [done|].
  split; [by constructor|by rewrite IH2].
Qed.

(** The straight-line distance of a kept row is computed from its own
    four coordinates. *)
Lemma trip_distance_Ok (t : trip) (d : Q) :
  trip_distance_km t = Ok d →
  lat_ok (start_point t) = true ∧ lat_ok (end_point t) = true ∧
  d = geodesic_km (start_point t) (end_point t).
Proof.
  unfold trip_distance_km, geodesic.
  destruct (lat_ok (start_point t)), (lat_ok (end_point t)); simpl; intros [=]; auto.
Qed.

Lemma trip_distance_km_ok (t : trip) :
  lat_ok (start_point t) = true → lat_ok (end_point t) = true →
  trip_distance_km t = Ok (geodesic_km (start_point t) (end_point t)).
Proof. intros Ha Hb. unfold trip_distance_km, geodesic. by rewrite Ha, Hb. Qed.

(** ** The route request and its fallback *)

(** A failed request yields the straight segment between the two end
    points, in [(lat, lng)] order, with its geodesic length and a zero
    duration. *)
Lemma get_osrm_route_fallback (s e : latlng) (ex : exn) :
  fetch_route (osrm_request s e) = Err ex →
  lat_ok (s.2, s.1) = true → lat_ok (e.2, e.1) = true →
  get_osrm_route s e =
    Ok (mk_route [(s.2, s.1); (e.2, e.1)] (geodesic_km (s.2, s.1) (e.2, e.1)) (JNum 0)).
Proof.
  intros Hf Ha Hb. unfold get_osrm_route, fallback_route, geodesic.
  rewrite Hf. simpl. by rewrite Ha, Hb.
Qed.

(** C6: For points geopy accepts, [_get_osrm_route] returns a route
    whatever the service does: no exception escapes it. *)
Theorem get_osrm_route_total (s e : latlng) :
  lat_ok (s.2, s.1) = true → lat_ok (e.2, e.1) = true →
  ∃ r, get_osrm_route s e = Ok r.
Proof.
  intros Ha Hb. destruct (fetch_route (osrm_request s e)) as [r|ex] eqn:Hf.
  - exists r. unfold get_osrm_route. by rewrite Hf.
  - eexists. eapply get_osrm_route_fallback; eassumption.
Qed.

(** ** The analysis *)

Lemma idxmax_in (best : trip * Q) (l : list (trip * Q)) : idxmax best l ∈ best :: l.
Proof.
  revert best. induction l as [|x l IH]; intros best; simpl; [set_solver|].
  pose proof (IH best). pose proof (IH x). destruct (Qle_bool _ _); set_solver.
Qed.

Lemma distances_Ok (l : list trip) :
  Forall (λ t, lat_ok (start_point t) = true ∧ lat_ok (end_point t) = true) l →
  ∃ ds, res_mapM trip_distance_km l = Ok ds.
Proof.
  induction 1 as [|t l [Ha Hb] _ [ds Hds]]; [simpl; eauto|].
  cbn [res_mapM]. rewrite trip_distance_km_ok, Hds by done. simpl. eauto.
Qed.

Lemma combine_nil_inv (l : list trip) (ds : list Q) :
  res_mapM trip_distance_km l = Ok ds → combine l ds = [] → l = [].
Proof. intros H Hc. destruct (combine_distances l ds H) as [_ <-]. by rewrite Hc. Qed.

Lemma distance_column_ne (l : list trip) : l ≠ [] → distance_column l = res_mapM trip_distance_km l.
Proof. by destruct l. Qed.

Lemma analyze_eq (df : list trip) (ds : list Q) (first : trip * Q) (rest : list (trip * Q))
    (t : trip) (km : Q) :
  res_mapM trip_distance_km (dropna_coords df) = Ok ds →
  combine (dropna_coords df) ds = first :: rest →
  idxmax first rest = (t, km) →
  analyze df =
    (rc ← get_osrm_route ((start_point t).2, (start_point t).1) ((end_point t).2, (end_point t).1);
     cyc ← json_div (duration rc) 60;
     Ok (mk_report (start_station_name t) (end_station_name t) km (distance rc) cyc
           (trip_duration_mins t), visualize_route t km (geometry rc))).
Proof.
  intros Hds Hc Hi. unfold analyze.
  rewrite distance_column_ne, Hds by (intros E; rewrite E in Hc; discriminate).
  simpl. by rewrite Hc, Hi.
Qed.

Lemma analyze_Ok_inv (df : list trip) (rep : route_report) (m : route_map) :
  analyze df = Ok (rep, m) →
  ∃ ds first rest rc cyc,
    res_mapM trip_distance_km (dropna_coords df) = Ok ds ∧
    combine (dropna_coords df) ds = first :: rest ∧
    get_osrm_route ((start_point (idxmax first rest).1).2, (start_point (idxmax first rest).1).1)
                   ((end_point (idxmax first rest).1).2, (end_point (idxmax first rest).1).1) = Ok rc ∧
    json_div (duration rc) 60 = Ok cyc ∧
    rep = mk_report (start_station_name (idxmax first rest).1) (end_station_name (idxmax first rest).1)
            (idxmax first rest).2 (distance rc) cyc (trip_duration_mins (idxmax first rest).1) ∧
    m = visualize_route (idxmax first rest).1 (idxmax first rest).2 (geometry rc).
Proof.
  unfold analyze. intros H. res_inv.
  assert (res_mapM trip_distance_km (dropna_coords df) = Ok a) as Hds.
  { unfold distance_column in Ha. by destruct (dropna_coords df). }
  destruct (combine _ _) as [|first rest] eqn:Hc; [discriminate|].
  destruct (idxmax first rest) as [longest km] eqn:Hi. simpl in *. res_inv. subst.
  exists a, first, rest, a0, a1. rewrite Hi. simpl. auto 10.
Qed.

(** C1: The analysis reports the longest trip among those with all four
    coordinates, and the first of them in table order when several are
    equally long: the trips before it are strictly shorter, the trips
    after it are no longer.  The printed fields and the saved map are
    those of that trip. *)
Theorem analyze_longest (df : list trip) (rep : route_report) (m : route_map) :
  analyze df = Ok (rep, m) →
  ∃ pre t post, dropna_coords df = pre ++ t :: post ∧
    trip_distance_km t = Ok (rep_straight_km rep) ∧
    Forall (λ u, ∃ d, trip_distance_km u = Ok d ∧ (d < rep_straight_km rep)%Q) pre ∧
    Forall (λ u, ∃ d, trip_distance_km u = Ok d ∧ (d <= rep_straight_km rep)%Q) post ∧
    rep_start_station rep = start_station_name t ∧ rep_end_station rep = end_station_name t ∧
    rep_trip_min rep = trip_duration_mins t ∧
    m = visualize_route t (rep_straight_km rep) (rm_line m).
Proof.
  intros (ds & first & rest & rc & cyc & Hds & Hc & _ & _ & -> & ->)%analyze_Ok_inv.
  destruct (combine_distances _ _ Hds) as [Hall Hfst]. rewrite Hc in Hall, Hfst.
  destruct (idxmax_first_max first rest) as (pre & post & Heq & Hpre & Hpost).
  set (r := idxmax first rest) in *. simpl.
  rewrite Heq in Hall, Hfst. rewrite map_app in Hfst. simpl in Hfst.
  apply Forall_app in Hall as [Hallpre [Hr Hallpost]%Forall_cons].
  exists (map fst pre), r.1, (map fst post). split; [done|]. split; [done|].
  split; [|split; [|done]].
  - apply Forall_map. eapply Forall_impl; [apply Forall_and; split; [exact Hallpre|exact Hpre]|].
    intros x [Hx Hlt]. eauto.
  - apply Forall_map. eapply Forall_impl; [apply Forall_and; split; [exact Hallpost|exact Hpost]|].
    intros x [Hx Hle]. eauto.
Qed.

Lemma dropna_coords_nil (df : list trip) :
  Forall (λ t, has_coords t = false) df → dropna_coords df = [].
Proof.
  unfold dropna_coords. induction 1 as [|t df Ht _ IH]; [done|]. cbn [List.filter]. by rewrite Ht.
Qed.

Lemma analyze_dropna_nil (df : list trip) :
  dropna_coords df = [] → analyze df = Err empty_apply_error.
Proof. intros H. unfold analyze. by rewrite H. Qed.

(** C7: A table with no trip having all four coordinates makes [analyze]
    raise [ValueError] before anything is selected: the distance column
    cannot be assigned from [apply] on an empty table. *)
Theorem analyze_no_valid_trip (df : list trip) :
  Forall (λ t, has_coords t = false) df →
  analyze df = Err empty_apply_error.
Proof. intros H. by apply analyze_dropna_nil, dropna_coords_nil. Qed.

(** C2: When the routing service cannot be reached, the analysis still
    completes: the route drawn is the straight segment between the
    selected trip's two end points, its length is the straight-line
    distance and the estimated cycling time is zero. *)
Theorem analyze_service_down (df : list trip) :
  (∀ url, ∃ msg, http_get url = ConnectionError msg) →
  dropna_coords df ≠ [] →
  Forall (λ t, lat_ok (start_point t) = true ∧ lat_ok (end_point t) = true) (dropna_coords df) →
  ∃ rep m t, analyze df = Ok (rep, m) ∧ t ∈ dropna_coords df ∧
    rm_line m = [start_point t; end_point t] ∧
    rep_route_km rep = rep_straight_km rep ∧ (rep_cycling_min rep == 0)%Q.
Proof.
  intros Hdown Hne Hlat. destruct (distances_Ok _ Hlat) as [ds Hds].
  destruct (combine_distances _ _ Hds) as [Hall Hfst].
  destruct (combine (dropna_coords df) ds) as [|first rest] eqn:Hc; [by destruct Hne|].
  pose proof (idxmax_in first rest) as Hin.
  destruct (idxmax first rest) as [t km] eqn:Hi.
  assert (trip_distance_km t = Ok km) as Htk by (rewrite Forall_forall in Hall; exact (Hall _ Hin)).
  apply trip_distance_Ok in Htk as (Ha & Hb & ->).
  assert (t ∈ dropna_coords df) as Ht.
  { rewrite <- Hfst. apply list_elem_of_In, in_map_iff.
    exists (t, geodesic_km (start_point t) (end_point t)).
    split; [done|]. by apply list_elem_of_In. }
  rewrite (analyze_eq df ds first rest t (geodesic_km (start_point t) (end_point t))) by done.
  destruct (start_point t) as [sa sb] eqn:Hsp, (end_point t) as [ea eb] eqn:Hep. simpl.
  destruct (Hdown (osrm_request (sb, sa) (eb, ea))) as [msg Hmsg].
  rewrite (get_osrm_route_fallback (sb, sa) (eb, ea) (Exception msg)) by
    (unfold fetch_route; by rewrite Hmsg || done).
  simpl. eexists _, _, t. split; [reflexivity|]. simpl. rewrite Hsp, Hep. done.
Qed.

(** C17: A well-formed reply is used as it is: the decoded polyline, the
    distance converted from metres to kilometres, the duration as sent. *)
Theorem get_osrm_route_reply (s e : latlng) (status : Z) (g : string) (pts : list latlng)
    (meters : Q) (dur : json) :
  http_get (osrm_request s e) = Response status (Some (osrm_body g meters dur)) →
  (status < 400 ∨ 600 <= status)%Z →
  polyline_decode g = Some pts →
  get_osrm_route s e = Ok (mk_route pts (meters / 1000) dur).
Proof.
  intros Hget Hst Hdec. unfold get_osrm_route, fetch_route. rewrite Hget.
  destruct (Z.leb_spec 400 status), (Z.ltb_spec status 600); [lia| | |]; simpl;
    by rewrite Hdec.
Qed.

(** C18: A reply whose [duration] is not a number passes [_get_osrm_route]
    and then makes [analyze] raise [TypeError] when it divides the
    duration by 60 for printing, outside the [try]. *)
Theorem analyze_non_numeric_duration (df : list trip) (g : string) (pts : list latlng)
    (meters : Q) (dur : json) :
  (∀ url, http_get url = Response 200 (Some (osrm_body g meters dur))) →
  polyline_decode g = Some pts →
  (∀ q, dur ≠ JNum q) → (∀ b, dur ≠ JBool b) →
  dropna_coords df ≠ [] →
  Forall (λ t, lat_ok (start_point t) = true ∧ lat_ok (end_point t) = true) (dropna_coords df) →
  ∃ msg, analyze df = Err (TypeError msg).
Proof.
  intros Hget Hdec Hnum Hbool Hne Hlat. destruct (distances_Ok _ Hlat) as [ds Hds].
  destruct (combine (dropna_coords df) ds) as [|first rest] eqn:Hc.
  { exfalso. apply Hne. by eapply combine_nil_inv. }
  destruct (idxmax first rest) as [t km] eqn:Hi.
  rewrite (analyze_eq df ds first rest t km) by done.
  unfold get_osrm_route, fetch_route. rewrite Hget. simpl. rewrite Hdec. simpl.
  destruct dur as [|b|q|s'|l|kv]; simpl;
    [eauto | by destruct (Hbool b) | by destruct (Hnum q) | eauto..].
Qed.
End Route.

(** ** Witnesses *)

Lemma analyze_longest_witness :
  ∃ rep m, analyze demo_geodesic demo_down demo_decode demo_float_str demo_df = Ok (rep, m) ∧
  ∃ pre t post, dropna_coords demo_df = pre ++ t :: post ∧
    trip_distance_km demo_geodesic t = Ok (rep_straight_km rep) ∧
    Forall (λ u, ∃ d, trip_distance_km demo_geodesic u = Ok d ∧ (d < rep_straight_km rep)%Q) pre ∧
    Forall (λ u, ∃ d, trip_distance_km demo_geodesic u = Ok d ∧ (d <= rep_straight_km rep)%Q) post ∧
    rep_start_station rep = start_station_name t ∧ rep_end_station rep = end_station_name t ∧
    rep_trip_min rep = trip_duration_mins t ∧
    m = visualize_route t (rep_straight_km rep) (rm_line m).
Proof.
  eexists _, _. split; [reflexivity|].
  apply (analyze_longest demo_geodesic demo_down demo_decode demo_float_str). reflexivity.
Defined.

Lemma analyze_no_valid_trip_witness :
  Forall (λ t, has_coords t = false) [demo_trip "S2" (Some 40%Q) None None None] ∧
  analyze demo_geodesic demo_down demo_decode demo_float_str [demo_trip "S2" (Some 40%Q) None None None]
    = Err empty_apply_error.
Proof.
  assert (Forall (λ t, has_coords t = false) [demo_trip "S2" (Some 40%Q) None None None]) as H
    by repeat constructor.
  split; [exact H | exact (analyze_no_valid_trip demo_geodesic demo_down demo_decode demo_float_str _ H)].
Defined.

Lemma demo_df_lat_ok :
  Forall (λ t, lat_ok (start_point t) = true ∧ lat_ok (end_point t) = true) (dropna_coords demo_df).
Proof. repeat constructor. Qed.

Lemma demo_df_nonempty : dropna_coords demo_df ≠ [].
Proof. discriminate. Qed.

Lemma analyze_service_down_witness :
  ((∀ url, ∃ msg, demo_down url = ConnectionError msg) ∧ dropna_coords demo_df ≠ [] ∧
   Forall (λ t, lat_ok (start_point t) = true ∧ lat_ok (end_point t) = true) (dropna_coords demo_df)) ∧
  ∃ rep m t, analyze demo_geodesic demo_down demo_decode demo_float_str demo_df = Ok (rep, m) ∧
    t ∈ dropna_coords demo_df ∧ rm_line m = [start_point t; end_point t] ∧
    rep_route_km rep = rep_straight_km rep ∧ (rep_cycling_min rep == 0)%Q.
Proof.
  assert (∀ url, ∃ msg, demo_down url = ConnectionError msg) as Hd by (intros; eexists; reflexivity).
  split; [split; [exact Hd | split; [exact demo_df_nonempty | exact demo_df_lat_ok]]|].
  exact (analyze_service_down demo_geodesic demo_down demo_decode demo_float_str demo_df
           Hd demo_df_nonempty demo_df_lat_ok).
Defined.

Lemma get_osrm_route_total_witness :
  (lat_ok (40, -74)%Q = true ∧ lat_ok (401 # 10, -74)%Q = true) ∧
  ∃ r, get_osrm_route demo_geodesic demo_down demo_decode demo_float_str (-74, 40)%Q (-74, 401 # 10)%Q = Ok r.
Proof.
  split; [split; reflexivity|].
  apply (get_osrm_route_total demo_geodesic demo_down demo_decode demo_float_str); reflexivity.
Defined.

Lemma get_osrm_route_reply_witness :
  (demo_reply (JNum 600) (osrm_request demo_float_str (-74, 40)%Q (-74, 401 # 10)%Q) =
     Response 200 (Some (osrm_body "_p~iF~ps|U" 2500 (JNum 600))) ∧
   (200 < 400 ∨ 600 <= 200)%Z ∧ demo_decode "_p~iF~ps|U" = Some [(385 # 10, -1202 # 10)%Q]) ∧
  get_osrm_route demo_geodesic (demo_reply (JNum 600)) demo_decode demo_float_str (-74, 40)%Q (-74, 401 # 10)%Q
    = Ok (mk_route [(385 # 10, -1202 # 10)%Q] (2500 / 1000) (JNum 600)).
Proof.
  split; [split; [reflexivity | split; [lia | reflexivity]]|].
  apply (get_osrm_route_reply demo_geodesic (demo_reply (JNum 600)) demo_decode demo_float_str
           _ _ 200 "_p~iF~ps|U" [(385 # 10, -1202 # 10)%Q] 2500 (JNum 600));
    [reflexivity | lia | reflexivity].
Defined.

Lemma analyze_non_numeric_duration_witness :
  ((∀ url, demo_reply JNull url = Response 200 (Some (osrm_body "_p~iF~ps|U" 2500 JNull))) ∧
   demo_decode "_p~iF~ps|U" = Some [(385 # 10, -1202 # 10)%Q] ∧
   (∀ q, JNull ≠ JNum q) ∧ (∀ b, JNull ≠ JBool b) ∧ dropna_coords demo_df ≠ [] ∧
   Forall (λ t, lat_ok (start_point t) = true ∧ lat_ok (end_point t) = true) (dropna_coords demo_df)) ∧
  ∃ msg, analyze demo_geodesic (demo_reply JNull) demo_decode demo_float_str demo_df = Err (TypeError msg).
Proof.
  assert (∀ url, demo_reply JNull url = Response 200 (Some (osrm_body "_p~iF~ps|U" 2500 JNull)))
    as Hr by reflexivity.
  assert (∀ q, JNull ≠ JNum q) as Hn by discriminate.
  assert (∀ b, JNull ≠ JBool b) as Hb by discriminate.
  split; [repeat split; (exact Hr || exact Hn || exact Hb || exact demo_df_nonempty ||
                         exact demo_df_lat_ok || reflexivity)|].
  exact (analyze_non_numeric_duration demo_geodesic (demo_reply JNull) demo_decode demo_float_str
           demo_df "_p~iF~ps|U" [(385 # 10, -1202 # 10)%Q] 2500 JNull Hr eq_refl Hn Hb
           demo_df_nonempty demo_df_lat_ok).
Defined.

End RouteAnalyzer.
