(* ===== verification/H3Visualizer.v ===== *)
(** * Hexagon density maps: [H3Visualizer] ([src/src/visualizers/h3_visualizer.py])

    [_get_hexagons] (lines 39-49) counts the rows per H3 cell in a Python
    dict, skipping every row whose conversion raises (a NaN coordinate
    makes [h3.latlng_to_cell] raise).  [_add_hexagons_to_map] (lines
    51-68) draws one polygon per dict entry, in the dict's insertion
    order, coloured by [_get_color(count / max_count, base)] (lines
    70-74), skipping a cell whose boundary cannot be computed.
    [_add_legends] (lines 76-96) picks the legend colour from the title
    and derives the low-density colour with [str.replace('ff', '33')].
    [create_visualizations] (lines 12-22) builds the start map (red) and
    the end map (blue) and saves both ([_save_maps], lines 98-104): it
    creates the output directory, writes the two files and prints where
    they are; these are the [effect]s it returns, in order.

    The object of [__init__] (lines 6-10) is the record [visualizer];
    the methods are the definitions of Section [H3], whose variable
    [self] is that object.  The H3 index functions are Section variables
    over an abstract cell type with decidable equality; a [None] result
    is an exception.  The output directory is a Section variable too:
    the code computes it from [__file__]. *)

From S2P Require Import Prelude DataLoader.
Close Scope Q_scope.

Module H3Visualizer.
Import DataLoader.

(** The ['start'] / ['end'] argument of [_get_hexagons]. *)
Inductive location_type : Type := Start | End.

(** A [folium.Polygon] as added by line 59-66. *)
Record polygon : Type := mk_polygon {
  pg_locations : list (Q * Q);
  pg_color : string;
  pg_trips : nat;
  pg_fill_opacity : Q;
  pg_weight : Z }.

(** The legend element of [_add_legends]. *)
Record legend : Type := mk_legend {
  lg_title : string;
  lg_high : string;
  lg_low : string }.

(** A folium map and what was added to it. *)
Record hex_map : Type := mk_hex_map {
  hm_center : Q * Q;
  hm_zoom : Z;
  hm_polygons : list polygon;
  hm_legends : list legend }.

(** An [H3Visualizer] object: the table, the H3 resolution and the map
    centre. *)
Record visualizer : Type := mk_visualizer {
  vz_df : list trip;
  vz_resolution : Z;
  vz_center : Q * Q }.

(** The Jersey City centre of line 10. *)
Definition jersey_city_center : Q * Q := (407178 # 10000, -740431 # 10000)%Q.

(** [H3Visualizer(df, resolution=9)]: [__init__]. *)
Definition init (df : list trip) (resolution : Z) : visualizer :=
  mk_visualizer df resolution jersey_city_center.

(** [_create_base_map]: the centre of [self], zoom 13, no layers yet. *)
Definition create_base_map (self : visualizer) : hex_map :=
  mk_hex_map (vz_center self) 13 [] [].

(** What [create_visualizations] does outside the maps, in order: the
    directory it creates, the files it writes and what it prints. *)
Inductive effect : Type :=
| MakeDir (path : string)
| SaveMap (path : string) (m : hex_map)
| Print (s : string).

Definition add_polygon (m : hex_map) (p : polygon) : hex_map :=
  mk_hex_map (hm_center m) (hm_zoom m) (hm_polygons m ++ [p]) (hm_legends m).

Definition add_legend (m : hex_map) (l : legend) : hex_map :=
  mk_hex_map (hm_center m) (hm_zoom m) (hm_polygons m) (hm_legends m ++ [l]).

(** ** Python's [int()] and [format(n, '02x')] *)

(** [int(x)] truncates towards zero. *)
Definition py_int (q : Q) : Z := Z.quot (Qnum q) (Zpos (Qden q)).

Definition hex_char (d : Z) : ascii :=
  if (d <? 10)%Z then ascii_of_nat (Z.to_nat (48 + d)) else ascii_of_nat (Z.to_nat (87 + d)).

(** Lower-case hexadecimal digits of [n > 0], least significant first;
    the fuel is the bit length of [n], at least the number of digits. *)
Fixpoint hex_digits_rev (fuel : nat) (n : Z) : list ascii :=
  match fuel with
  | O => []
  | S f => if (n =? 0)%Z then [] else hex_char (n mod 16) :: hex_digits_rev f (n / 16)
  end.

(** [format(n, 'x')] of a non-negative [n]. *)
Definition hex_nat (n : Z) : string :=
  if (n =? 0)%Z then "0"
  else String.string_of_list_ascii (rev (hex_digits_rev (Pos.size_nat (Z.to_pos n)) n)).

Definition pad_zeros (w : nat) (s : string) : string :=
  String.string_of_list_ascii (repeat "0"%char (w - String.length s)) +:+ s.

(** [format(n, '02x')]: zero padding after the sign to width 2. *)
Definition format_02x (n : Z) : string :=
  if (n <? 0)%Z then "-" +:+ pad_zeros 1 (hex_nat (- n)) else pad_zeros 2 (hex_nat n).

(** [_get_color]. *)
Definition get_color (intensity : Q) (base : string) : string :=
  if String.eqb base "red" then "#" +:+ format_02x (py_int (255 * intensity)) +:+ "0000"
  else "#0000" +:+ format_02x (py_int (255 * intensity)).

(** ** [str] operations of [_add_legends] *)

Fixpoint str_prefix (p s : string) : bool :=
  match p, s with
  | EmptyString, _ => true
  | String a p', String b s' => bool_decide (a = b) && str_prefix p' s'
  | String _ _, EmptyString => false
  end.

(** [sub in s]. *)
Fixpoint str_contains (sub s : string) : bool :=
  str_prefix sub s ||
  match s with
  | EmptyString => false
  | String _ s' => str_contains sub s'
  end.

(** [s.replace(old, new)] for a non-empty [old]: left to right, without
    overlaps; the fuel is the length of [s]. *)
Fixpoint str_replace_fuel (fuel : nat) (old new s : string) : string :=
  match fuel with
  | O => s
  | S f =>
      match s with
      | EmptyString => EmptyString
      | String c s' =>
          if str_prefix old s
          then new +:+ str_replace_fuel f old new (String.substring (String.length old) (String.length s) s)
          else String c (str_replace_fuel f old new s')
      end
  end.

Definition str_replace (old new s : string) : string :=
  str_replace_fuel (String.length s) old new s.

(** [_add_legends]. *)
Definition add_legends (m : hex_map) (title : string) : hex_map :=
  let color := if str_contains "Start" title then "#ff0000" else "#0000ff" in
  add_legend m (mk_legend title color (str_replace "ff" "33" color)).

(** Reading two lower-case hexadecimal digits back, to state what
    [format_02x] produces. *)
Definition hex_digit_val (c : ascii) : option Z :=
  let n := Z.of_nat (nat_of_ascii c) in
  if (48 <=? n)%Z && (n <=? 57)%Z then Some (n - 48)%Z
  else if (97 <=? n)%Z && (n <=? 102)%Z then Some (n - 87)%Z
  else None.

Definition parse_hex2 (s : string) : option Z :=
  match s with
  | String a (String b EmptyString) =>
      x ← hex_digit_val a; y ← hex_digit_val b; Some (16 * x + y)%Z
  | _ => None
  end.

(** Concrete stand-ins for the witnesses: cells are integers made from
    the coordinates in hundredths of a degree, every boundary is known. *)
Definition demo_cell (lat lng : Q) (res : Z) : option Z :=
  Some (Qfloor (lat * 100) * 100000 + Qfloor (lng * 100))%Z.
Definition demo_boundary (h : Z) : option (list (Q * Q)) := Some [(0, 0)%Q].
Definition demo_visualizer : visualizer := init [] 9.
Definition demo_point_trip (slat slng : option Q) : trip :=
  mk_trip None None None None None None None None slat slng slat slng None None.

Section H3.
Context {Cell : Type} `{EqDecision Cell}.

(** [h3.latlng_to_cell(lat, lng, res)]; [None] when it raises. *)
Variable latlng_to_cell : Q → Q → Z → option Cell.
(** [h3.cell_to_boundary(h)]; [None] when it raises. *)
Variable cell_to_boundary : Cell → option (list (Q * Q)).
(** The object the methods run on. *)
Variable self : visualizer.
(** [Path(__file__).parent.parent.parent / 'output'] (line 99): the
    [output] directory of the repository, as a string. *)
Variable output_dir : string.

Definition location (loc : location_type) (t : trip) : option Q * option Q :=
  match loc with
  | Start => (start_lat t, start_lng t)
  | End => (end_lat t, end_lng t)
  end.

(** The body of the [try] of lines 42-46 up to the cell id: [None]
    when [float(NaN)] reaches [latlng_to_cell] or the latter raises. *)
Definition row_cell (loc : location_type) (t : trip) : option Cell :=
  match location loc t with
  | (Some lat, Some lng) => latlng_to_cell lat lng (vz_resolution self)
  | _ => None
  end.

(** The loop of lines 41-48 from a given dict. *)
Fixpoint count_cells (loc : location_type) (acc : list (Cell * nat)) (rows : list trip)
    : list (Cell * nat) :=
  match rows with
  | [] => acc
  | t :: rows' =>
      count_cells loc (match row_cell loc t with
                       | Some h => PyDict.incr acc h
                       | None => acc
                       end) rows'
  end.

(** [_get_hexagons]. *)
Definition get_hexagons (df : list trip) (loc : location_type) : list (Cell * nat) :=
  count_cells loc [] df.

(** [max(hexagons.values()) if hexagons else 1]. *)
Definition max_count (hexagons : list (Cell * nat)) : nat :=
  match hexagons with
  | [] => 1
  | _ => foldr Nat.max 0 (PyDict.values hexagons)
  end.

(** The body of the loop of lines 53-68 for one dict entry: [None] is
    the [except: continue] when the boundary cannot be computed or the
    division by [max_count] fails. *)
Definition hexagon_polygon (mx : nat) (color_base : string) (hc : Cell * nat) : option polygon :=
  let '(h, count) := hc in
  boundaries ← cell_to_boundary h;
  if decide (mx = 0%nat) then None (* ZeroDivisionError, caught *) else
  Some (mk_polygon boundaries
          (get_color (inject_Z (Z.of_nat count) / inject_Z (Z.of_nat mx)) color_base)
          count (6 # 10) 1).

(** [_add_hexagons_to_map]. *)
Definition add_hexagons_to_map (m : hex_map) (hexagons : list (Cell * nat)) (color_base : string)
    : hex_map :=
  let mx := max_count hexagons in
  foldl (λ m' hc, match hexagon_polygon mx color_base hc with
                  | Some p => add_polygon m' p
                  | None => m'
                  end) m hexagons.

(** [_save_maps]: [str(output_dir / name)] is [output_dir/name]. *)
Definition save_maps (m_start m_end : hex_map) : list effect :=
  [MakeDir output_dir;
   SaveMap (output_dir +:+ "/citibike_start_locations.html") m_start;
   SaveMap (output_dir +:+ "/citibike_end_locations.html") m_end;
   Print (newline +:+ "Visualizations saved to:" +:+ newline +:+
          output_dir +:+ "/citibike_start_locations.html" +:+ newline +:+
          output_dir +:+ "/citibike_end_locations.html")].

(** [create_visualizations]. *)
Definition create_visualizations : list effect :=
  let m_start := create_base_map self in
  let m_end := create_base_map self in
  let m_start := add_hexagons_to_map m_start (get_hexagons (vz_df self) Start) "red" in
  let m_end := add_hexagons_to_map m_end (get_hexagons (vz_df self) End) "blue" in
  save_maps (add_legends m_start "Start Locations") (add_legends m_end "End Locations").

(** The number of rows of the table whose [loc] coordinates fall in the
    cell [h]. *)
Definition cell_rows (loc : location_type) (h : Cell) : nat :=
  count_if (λ t, bool_decide (row_cell loc t = Some h)) (vz_df self).

(** What a density map of the [loc] points shows: it is centred on
    [self] at zoom 13 and holds one polygon per cell that some row falls
    in and whose boundary is known, each such cell once, with the cell's
    boundary and its number of rows. *)
Definition shows_layer (loc : location_type) (m : hex_map) : Prop :=
  hm_center m = vz_center self ∧ hm_zoom m = 13%Z ∧
  ∃ hs, NoDup hs ∧
    (∀ h, h ∈ hs ↔ (0 < cell_rows loc h)%nat ∧ is_Some (cell_to_boundary h)) ∧
    Forall2 (λ h p, cell_to_boundary h = Some (pg_locations p) ∧ pg_trips p = cell_rows loc h)
      hs (hm_polygons m).


(** ** The counter of [_get_hexagons] *)

Lemma count_cells_get (loc : location_type) (acc : list (Cell * nat)) (rows : list trip) (h : Cell) :
  PyDict.get_default (count_cells loc acc rows) h =
  (PyDict.get_default acc h + count_if (λ t, bool_decide (row_cell loc t = Some h)) rows)%nat.
Proof.
  revert acc. induction rows as [|t rows IH]; intros acc; simpl; [unfold count_if; simpl; lia|].
  rewrite IH. unfold count_if. simpl.
  destruct (row_cell loc t) as [h'|]; simpl.
  - unfold PyDict.get_default. rewrite PyDictFacts.get_incr.
    case_decide as Hh; subst; unfold PyDict.get_default; simpl;
      rewrite ?bool_decide_eq_true_2, ?bool_decide_eq_false_2 by congruence; simpl; lia.
  - lia.
Qed.

Lemma count_cells_invariant (loc : location_type) (acc : list (Cell * nat)) (rows : list trip) :
  NoDup (PyDict.keys acc) → Forall (λ kc, 0 < kc.2)%nat acc →
  NoDup (PyDict.keys (count_cells loc acc rows)) ∧ Forall (λ kc, 0 < kc.2)%nat (count_cells loc acc rows).
Proof.
  revert acc. induction rows as [|t rows IH]; intros acc Hnd Hpos; simpl; [done|].
  apply IH; repeat case_match; auto with maps.
Qed.

(** C4: [_get_hexagons] counts, for every cell, exactly the rows whose
    coordinates are both present and fall in that cell; the dict has
    distinct keys and no zero count. *)
Theorem get_hexagons_spec (df : list trip) (loc : location_type) :
  (∀ h, PyDict.get_default (get_hexagons df loc) h =
        count_if (λ t, bool_decide (row_cell loc t = Some h)) df) ∧
  NoDup (PyDict.keys (get_hexagons df loc)) ∧
  Forall (λ kc, 0 < kc.2)%nat (get_hexagons df loc).
Proof.
  unfold get_hexagons. split.
  - intros h. by rewrite count_cells_get.
  - apply count_cells_invariant; [apply NoDup_nil_2 | constructor].
Qed.

Lemma count_cells_skip (loc : location_type) (acc : list (Cell * nat)) (rows : list trip) :
  Forall (λ t, row_cell loc t = None) rows → count_cells loc acc rows = acc.
Proof. intros H. revert acc. induction H as [|t rows Ht _ IH]; intros acc; simpl; [done|]. by rewrite Ht. Qed.

(** C14: A table whose coordinates are all missing gives an empty dict. *)
Theorem get_hexagons_all_missing (df : list trip) (loc : location_type) :
  Forall (λ t, (location loc t).1 = None ∨ (location loc t).2 = None) df →
  get_hexagons df loc = [].
Proof.
  intros H. apply count_cells_skip. eapply Forall_impl; [exact H|].
  intros t. unfold row_cell. destruct (location loc t) as [[?|] [?|]]; simpl; intuition congruence.
Qed.

(** ** Drawing *)

(** Drawing the hexagons appends one polygon per entry whose boundary is
    known, in dict order, and changes nothing else of the map. *)
Lemma add_hexagons_to_map_eq (m : hex_map) (hexagons : list (Cell * nat)) (base : string) :
  add_hexagons_to_map m hexagons base =
  mk_hex_map (hm_center m) (hm_zoom m)
    (hm_polygons m ++ omap (hexagon_polygon (max_count hexagons) base) hexagons) (hm_legends m).
Proof.
  unfold add_hexagons_to_map. generalize (max_count hexagons) as mx. intros mx.
  revert m. induction hexagons as [|hc hs IH]; intros m; simpl.
  - destruct m; simpl. by rewrite app_nil_r.
  - rewrite IH. destruct (hexagon_polygon mx base hc); simpl; [by rewrite <- app_assoc|done].
Qed.

Lemma add_hexagons_polygons (m : hex_map) (hexagons : list (Cell * nat)) (base : string) :
  hm_polygons (add_hexagons_to_map m hexagons base) =
  hm_polygons m ++ omap (hexagon_polygon (max_count hexagons) base) hexagons.
Proof. by rewrite add_hexagons_to_map_eq. Qed.

Lemma max_count_ge (hexagons : list (Cell * nat)) (hc : Cell * nat) :
  hc ∈ hexagons → (hc.2 <= max_count hexagons)%nat.
Proof.
  destruct hexagons as [|hc0 hs]; [set_solver|]. unfold max_count, PyDict.values.
  intros Hin. remember (hc0 :: hs) as l eqn:El. clear El.
  induction Hin as [? l|? ? l ? IH]; simpl; lia.
Qed.

Lemma py_int_scale (k a b : Z) :
  (0 < b)%Z → py_int (Qmake k 1 * (inject_Z a / inject_Z b)) = Z.quot (k * a) b.
Proof.
  intros Hb. destruct b as [|p|p]; [lia| |lia].
  unfold py_int, Qdiv, Qmult, Qinv, inject_Z. simpl. by rewrite Z.mul_1_r, Pos.mul_1_l.
Qed.

(** The colour of a cell with [count] trips on a map whose busiest cell
    has [mx] trips. *)
Lemma hexagon_color (mx count : nat) (base : string) :
  (0 < mx)%nat →
  get_color (inject_Z (Z.of_nat count) / inject_Z (Z.of_nat mx)) base =
  let n := Z.quot (255 * Z.of_nat count) (Z.of_nat mx) in
  if String.eqb base "red" then "#" +:+ format_02x n +:+ "0000" else "#0000" +:+ format_02x n.
Proof. intros Hmx. unfold get_color. rewrite py_int_scale by lia. done. Qed.

Lemma max_count_pos (hexagons : list (Cell * nat)) :
  Forall (λ kc, 0 < kc.2)%nat hexagons → (0 < max_count hexagons)%nat.
Proof.
  destruct hexagons as [|hc hs]; [simpl; lia|]. intros Hpos.
  inversion Hpos; subst. pose proof (max_count_ge (hc :: hs) hc ltac:(set_solver)). lia.
Qed.

(** C5: The busiest cell of a map is drawn at full intensity: pure red
    ([#ff0000]) on the start map, pure blue ([#0000ff]) on the end map. *)
Theorem busiest_cell_full_intensity (m : hex_map) (hexagons : list (Cell * nat)) (base : string)
    (h : Cell) (b : list (Q * Q)) :
  Forall (λ kc, 0 < kc.2)%nat hexagons →
  (h, max_count hexagons) ∈ hexagons → cell_to_boundary h = Some b →
  mk_polygon b (if String.eqb base "red" then "#ff0000" else "#0000ff") (max_count hexagons) (6 # 10) 1
    ∈ hm_polygons (add_hexagons_to_map m hexagons base).
Proof.
  intros Hpos Hin Hb. pose proof (max_count_pos _ Hpos) as Hmx.
  rewrite add_hexagons_polygons. apply elem_of_app. right.
  apply list_elem_of_omap. exists (h, max_count hexagons). split; [done|].
  simpl. rewrite Hb. simpl. rewrite decide_False by lia. rewrite hexagon_color by done.
  rewrite Z.quot_mul by lia. by destruct (String.eqb base "red").
Qed.

Lemma format_02x_bytes :
  forallb (λ n, bool_decide (parse_hex2 (format_02x n) = Some n)) (map Z.of_nat (seq 0 256)) = true.
Proof. vm_compute. reflexivity. Qed.

(** [format(n, '02x')] of a byte is two lower-case hexadecimal digits
    that read back as [n]. *)
Lemma format_02x_roundtrip (n : Z) : (0 <= n <= 255)%Z → parse_hex2 (format_02x n) = Some n.
Proof.
  intros Hn. pose proof format_02x_bytes as Hall. rewrite forallb_forall in Hall.
  specialize (Hall n). rewrite bool_decide_eq_true in Hall. apply Hall.
  apply in_map_iff. exists (Z.to_nat n). split; [lia|]. apply in_seq. lia.
Qed.

(** C15: Every polygon drawn has a positive trip count and a well-formed
    colour: [#rr0000] or [#0000bb] where the channel is a byte written
    as two hexadecimal digits. *)
Theorem drawn_polygons_wellformed (hexagons : list (Cell * nat)) (base : string) (p : polygon) :
  Forall (λ kc, 0 < kc.2)%nat hexagons →
  p ∈ hm_polygons (add_hexagons_to_map (create_base_map self) hexagons base) →
  (0 < pg_trips p)%nat ∧
  ∃ n, (0 <= n <= 255)%Z ∧ parse_hex2 (format_02x n) = Some n ∧
    pg_color p = if String.eqb base "red" then "#" +:+ format_02x n +:+ "0000"
                 else "#0000" +:+ format_02x n.
Proof.
  intros Hpos Hp. rewrite add_hexagons_polygons in Hp. simpl in Hp.
  apply list_elem_of_omap in Hp as ([h c] & Hin & Hhp).
  pose proof (max_count_ge _ _ Hin) as Hle. pose proof (max_count_pos _ Hpos) as Hmx.
  rewrite Forall_forall in Hpos. specialize (Hpos _ Hin). simpl in Hle, Hpos.
  simpl in Hhp. destruct (cell_to_boundary h); [|discriminate]. simpl in Hhp.
  rewrite decide_False in Hhp by lia. injection Hhp as <-. simpl.
  split; [done|]. rewrite hexagon_color by done.
  assert (0 <= Z.quot (255 * Z.of_nat c) (Z.of_nat (max_count hexagons)) <= 255)%Z as Hn.
  { rewrite Z.quot_div_nonneg by lia. split; [apply Z.div_pos; lia|].
    apply Z.div_le_upper_bound; lia. }
  eexists. split; [exact Hn|]. split; [by apply format_02x_roundtrip|]. done.
Qed.

(** C16: A cell with fewer than [1/255] of the busiest cell's trips gets
    channel value 0: it is drawn black ([#000000]) on both maps. *)
Theorem sparse_cell_black (m : hex_map) (hexagons : list (Cell * nat)) (base : string)
    (h : Cell) (c : nat) (b : list (Q * Q)) :
  (h, c) ∈ hexagons → (0 < max_count hexagons)%nat → (255 * c < max_count hexagons)%nat →
  cell_to_boundary h = Some b →
  mk_polygon b "#000000" c (6 # 10) 1 ∈ hm_polygons (add_hexagons_to_map m hexagons base).
Proof.
  intros Hin Hmx Hsmall Hb. rewrite add_hexagons_polygons. apply elem_of_app. right.
  apply list_elem_of_omap. exists (h, c). split; [done|].
  simpl. rewrite Hb. simpl. rewrite decide_False by lia. rewrite hexagon_color by done.
  rewrite Z.quot_small by lia. by destruct (String.eqb base "red").
Qed.
(** The entries of a dict whose counts are positive and at most [mx]
    give one polygon each when their boundary is known, with that
    boundary and count. *)
Lemma omap_hexagon_polygon (P : Cell * nat → Prop) (mx : nat) (base : string)
    (d : list (Cell * nat)) :
  Forall (λ hc, 0 < hc.2 ≤ mx ∧ P hc)%nat d →
  Forall2 (λ hc p, cell_to_boundary hc.1 = Some (pg_locations p) ∧ pg_trips p = hc.2 ∧ P hc)
    (filter (λ hc, is_Some (cell_to_boundary hc.1)) d) (omap (hexagon_polygon mx base) d).
Proof.
  induction 1 as [|[h c] d [Hc HP] _ IH]; simpl in *; [constructor|].
  rewrite filter_cons. simpl.
  destruct (cell_to_boundary h) as [b|] eqn:Hb; simpl;
    repeat case_decide; first [lia | by constructor | exact IH | naive_solver].
Qed.

Lemma get_hexagons_get (loc : location_type) (h : Cell) (c : nat) :
  (h, c) ∈ get_hexagons (vz_df self) loc ↔ cell_rows loc h = c ∧ (0 < c)%nat.
Proof.
  destruct (count_cells_invariant loc [] (vz_df self)) as [Hnd Hpos]; [apply NoDup_nil_2|constructor|].
  pose proof (count_cells_get loc [] (vz_df self) h) as Hg. unfold PyDict.get_default in Hg at 2.
  simpl in Hg. fold (get_hexagons (vz_df self) loc) in Hnd, Hpos, Hg. unfold cell_rows.
  rewrite <- PyDictFacts.get_Some_elem by done. unfold PyDict.get_default in Hg.
  rewrite Forall_forall in Hpos.
  destruct (PyDict.get _ h) as [c'|] eqn:Hc'; simpl in Hg; split.
  - intros [= <-]. split; [done|]. apply (Hpos (h, c')), PyDictFacts.get_Some_elem; done.
  - intros [<- ?]. by rewrite Hg.
  - done.
  - intros [<- ?]. lia.
Qed.

(** Each of the two maps shows the cells of its own end of the trips. *)
Lemma shows_layer_map (loc : location_type) (base title : string) :
  shows_layer loc
    (add_legends (add_hexagons_to_map (create_base_map self) (get_hexagons (vz_df self) loc) base) title).
Proof.
  destruct (count_cells_invariant loc [] (vz_df self)) as [Hnd _]; [apply NoDup_nil_2|constructor|].
  fold (get_hexagons (vz_df self) loc) in Hnd.
  unfold shows_layer, add_legends, add_legend. rewrite add_hexagons_to_map_eq. simpl.
  split; [done|split; [done|]].
  exists (fst <$> filter (λ hc, is_Some (cell_to_boundary hc.1)) (get_hexagons (vz_df self) loc)).
  split_and!.
  - eapply sublist_NoDup; [exact Hnd|]. apply (fmap_sublist fst), sublist_filter.
  - intros h. rewrite list_elem_of_fmap. split.
    + intros [[h' c] [-> [Hb Hin]%list_elem_of_filter]]. apply get_hexagons_get in Hin as [Hc ?]. simpl in *. by rewrite Hc.
    + intros [Hc Hb]. exists (h, cell_rows loc h). split; [done|].
      apply list_elem_of_filter. split; [done|]. by apply get_hexagons_get.
  - apply Forall2_fmap_l.
    eapply Forall2_impl; [apply (omap_hexagon_polygon (λ hc, cell_rows loc hc.1 = hc.2))|].
    + apply Forall_forall. intros [h c] Hin. pose proof (max_count_ge _ (h, c) Hin).
      apply get_hexagons_get in Hin as [Hc ?]. simpl in *. split_and!; [lia|lia|exact Hc].
    + intros [h c] p (Hb & Hp & Hc). simpl in *. by rewrite Hp, Hc.
Qed.

(** C33: [create_visualizations] creates the output directory, saves the
    start map and then the end map under their two file names and prints
    both paths.  The start map shows every cell holding the start point
    of some trip and a known boundary once, drawn with that boundary and
    the number of trips starting in it, under the legend
    ["#ff0000"] / ["#330000"]; the end map shows the end points in the
    same way, under the legend ["#0000ff"] / ["#000033"].  Both maps are
    centred on the visualizer's centre at zoom 13. *)
Theorem create_visualizations_layers :
  ∃ m_start m_end,
    create_visualizations =
      [MakeDir output_dir;
       SaveMap (output_dir +:+ "/citibike_start_locations.html") m_start;
       SaveMap (output_dir +:+ "/citibike_end_locations.html") m_end;
       Print (newline +:+ "Visualizations saved to:" +:+ newline +:+
              output_dir +:+ "/citibike_start_locations.html" +:+ newline +:+
              output_dir +:+ "/citibike_end_locations.html")] ∧
    shows_layer Start m_start ∧
    hm_legends m_start = [mk_legend "Start Locations" "#ff0000" "#330000"] ∧
    shows_layer End m_end ∧
    hm_legends m_end = [mk_legend "End Locations" "#0000ff" "#000033"].
Proof.
  eexists _, _. split; [reflexivity|].
  split_and!; [apply shows_layer_map | | apply shows_layer_map |];
    unfold add_legends, add_legend; rewrite add_hexagons_to_map_eq; reflexivity.
Qed.

End H3.

(** ** The fuel of [str_replace] *)

Lemma length_substring_le (k l : nat) (s : string) :
  (String.length (String.substring k l s) <= String.length s - k)%nat.
Proof.
  revert k l. induction s as [|c s IH]; intros [|k] [|l]; simpl; try lia.
  - specialize (IH 0%nat l). simpl in IH. lia.
  - apply IH.
  - apply IH.
Qed.

Lemma str_replace_fuel_stable (old new s : string) (n m : nat) :
  old ≠ ""%string → (String.length s <= n)%nat → (String.length s <= m)%nat →
  str_replace_fuel n old new s = str_replace_fuel m old new s.
Proof.
  intros Hold. assert (1 <= String.length old)%nat by (destruct old; [done|simpl; lia]).
  revert s m. induction n as [|n IH]; intros s m Hn Hm.
  - destruct s; [by destruct m | simpl in Hn; lia].
  - destruct s as [|c s']; [by destruct m|]. simpl in Hn, Hm. destruct m as [|m]; [lia|]. simpl.
    destruct (str_prefix old (String c s')); f_equal; [|apply IH; lia].
    pose proof (length_substring_le (String.length old) (S (String.length s')) (String c s')).
    simpl in *. apply IH; lia.
Qed.

(** The fuel of [str_replace] (the length of the string) is enough:
    every larger fuel gives the same result, so the model computes
    Python's [str.replace] to the end of the string. *)
Lemma str_replace_fuel_enough (old new s : string) (n : nat) :
  old ≠ ""%string → (String.length s <= n)%nat →
  str_replace_fuel n old new s = str_replace old new s.
Proof. intros Hold Hn. apply str_replace_fuel_stable; auto. Qed.

(** ** Witnesses *)

Lemma get_hexagons_all_missing_witness :
  Forall (λ t, (location Start t).1 = None ∨ (location Start t).2 = None)
    [demo_point_trip None (Some 1%Q); demo_point_trip (Some 40%Q) None] ∧
  get_hexagons demo_cell demo_visualizer [demo_point_trip None (Some 1%Q); demo_point_trip (Some 40%Q) None] Start = [].
Proof.
  assert (Forall (λ t, (location Start t).1 = None ∨ (location Start t).2 = None)
    [demo_point_trip None (Some 1%Q); demo_point_trip (Some 40%Q) None]) as H
    by (constructor; [left; reflexivity | constructor; [right; reflexivity | constructor]]).
  split; [exact H | exact (get_hexagons_all_missing demo_cell demo_visualizer _ Start H)].
Defined.

Lemma busiest_cell_full_intensity_witness :
  (Forall (λ kc, 0 < kc.2)%nat [(1%Z, 3%nat); (2%Z, 5%nat)] ∧
   (2%Z, max_count [(1%Z, 3%nat); (2%Z, 5%nat)]) ∈ [(1%Z, 3%nat); (2%Z, 5%nat)] ∧
   demo_boundary 2%Z = Some [(0, 0)%Q]) ∧
  mk_polygon [(0, 0)%Q] "#ff0000" (max_count [(1%Z, 3%nat); (2%Z, 5%nat)]) (6 # 10) 1
    ∈ hm_polygons (add_hexagons_to_map demo_boundary (create_base_map demo_visualizer) [(1%Z, 3%nat); (2%Z, 5%nat)] "red").
Proof.
  assert (Forall (λ kc, 0 < kc.2)%nat [(1%Z, 3%nat); (2%Z, 5%nat)]) as Hp
    by (repeat constructor; simpl; lia).
  assert ((2%Z, max_count [(1%Z, 3%nat); (2%Z, 5%nat)]) ∈ [(1%Z, 3%nat); (2%Z, 5%nat)]) as Hin
    by (simpl; set_solver).
  split; [split; [exact Hp | split; [exact Hin | reflexivity]]|].
  exact (busiest_cell_full_intensity demo_boundary (create_base_map demo_visualizer) _ "red" 2%Z [(0, 0)%Q] Hp Hin eq_refl).
Defined.

Lemma drawn_polygons_wellformed_witness :
  (Forall (λ kc, 0 < kc.2)%nat [(1%Z, 3%nat); (2%Z, 5%nat)] ∧
   mk_polygon [(0, 0)%Q] "#990000" 3 (6 # 10) 1
     ∈ hm_polygons (add_hexagons_to_map demo_boundary (create_base_map demo_visualizer) [(1%Z, 3%nat); (2%Z, 5%nat)] "red")) ∧
  (0 < 3)%nat ∧
  ∃ n, (0 <= n <= 255)%Z ∧ parse_hex2 (format_02x n) = Some n ∧
    "#990000" = (if String.eqb "red" "red" then "#" +:+ format_02x n +:+ "0000"
                 else "#0000" +:+ format_02x n).
Proof.
  assert (Forall (λ kc, 0 < kc.2)%nat [(1%Z, 3%nat); (2%Z, 5%nat)]) as Hp
    by (repeat constructor; simpl; lia).
  assert (mk_polygon [(0, 0)%Q] "#990000" 3 (6 # 10) 1
     ∈ hm_polygons (add_hexagons_to_map demo_boundary (create_base_map demo_visualizer) [(1%Z, 3%nat); (2%Z, 5%nat)] "red"))
    as Hin by (vm_compute; left).
  split; [split; [exact Hp | exact Hin]|].
  exact (drawn_polygons_wellformed demo_boundary demo_visualizer _ "red" _ Hp Hin).
Defined.

Lemma sparse_cell_black_witness :
  ((1%Z, 1%nat) ∈ [(1%Z, 1%nat); (2%Z, 300%nat)] ∧ (0 < max_count [(1%Z, 1%nat); (2%Z, 300%nat)])%nat ∧
   (255 * 1 < max_count [(1%Z, 1%nat); (2%Z, 300%nat)])%nat ∧ demo_boundary 1%Z = Some [(0, 0)%Q]) ∧
  mk_polygon [(0, 0)%Q] "#000000" 1 (6 # 10) 1
    ∈ hm_polygons (add_hexagons_to_map demo_boundary (create_base_map demo_visualizer) [(1%Z, 1%nat); (2%Z, 300%nat)] "blue").
Proof.
  assert ((1%Z, 1%nat) ∈ [(1%Z, 1%nat); (2%Z, 300%nat)]) as Hin by set_solver.
  assert (0 < max_count [(1%Z, 1%nat); (2%Z, 300%nat)])%nat as Hm by (vm_compute; lia).
  assert (255 * 1 < max_count [(1%Z, 1%nat); (2%Z, 300%nat)])%nat as Hs by (vm_compute; lia).
  split; [repeat split; (exact Hin || exact Hm || exact Hs || reflexivity)|].
  exact (sparse_cell_black demo_boundary (create_base_map demo_visualizer) _ "blue" 1%Z 1 [(0, 0)%Q] Hin Hm Hs eq_refl).
Defined.

End H3Visualizer.
