(* ===== verification/Analyzers.v ===== *)
(** * The four analyzers and their common interface

    [analyzers/base_analyzer.py] declares [BaseAnalyzer], whose objects
    hold the shared DataFrame [self.df] and implement [analyze()].  All
    four analyzers of [main.py] are built on the same DataFrame object:
    what one of them writes into it ([SpatialAnalyzer] adds the column
    [station_pair]) is seen by every later user of the table.

    - The shared table is the record [frame]: the loaded rows and the
      columns added later.
    - [BaseAnalyzer] is a type class: [analyze] maps an analyzer object
      and the shared frame to what it prints ([output]) and the frame
      after it, or to the exception it raises.  The class
      [AnalyzerKeepsRows] is the contract the pipeline relies on: an
      analyzer may add columns but never changes the loaded rows.
    - [TripAnalyzer] is the five sections of [trip_analyzer.py];
      [SpatialAnalyzer] and [CityAnalyzer] their files; the route
      analyzer object carries the libraries [RouteAnalyzer.analyze]
      calls.
    - Console output is modelled by the values printed. *)

From S2P Require Import Prelude Datetime DataLoader ValueCounts Stats RouteAnalyzer.
Close Scope Q_scope.

Module Analyzers.
Import Datetime DataLoader ValueCounts Stats.

(** ** The shared DataFrame *)

Record frame : Type := mk_frame {
  fr_rows : list trip;
  (** [df['station_pair']], once [SpatialAnalyzer] has written it. *)
  fr_station_pair : option (list (option string)) }.

(** The table [CitibikeDataLoader.load] returns. *)
Definition frame_of (df : list trip) : frame := mk_frame df None.

(** [df[col]] for a column of the loaded table. *)
Definition column {A} (f : trip → option A) (df : list trip) : list (option A) := map f df.

(** ** [TripAnalyzer] *)

Record trip_report : Type := mk_trip_report {
  tr_total : nat;
  tr_mean_duration : option Q;
  tr_median_duration : option Q;
  tr_member_stats : list (string * nat);
  tr_member_pct : list (string * Q);
  tr_top_start : list (string * nat);
  tr_top_end : list (string * nat);
  tr_hourly : list (Z * nat);
  tr_daily : list (string * nat);
  tr_bike_stats : list (string * nat);
  tr_bike_pct : list (string * Q) }.

(** [_analyze_stations] (lines 28-34); also the body of [CityAnalyzer]. *)
Definition analyze_stations (df : list trip) : list (string * nat) * list (string * nat) :=
  (head 5 (value_counts (column start_station_name df)),
   head 5 (value_counts (column end_station_name df))).

(** [df['started_at'].dt.hour]: NaT gives NaN. *)
Definition hour_column (df : list trip) : list (option Z) := map (λ t, dt_hour <$> started_at t) df.

(** [df['started_at'].dt.day_name()]. *)
Definition day_column (df : list trip) : list (option string) :=
  map (λ t, dt_day_name <$> started_at t) df.

(** [TripAnalyzer.analyze] (lines 5-10) with its five sections. *)
Definition trip_analyze (df : list trip) : trip_report :=
  let member_stats := value_counts (column member_casual df) in
  let bike_stats := value_counts (column rideable_type df) in
  let '(top_start, top_end) := analyze_stations df in
  {| tr_total := length df;
     tr_mean_duration := mean (column trip_duration_mins df);
     tr_median_duration := median (column trip_duration_mins df);
     tr_member_stats := member_stats;
     tr_member_pct := percentages member_stats (length df);
     tr_top_start := top_start;
     tr_top_end := top_end;
     tr_hourly := sort_index (value_counts (hour_column df));
     tr_daily := value_counts (day_column df);
     tr_bike_stats := bike_stats;
     tr_bike_pct := percentages bike_stats (length df) |}.

(** ** [SpatialAnalyzer] *)

(** One cell of [start + ' → ' + end] on object columns: NaN on either
    side gives NaN. *)
Definition station_pair_cell (s e : option string) : option string :=
  match s, e with
  | Some s, Some e => Some (s +:+ " → " +:+ e)
  | _, _ => None
  end.

(** [pd.read_csv] gives a non-empty column with no value the dtype
    float64; [float64 + str] has no numpy loop and raises [TypeError]
    (only object columns fall back to element-wise addition). *)
Definition float_column {A} (col : list (option A)) : bool :=
  bool_decide (col ≠ []) && forallb (λ o, bool_decide (o = None)) col.

(** Line 7: the [station_pair] column. *)
Definition station_pairs (df : list trip) : res (list (option string)) :=
  let starts := column start_station_name df in
  if float_column starts then
    Err (TypeError "ufunc 'add' did not contain a loop with signature matching types")
  else Ok (zip_with station_pair_cell starts (column end_station_name df)).

(** [SpatialAnalyzer.analyze]: writes the column into the shared frame,
    prints the ten most frequent pairs. *)
Definition spatial_analyze (fr : frame) : res (list (string * nat) * frame) :=
  sp ← station_pairs (fr_rows fr);
  Ok (head 10 (value_counts sp), mk_frame (fr_rows fr) (Some sp)).

(** ** The interface *)

(** What an analyzer prints. *)
Inductive output : Type :=
| OutTrip (r : trip_report)
| OutSpatial (popular_routes : list (string * nat))
| OutCity (top_start top_end : list (string * nat))
| OutRoute (r : RouteAnalyzer.route_report) (m : RouteAnalyzer.route_map).

(** [BaseAnalyzer.analyze]: an analyzer object run on the shared frame. *)
Class BaseAnalyzer (A : Type) := analyze : A → frame → res (output * frame).

(** The contract: an analyzer may add columns but keeps the loaded rows. *)
Class AnalyzerKeepsRows (A : Type) `{BaseAnalyzer A} :=
  analyze_keeps_rows : ∀ (a : A) fr o fr', analyze a fr = Ok (o, fr') → fr_rows fr' = fr_rows fr.

Inductive TripAnalyzer : Type := mkTripAnalyzer.
Inductive SpatialAnalyzer : Type := mkSpatialAnalyzer.
Inductive CityAnalyzer : Type := mkCityAnalyzer.

(** A [RouteAnalyzer] object with the libraries it calls. *)
Record RouteAnalyzerObj : Type := mkRouteAnalyzer {
  ra_geodesic_km : RouteAnalyzer.latlng → RouteAnalyzer.latlng → Q;
  ra_http_get : string → RouteAnalyzer.http_response;
  ra_polyline_decode : string → option (list RouteAnalyzer.latlng);
  ra_float_str : Q → string }.

#[export] Instance trip_analyzer_base : BaseAnalyzer TripAnalyzer :=
  λ _ fr, Ok (OutTrip (trip_analyze (fr_rows fr)), fr).

#[export] Instance spatial_analyzer_base : BaseAnalyzer SpatialAnalyzer :=
  λ _ fr, '(routes, fr') ← spatial_analyze fr; Ok (OutSpatial routes, fr').

#[export] Instance city_analyzer_base : BaseAnalyzer CityAnalyzer :=
  λ _ fr, let '(s, e) := analyze_stations (fr_rows fr) in Ok (OutCity s e, fr).

(** [valid_trips] is a copy made by [dropna]: writing [trip_distance_km]
    into it leaves the shared frame unchanged. *)
#[export] Instance route_analyzer_base : BaseAnalyzer RouteAnalyzerObj :=
  λ ra fr, '(rep, m) ← RouteAnalyzer.analyze (ra_geodesic_km ra) (ra_http_get ra)
                         (ra_polyline_decode ra) (ra_float_str ra) (fr_rows fr);
           Ok (OutRoute rep m, fr).

(** A ride between two (possibly missing) station names, started at
    [t] nanoseconds. *)
Definition demo_ride (s e : option string) (t : Z) : trip :=
  mk_trip (Some "R") (Some "classic_bike") (Some t) (Some (t + 60000000000)%Z) s None e None
          None None None None (Some "member") (Some 1%Q).

Definition demo_rides : list trip :=
  [demo_ride (Some "Grove St") (Some "City Hall") 0; demo_ride (Some "Grove St") (Some "City Hall") 0;
   demo_ride (Some "Hoboken") (Some "Grove St") 0; demo_ride None (Some "City Hall") 0].

(** ** Lemmas *)

#[export] Instance trip_analyzer_keeps : AnalyzerKeepsRows TripAnalyzer.
Proof. intros a fr o fr' [=]. by subst. Qed.

#[export] Instance spatial_analyzer_keeps : AnalyzerKeepsRows SpatialAnalyzer.
Proof.
  intros a fr o fr' H. unfold analyze, spatial_analyzer_base, spatial_analyze in H.
  destruct (station_pairs (fr_rows fr)); simpl in H; [|discriminate]. by injection H as _ <-.
Qed.

#[export] Instance city_analyzer_keeps : AnalyzerKeepsRows CityAnalyzer.
Proof.
  intros a fr o fr' H. unfold analyze, city_analyzer_base in H.
  destruct (analyze_stations _). by injection H as _ <-.
Qed.

#[export] Instance route_analyzer_keeps : AnalyzerKeepsRows RouteAnalyzerObj.
Proof.
  intros a fr o fr' H. unfold analyze, route_analyzer_base in H.
  destruct (RouteAnalyzer.analyze _ _ _ _ _) as [[rep m]|]; simpl in H; [|discriminate].
  by injection H as _ <-.
Qed.

Lemma count_if_map {A B} (p : B → bool) (f : A → B) (l : list A) :
  count_if p (map f l) = count_if (λ x, p (f x)) l.
Proof. unfold count_if. induction l as [|x l IH]; simpl; [done|]. case_match; simpl; lia. Qed.

Lemma zip_with_map {A B C D} (f : B → C → D) (g : A → B) (h : A → C) (l : list A) :
  zip_with f (map g l) (map h l) = map (λ x, f (g x) (h x)) l.
Proof. induction l as [|x l IH]; simpl; [done|]. by rewrite IH. Qed.

Lemma dt_hour_range (t : Z) : (0 ≤ dt_hour t < 24)%Z.
Proof. unfold dt_hour. apply Z.mod_pos_bound. lia. Qed.

Lemma dt_day_name_in (t : Z) : dt_day_name t ∈ day_names.
Proof.
  unfold dt_day_name. pose proof (Z.mod_pos_bound (t / ns_per_day + 3) 7 ltac:(lia)) as Hr.
  unfold dt_dayofweek. destruct (lookup_lt_is_Some_2 day_names (Z.to_nat ((t / ns_per_day + 3) mod 7)))
    as [d Hd]; [simpl; lia|].
  rewrite Hd. simpl. by eapply list_elem_of_lookup_2.
Qed.

(** A key of a count table is a value of the column. *)
Lemma value_counts_key_in {K} `{EqDecision K} (col : list (option K)) (kc : K * nat) :
  kc ∈ value_counts col → Some kc.1 ∈ col.
Proof.
  intros Hin. apply value_counts_keys. unfold PyDict.keys. apply list_elem_of_In, in_map, list_elem_of_In, Hin.
Qed.

Lemma float_column_spec {A} (col : list (option A)) :
  float_column col = true ↔ col ≠ [] ∧ Forall (λ o, o = None) col.
Proof.
  unfold float_column. rewrite andb_true_iff, bool_decide_eq_true, forallb_forall, Forall_forall.
  split; intros [Hne Hall]; split; try done; intros o Ho.
  - pose proof (Hall o ltac:(by apply list_elem_of_In)) as H. by case_bool_decide.
  - case_bool_decide as H; [done|]. destruct H. apply Hall, list_elem_of_In, Ho.
Qed.

(** ** Properties *)

(** C24: The hourly table of [_analyze_temporal_patterns] lists hours in
    strictly increasing order, every hour in [0, 23], with the number of
    trips that started in that hour; trips with a missing start time are
    not counted.  Every day-of-week key is one of the seven day names. *)
Theorem temporal_tables (df : list trip) :
  StronglySorted (λ x y, (x.1 < y.1)%Z) (tr_hourly (trip_analyze df)) ∧
  Forall (λ kc, (0 ≤ kc.1 < 24)%Z) (tr_hourly (trip_analyze df)) ∧
  (∀ h, PyDict.get_default (tr_hourly (trip_analyze df)) h =
        count_if (λ t, bool_decide (dt_hour <$> started_at t = Some h)) df) ∧
  Forall (λ kc, kc.1 ∈ day_names) (tr_daily (trip_analyze df)).
Proof.
  simpl. destruct (value_counts_invariant (hour_column df)) as [Hnd _]. split_and!.
  - by apply sort_index_strict.
  - rewrite sort_index_Permutation, Forall_forall. intros kc Hin.
    apply value_counts_key_in, list_elem_of_In, in_map_iff in Hin as (t & Ht & _).
    destruct (started_at t); simplify_eq/=. rewrite <- Ht. apply dt_hour_range.
  - intros h. unfold PyDict.get_default. rewrite sort_index_get by done.
    pose proof (value_counts_get (hour_column df) h) as Hg. unfold PyDict.get_default in Hg.
    rewrite Hg. unfold occurrences, hour_column. by rewrite count_if_map.
  - rewrite Forall_forall. intros kc Hin.
    apply value_counts_key_in, list_elem_of_In, in_map_iff in Hin as (t & Ht & _).
    destruct (started_at t); simplify_eq/=. rewrite <- Ht. apply dt_day_name_in.
Qed.

(** C25: [SpatialAnalyzer] raises [TypeError] exactly when the table is not
    empty and has no start station name at all (pandas then reads the
    column as float64, and [float + str] has no loop). *)
Theorem spatial_type_error (fr : frame) :
  (∃ e, spatial_analyze fr = Err e) ↔
  fr_rows fr ≠ [] ∧ Forall (λ t, start_station_name t = None) (fr_rows fr).
Proof.
  unfold spatial_analyze, station_pairs.
  destruct (float_column _) eqn:Hf; simpl.
  - apply float_column_spec in Hf as [Hne Hall]. unfold column in *. rewrite Forall_map in Hall.
    split; [intros _; split; [intros Hr; apply Hne; by rewrite Hr | done] | by eexists].
  - split; [by intros [e ?]|]. intros [Hne Hall]. exfalso. apply not_true_iff_false in Hf.
    apply Hf, float_column_spec. unfold column. rewrite Forall_map.
    split; [destruct (fr_rows fr); [done|discriminate] | done].
Qed.

(** C26: Otherwise [SpatialAnalyzer] writes into the shared frame, for
    every row, ["<start> → <end>"] when both names are present and NaN
    otherwise; it keeps the rows, and each printed route count is the
    number of trips between that pair of stations; no pair left out of
    the ten printed is more frequent than a printed one. *)
Theorem spatial_popular_routes (fr : frame) (routes : list (string * nat)) (fr' : frame) :
  spatial_analyze fr = Ok (routes, fr') →
  fr_rows fr' = fr_rows fr ∧
  fr_station_pair fr' =
    Some (map (λ t, station_pair_cell (start_station_name t) (end_station_name t)) (fr_rows fr)) ∧
  (∀ p c, (p, c) ∈ routes →
     c = count_if (λ t, bool_decide (station_pair_cell (start_station_name t) (end_station_name t)
                                      = Some p)) (fr_rows fr)) ∧
  (∀ x y, x ∈ routes →
     y ∈ drop 10 (value_counts (map (λ t, station_pair_cell (start_station_name t)
                                                           (end_station_name t)) (fr_rows fr))) →
     (y.2 ≤ x.2)%nat).
Proof.
  unfold spatial_analyze, station_pairs. destruct (float_column _); [discriminate|].
  rewrite bind_Ok. unfold column. rewrite zip_with_map. intros [<- <-]%Ok_inj%pair_equal_spec. split_and!; [done | done | |].
  - intros p c Hin.
    set (pairs := map (λ t, station_pair_cell (start_station_name t) (end_station_name t)) (fr_rows fr)).
    destruct (value_counts_invariant pairs) as [Hnd _].
    assert ((p, c) ∈ value_counts pairs) as Hin' by (unfold head in Hin; by eapply subseteq_take).
    apply PyDictFacts.get_Some_elem in Hin'; [|done].
    pose proof (value_counts_get pairs p) as Hg. unfold PyDict.get_default in Hg.
    rewrite Hin' in Hg. simpl in Hg. rewrite Hg. unfold occurrences, pairs. by rewrite count_if_map.
  - intros x y Hx Hy. by eapply sorted_take_drop_count; [apply value_counts_sorted | ..].
Qed.

(** ** Witnesses *)

Lemma spatial_popular_routes_witness :
  ∃ routes fr', spatial_analyze (frame_of demo_rides) = Ok (routes, fr') ∧
  fr_rows fr' = fr_rows (frame_of demo_rides) ∧
  fr_station_pair fr' =
    Some (map (λ t, station_pair_cell (start_station_name t) (end_station_name t)) demo_rides) ∧
  (∀ p c, (p, c) ∈ routes →
     c = count_if (λ t, bool_decide (station_pair_cell (start_station_name t) (end_station_name t)
                                      = Some p)) demo_rides) ∧
  (∀ x y, x ∈ routes →
     y ∈ drop 10 (value_counts (map (λ t, station_pair_cell (start_station_name t)
                                                           (end_station_name t)) demo_rides)) →
     (y.2 ≤ x.2)%nat).
Proof.
  eexists _, _. split; [reflexivity|].
  apply (spatial_popular_routes (frame_of demo_rides)). reflexivity.
Defined.

End Analyzers.
