(* ===== verification/Format.v ===== *)
(** * The text of [TripAnalyzer._analyze_basic_stats]
    ([src/src/analyzers/trip_analyzer.py], lines 12-17)

    The first section of the trip report is printed with two format
    specifications: [{len(self.df):,}] writes the number of trips with
    a comma between groups of three digits, and [{x:.2f}] writes the
    mean and the median duration with two decimals, or [nan] when
    pandas returns NaN.

    - [py_str_int] is [str(n)] for [n >= 0] (the Standard Library's
      decimal printer), [format_thousands] is [format(n, ',')]: the
      groups of three digits of [n] ([thousands_groups]), the first one
      unpadded and the others padded to three digits.
    - [format_2f] is [format(x, '.2f')]: [|x| * 100] rounded to the
      nearest integer, ties to even, then sign, integer part, point and
      two digits.  Values are exact rationals, so the digits are those
      of the exact value rather than of its nearest double.
    - [parse_thousands] and [read_2f] read such strings back; they are
      the specification the round trips are stated against. *)

From S2P Require Import Prelude DataLoader Stats Analyzers.
From Stdlib Require Import DecimalString DecimalN.
Close Scope Q_scope.

Module Format.
Import DataLoader Stats Analyzers.

(** ** Printing *)

(** The character of a decimal digit. *)
Definition digit_char (d : Z) : ascii := ascii_of_nat (Z.to_nat (48 + d)).

(** [str(n)] for [n >= 0]. *)
Definition py_str_int (n : Z) : string := NilZero.string_of_uint (N.to_uint (Z.to_N n)).

(** A group of three digits with its leading zeros. *)
Definition pad3 (g : Z) : string :=
  String (digit_char (g / 100)) (String (digit_char (g / 10 mod 10)) (String (digit_char (g mod 10)) "")).

(** Two digits with a leading zero. *)
Definition pad2 (g : Z) : string :=
  String (digit_char (g / 10)) (String (digit_char (g mod 10)) "").

(** The groups of three digits of [n], most significant first; the fuel
    is the bit length of [n], more than the number of groups. *)
Fixpoint groups_fuel (fuel : nat) (n : Z) (acc : list Z) : list Z :=
  match fuel with
  | O => n :: acc
  | S f => if (n <? 1000)%Z then n :: acc else groups_fuel f (n / 1000) ((n mod 1000)%Z :: acc)
  end.

Definition thousands_groups (n : Z) : list Z := groups_fuel (Z.to_nat (Z.log2 n)) n [].

(** [","] and a padded group before each group after the first. *)
Fixpoint join_groups (gs : list Z) : string :=
  match gs with
  | [] => ""
  | g :: gs' => "," +:+ pad3 g +:+ join_groups gs'
  end.

(** [format(n, ',')] for [n >= 0]. *)
Definition format_thousands (n : Z) : string :=
  match thousands_groups n with
  | [] => ""
  | g :: gs => py_str_int g +:+ join_groups gs
  end.

(** ** Reading back *)

(** The comma-separated fields of a string. *)
Fixpoint split_commas (s : string) : list string :=
  match s with
  | EmptyString => [EmptyString]
  | String c s' =>
      let gs := split_commas s' in
      if Ascii.eqb c "," then EmptyString :: gs
      else match gs with
           | g :: gs' => String c g :: gs'
           | [] => [String c EmptyString]
           end
  end.

(** The string has no comma. *)
Fixpoint no_comma (s : string) : bool :=
  match s with
  | EmptyString => true
  | String c s' => negb (Ascii.eqb c ",") && no_comma s'
  end.

(** A non-empty run of decimal digits. *)
Definition read_uint (s : string) : option Z := (λ u, Z.of_N (N.of_uint u)) <$> NilZero.uint_of_string s.

(** The first group: one to three digits, no leading zero but in [0]. *)
Definition read_first_group (g : string) : option Z :=
  match g with
  | String c (String _ _) => if Ascii.eqb c "0" then None
                             else if (String.length g <=? 3)%nat then read_uint g else None
  | _ => read_uint g
  end.

(** A later group: exactly three digits. *)
Definition read_group3 (g : string) : option Z :=
  if (String.length g =? 3)%nat then read_uint g else None.

Definition read_groups (acc : Z) (gs : list string) : option Z :=
  foldl (λ a g, x ← a; y ← read_group3 g; Some (1000 * x + y)%Z) (Some acc) gs.

(** A number written with a comma between groups of three digits. *)
Definition parse_thousands (s : string) : option Z :=
  match split_commas s with
  | [] => None
  | g :: gs => first ← read_first_group g; read_groups first gs
  end.

(** ** [format(x, '.2f')] *)

(** [x] rounded to the nearest integer, ties to the even one. *)
Definition round_half_even (q : Q) : Z :=
  let f := Qfloor q in
  match Qcompare (q - inject_Z f) (1 # 2) with
  | Lt => f
  | Gt => (f + 1)%Z
  | Eq => if Z.even f then f else (f + 1)%Z
  end.

(** [f"{x:.2f}"] of a float column's value; NaN prints as [nan]. *)
Definition format_2f (x : option Q) : string :=
  match x with
  | None => "nan"
  | Some q =>
      let n := round_half_even (Qabs q * 100) in
      (if Qlt_le_dec q 0 then "-" else "") +:+ py_str_int (n / 100) +:+ "." +:+ pad2 (n mod 100)
  end.

(** The text before and after the first ["."]. *)
Fixpoint split_dot (s : string) : option (string * string) :=
  match s with
  | EmptyString => None
  | String c s' =>
      if Ascii.eqb c "." then Some (EmptyString, s')
      else match split_dot s' with
           | Some (a, b) => Some (String c a, b)
           | None => None
           end
  end.

(** Digits, a point and exactly two digits. *)
Definition read_unsigned_2f (s : string) : option Q :=
  match split_dot s with
  | Some (i, f) =>
      n ← read_uint i;
      if (String.length f =? 2)%nat then d ← read_uint f; Some (inject_Z n + inject_Z d / 100)%Q
      else None
  | None => None
  end.

(** A number with two decimals and an optional minus sign. *)
Definition read_2f (s : string) : option Q :=
  match s with
  | EmptyString => None
  | String c s' => if Ascii.eqb c "-" then Qopp <$> read_unsigned_2f s' else read_unsigned_2f s
  end.

(** What [f"{x:.2f}"] shows of [x]: [nan] for NaN, otherwise a number
    with two decimals within [0.005] of [x]. *)
Definition shown_2f (s : string) (x : option Q) : Prop :=
  match x with
  | None => s = "nan"
  | Some q => ∃ v, read_2f s = Some v ∧ (Qabs (v - q) <= 1 # 200)%Q
  end.

(** ** [_analyze_basic_stats] *)

(** [s * n]. *)
Fixpoint str_repeat (n : nat) (s : string) : string :=
  match n with
  | O => ""
  | S k => s +:+ str_repeat k s
  end.

(** The five lines printed by [_analyze_basic_stats] from the report. *)
Definition basic_stats_lines (r : trip_report) : list string :=
  [newline +:+ "1. Basic Trip Statistics:"; str_repeat 50 "=";
   "Total number of trips: " +:+ format_thousands (Z.of_nat (tr_total r));
   "Average trip duration: " +:+ format_2f (tr_mean_duration r) +:+ " minutes";
   "Median trip duration: " +:+ format_2f (tr_median_duration r) +:+ " minutes"].

(** ** Lemmas *)

(** Every group of three digits is printed and read back as itself, as
    the first group and as a later one, without a comma. *)
Lemma groups_3_digits :
  forallb (λ g, bool_decide (read_group3 (pad3 g) = Some g) && bool_decide (read_first_group (py_str_int g) = Some g)
                && no_comma (pad3 g) && no_comma (py_str_int g))
          (map Z.of_nat (seq 0 1000)) = true.
Proof. vm_compute. reflexivity. Qed.

Lemma group_ok (g : Z) :
  (0 <= g < 1000)%Z →
  read_group3 (pad3 g) = Some g ∧ read_first_group (py_str_int g) = Some g ∧
  no_comma (pad3 g) = true ∧ no_comma (py_str_int g) = true.
Proof.
  intros Hg. pose proof groups_3_digits as Hall. rewrite forallb_forall in Hall.
  specialize (Hall g). rewrite !andb_true_iff, !bool_decide_eq_true in Hall.
  destruct Hall as [[[? ?] ?] ?]; [|done]. apply in_map_iff. exists (Z.to_nat g).
  split; [lia|]. apply in_seq. lia.
Qed.

Lemma split_commas_cons (t : string) : ∃ g gs, split_commas t = g :: gs.
Proof.
  induction t as [|c t (g & gs & IH)]; simpl; [by eexists _, _|]. rewrite IH.
  destruct (Ascii.eqb c ","); by eexists _, _.
Qed.

Lemma split_commas_nocomma (s t : string) :
  no_comma s = true →
  split_commas (s +:+ t) = match split_commas t with
                           | g :: gs => (s +:+ g) :: gs
                           | [] => [s]
                           end.
Proof.
  destruct (split_commas_cons t) as (g & gs & Ht). rewrite Ht.
  induction s as [|c s IH]; simpl; [done|].
  intros [Hc Hs]%andb_true_iff. rewrite IH by done. apply negb_true_iff in Hc. by rewrite Hc.
Qed.

Lemma split_commas_comma (t : string) : split_commas (String "," t) = "" :: split_commas t.
Proof. reflexivity. Qed.

Lemma split_commas_join (gs : list Z) :
  Forall (λ g, 0 <= g < 1000)%Z gs → split_commas (join_groups gs) = "" :: map pad3 gs.
Proof.
  induction 1 as [|g gs Hg _ IH]; [done|]. cbn [join_groups].
  rewrite string_app_cons, string_app_nil_l, split_commas_comma.
  destruct (group_ok g Hg) as (_ & _ & Hc & _). rewrite split_commas_nocomma, IH by done.
  by rewrite string_app_nil_r.
Qed.

Lemma read_groups_map (a : Z) (gs : list Z) :
  Forall (λ g, 0 <= g < 1000)%Z gs →
  read_groups a (map pad3 gs) = Some (foldl (λ x g, 1000 * x + g)%Z a gs).
Proof.
  intros Hgs. revert a. induction Hgs as [|g gs Hg _ IH]; intros a; [done|].
  unfold read_groups in *. simpl. destruct (group_ok g Hg) as (-> & _). apply IH.
Qed.

(** The groups of [n] are three-digit numbers that evaluate back to [n]
    when the fuel exceeds the bit length. *)
Lemma groups_fuel_spec (f : nat) (n : Z) (acc : list Z) :
  (0 <= n < 2 ^ Z.of_nat (S f))%Z → Forall (λ g, 0 <= g < 1000)%Z acc →
  ∃ g gs, groups_fuel f n acc = g :: gs ∧ (0 <= g < 1000)%Z ∧ Forall (λ g, 0 <= g < 1000)%Z gs ∧
    foldl (λ x g, 1000 * x + g)%Z g gs = foldl (λ x g, 1000 * x + g)%Z n acc.
Proof.
  revert n acc. induction f as [|f IH]; intros n acc Hn Hacc; simpl.
  - exists n, acc. simpl in Hn. split_and!; auto; lia.
  - destruct (Z.ltb_spec n 1000) as [Hlt|Hge]; [exists n, acc; split_and!; auto; lia|].
    destruct (IH (n / 1000)%Z ((n mod 1000)%Z :: acc)) as (g & gs & -> & Hg & Hgs & Hv).
    + rewrite Nat2Z.inj_succ, Z.pow_succ_r in Hn by lia.
      split; [apply Z.div_pos; lia|]. apply Z.div_lt_upper_bound; lia.
    + constructor; [|done]. apply Z.mod_pos_bound. lia.
    + exists g, gs. split_and!; auto; try lia. rewrite Hv. simpl. f_equal. rewrite <- Z.div_mod; lia.
Qed.

Lemma thousands_groups_spec (n : Z) :
  (0 <= n)%Z →
  ∃ g gs, thousands_groups n = g :: gs ∧ (0 <= g < 1000)%Z ∧ Forall (λ g, 0 <= g < 1000)%Z gs ∧
    foldl (λ x g, 1000 * x + g)%Z g gs = n.
Proof.
  intros Hn. apply (groups_fuel_spec _ n []); [|constructor].
  split; [done|]. destruct (Z.eq_dec n 0) as [->|Hn0]; [simpl; lia|].
  rewrite Nat2Z.inj_succ, Z2Nat.id by (apply Z.log2_nonneg).
  apply Z.log2_spec. lia.
Qed.

(** ** Reading back [.2f] *)

Lemma N_to_uint_nonnil (m : N) : N.to_uint m ≠ Decimal.Nil.
Proof.
  intros H. pose proof (DecimalN.Unsigned.of_to m) as E. rewrite H in E. simpl in E. subst m.
  vm_compute in H. discriminate H.
Qed.

Lemma read_uint_py_str_int (m : Z) : (0 <= m)%Z → read_uint (py_str_int m) = Some m.
Proof.
  intros Hm. unfold read_uint, py_str_int. rewrite NilZero.usu by apply N_to_uint_nonnil.
  simpl. by rewrite DecimalN.Unsigned.of_to, Z2N.id.
Qed.

Lemma split_dot_uint (d : Decimal.uint) (t : string) :
  split_dot (NilEmpty.string_of_uint d +:+ String "." t) = Some (NilEmpty.string_of_uint d, t).
Proof. induction d; simpl; rewrite ?IHd; reflexivity. Qed.

Lemma split_dot_py_str_int (m : Z) (t : string) :
  split_dot (py_str_int m +:+ String "." t) = Some (py_str_int m, t).
Proof. unfold py_str_int, NilZero.string_of_uint. destruct (N.to_uint _); [reflexivity|..]; apply split_dot_uint. Qed.

(** [str(n)] starts with a digit, not with a sign. *)
Lemma py_str_int_head (m : Z) : ∃ c s, py_str_int m = String c s ∧ Ascii.eqb c "-" = false.
Proof. unfold py_str_int, NilZero.string_of_uint. destruct (N.to_uint _); by eexists _, _. Qed.

Lemma pad2_digits : forallb (λ k, bool_decide (read_uint (pad2 k) = Some k)) (map Z.of_nat (seq 0 100)) = true.
Proof. vm_compute. reflexivity. Qed.

Lemma pad2_ok (k : Z) : (0 <= k < 100)%Z → read_uint (pad2 k) = Some k.
Proof.
  intros Hk. pose proof pad2_digits as Hall. rewrite forallb_forall in Hall.
  specialize (Hall k). rewrite bool_decide_eq_true in Hall. apply Hall, in_map_iff.
  exists (Z.to_nat k). split; [lia|]. apply in_seq. lia.
Qed.

Lemma read_2f_neg (s : string) : read_2f (String "-" s) = Qopp <$> read_unsigned_2f s.
Proof. reflexivity. Qed.

Lemma read_2f_unsigned (s : string) : (∀ s', s ≠ String "-" s') → read_2f s = read_unsigned_2f s.
Proof.
  destruct s as [|c s]; [done|]. intros Hs. simpl.
  destruct (Ascii.eqb_spec c "-") as [->|]; [by destruct (Hs s)|done].
Qed.

Lemma read_unsigned_format (m k : Z) :
  (0 <= m)%Z → (0 <= k < 100)%Z →
  read_unsigned_2f (py_str_int m +:+ String "." (pad2 k)) = Some (inject_Z m + inject_Z k / 100)%Q.
Proof.
  intros Hm Hk. unfold read_unsigned_2f. rewrite split_dot_py_str_int, read_uint_py_str_int by done.
  simpl. by rewrite pad2_ok.
Qed.

(** Rounding to the nearest integer is within [1/2]. *)
Lemma round_half_even_spec (x : Q) :
  (inject_Z (round_half_even x) - (1 # 2) <= x <= inject_Z (round_half_even x) + (1 # 2))%Q.
Proof.
  unfold round_half_even. pose proof (Qfloor_le x) as Hl. pose proof (Qlt_floor x) as Hu.
  set (f := Qfloor x) in *. rewrite inject_Z_plus in Hu.
  destruct (Qcompare_spec (x - inject_Z f) (1 # 2)) as [H|H|H];
    [destruct (Z.even f)|..]; rewrite ?inject_Z_plus; change (inject_Z 1) with 1%Q in *; split; lra.
Qed.

Lemma round_half_even_nonneg (x : Q) : (0 <= x)%Q → (0 <= round_half_even x)%Z.
Proof.
  intros Hx. pose proof (round_half_even_spec x) as [_ Hu].
  destruct (Z.ltb_spec (round_half_even x) 0) as [Hlt|]; [|lia]. exfalso.
  assert (inject_Z (round_half_even x) <= inject_Z (-1))%Q as H by (rewrite <- Zle_Qle; lia).
  change (inject_Z (-1)) with (-1 # 1)%Q in H. lra.
Qed.

(** [f"{x:.2f}"] shows [x]: [nan] for NaN, otherwise a two-decimal
    number within [0.005] of [x]. *)
Lemma format_2f_shown (x : option Q) : shown_2f (format_2f x) x.
Proof.
  destruct x as [q|]; [|done]. unfold shown_2f, format_2f.
  set (n := round_half_even (Qabs q * 100)).
  assert (0 <= n)%Z as Hn by (apply round_half_even_nonneg; pose proof (Qabs_nonneg q); lra).
  pose proof (round_half_even_spec (Qabs q * 100)) as Hr. fold n in Hr.
  assert (0 <= n / 100)%Z by (apply Z.div_pos; lia).
  assert (0 <= n mod 100 < 100)%Z by (apply Z.mod_pos_bound; lia).
  assert (inject_Z n == 100 * inject_Z (n / 100) + inject_Z (n mod 100))%Q as Hsplit.
  { rewrite <- (inject_Z_mult 100), <- inject_Z_plus, <- Z.div_mod by lia. reflexivity. }
  change (inject_Z 100) with (100 # 1)%Q in Hsplit.
  rewrite string_app_cons, string_app_nil_l.
  destruct (Qlt_le_dec q 0) as [Hq|Hq].
  - rewrite string_app_cons, string_app_nil_l, read_2f_neg, read_unsigned_format by done.
    eexists. split; [reflexivity|]. rewrite Qabs_neg in Hr by lra. apply Qabs_Qle_condition.
    unfold Qdiv. change (/ 100)%Q with (1 # 100)%Q. lra.
  - rewrite string_app_nil_l, read_2f_unsigned.
    + rewrite read_unsigned_format by done. eexists. split; [reflexivity|].
      rewrite Qabs_pos in Hr by done. apply Qabs_Qle_condition.
      unfold Qdiv. change (/ 100)%Q with (1 # 100)%Q. lra.
    + destruct (py_str_int_head (n / 100)) as (c & s & -> & Hc). intros s' [= -> _].
      discriminate Hc.
Qed.

Lemma trip_analyze_durations (df : list trip) :
  tr_mean_duration (trip_analyze df) = mean (column trip_duration_mins df) ∧
  tr_median_duration (trip_analyze df) = median (column trip_duration_mins df).
Proof. unfold trip_analyze. by destruct (analyze_stations df). Qed.

(** [nan] is shown exactly for NaN: a shown number reads back. *)
Lemma shown_2f_nan (s : string) (x : option Q) : shown_2f s x → (s = "nan" ↔ x = None).
Proof.
  destruct x as [q|]; simpl; [|done]. intros (v & Hv & _). split; [|done].
  intros ->. discriminate Hv.
Qed.

(** ** Properties *)

(** C36: [format(n, ',')] writes every non-negative integer as groups of
    three digits separated by commas (the first of one to three digits
    without a leading zero, the others of exactly three) that read back
    as [n]. *)
Theorem format_thousands_roundtrip (n : Z) : (0 <= n)%Z → parse_thousands (format_thousands n) = Some n.
Proof.
  intros Hn. destruct (thousands_groups_spec n Hn) as (g & gs & Heq & Hg & Hgs & Hv).
  unfold parse_thousands, format_thousands. rewrite Heq.
  destruct (group_ok g Hg) as (_ & Hfirst & _ & Hc).
  rewrite split_commas_nocomma, split_commas_join, string_app_nil_r by done.
  rewrite Hfirst. simpl. rewrite read_groups_map by done. by rewrite Hv.
Qed.

(** C37: [_analyze_basic_stats] prints its title, a rule of fifty ["="],
    the number of trips with thousands separators, and the mean and the
    median duration each as [nan] exactly when no duration is left after
    skipping NaN, and otherwise as a two-decimal number within [0.005]
    of the exact value. *)
Theorem basic_stats_lines_spec (df : list trip) :
  ∃ avg med,
    basic_stats_lines (trip_analyze df) =
      [newline +:+ "1. Basic Trip Statistics:"; str_repeat 50 "=";
       "Total number of trips: " +:+ format_thousands (Z.of_nat (length df));
       "Average trip duration: " +:+ avg +:+ " minutes";
       "Median trip duration: " +:+ med +:+ " minutes"] ∧
    (avg = "nan" ↔ present (column trip_duration_mins df) = []) ∧
    (med = "nan" ↔ present (column trip_duration_mins df) = []) ∧
    shown_2f avg (mean (column trip_duration_mins df)) ∧
    shown_2f med (median (column trip_duration_mins df)).
Proof.
  eexists _, _. split; [reflexivity|]. destruct (trip_analyze_durations df) as [-> ->].
  pose proof (format_2f_shown (mean (column trip_duration_mins df))) as Hm.
  pose proof (format_2f_shown (median (column trip_duration_mins df))) as Hd.
  split_and!; [rewrite <- mean_None_iff | rewrite <- median_None_iff | done | done];
    by apply shown_2f_nan.
Qed.

(** ** Witnesses *)

Lemma format_thousands_roundtrip_witness :
  (0 <= 1234567)%Z ∧ format_thousands 1234567 = "1,234,567" ∧
  parse_thousands (format_thousands 1234567) = Some 1234567%Z.
Proof.
  assert (0 <= 1234567)%Z as H by lia.
  split_and!; [exact H | reflexivity | exact (format_thousands_roundtrip 1234567 H)].
Defined.

End Format.
