(* ===== verification/Pipeline.v ===== *)
(** * The analyzer loop of [main()] ([src/src/main.py], lines 22-30)

    [main()] builds the four analyzers on one DataFrame and runs
    [for analyzer in analyzers: analyzer.analyze()]; an exception leaves
    the loop for the [except] of line 38.  The loop is modelled twice:

    - [run_analyzers], the executable function [Main.main] calls;
    - [loop_step], a step relation on [loop_state] (the analyzers still
      to run, the shared frame, what has been printed and the exception
      caught), one rule per outcome of [analyzer.analyze()].

    Both are stated against the contract [AnalyzerKeepsRows] of the
    interface only ([analyzer] packs an [analyze] method with it).  The
    invariant of the states the loop reaches is proved here by rule
    induction. *)

From S2P Require Import Prelude Analyzers.
From stdpp Require Import relations.
Close Scope Q_scope.

Module Pipeline.
Import Analyzers.

(** An element of [analyzers]: its [analyze] method and the contract it
    satisfies. *)
Record analyzer : Type := pack_analyzer {
  an_run : frame → res (output * frame);
  an_keeps_rows : ∀ fr o fr', an_run fr = Ok (o, fr') → fr_rows fr' = fr_rows fr }.

Definition pack {A} `{AnalyzerKeepsRows A} (a : A) : analyzer :=
  pack_analyzer (analyze a) (analyze_keeps_rows a).

(** [for analyzer in analyzers: analyzer.analyze()]: the outputs printed
    before an exception, the exception, and the shared frame. *)
Fixpoint run_analyzers (l : list analyzer) (fr : frame) : list output * option exn * frame :=
  match l with
  | [] => ([], None, fr)
  | a :: l' =>
      match an_run a fr with
      | Ok (o, fr') => let '(os, err, fr'') := run_analyzers l' fr' in (o :: os, err, fr'')
      | Err e => ([], Some e, fr)
      end
  end.

(** ** The loop as a state machine *)

Record loop_state : Type := mk_loop_state {
  ls_pending : list analyzer;
  ls_frame : frame;
  ls_printed : list output;
  ls_error : option exn }.

Definition loop_init (l : list analyzer) (fr : frame) : loop_state := mk_loop_state l fr [] None.

Declare Scope pipeline_scope.
Delimit Scope pipeline_scope with pipeline.
Reserved Infix "⇝" (at level 70, no associativity).

(** One iteration: the next analyzer returns, its output is printed and
    its frame is the shared one; or it raises, and the loop is left
    with the exception. *)
Inductive loop_step : relation loop_state :=
| loop_step_ok a l fr outs o fr' :
    an_run a fr = Ok (o, fr') →
    mk_loop_state (a :: l) fr outs None ⇝ mk_loop_state l fr' (outs ++ [o]) None
| loop_step_raise a l fr outs e :
    an_run a fr = Err e →
    mk_loop_state (a :: l) fr outs None ⇝ mk_loop_state [] fr outs (Some e)
where "s ⇝ s'" := (loop_step s s') : pipeline_scope.

Open Scope pipeline_scope.

(** What holds of every state reached from [loop_init l fr]: the loaded
    rows are those of [fr]; without exception the pending analyzers are
    those after the ones whose outputs were printed; after one, none is
    pending and fewer outputs than analyzers were printed. *)
Definition loop_inv (l : list analyzer) (fr : frame) (s : loop_state) : Prop :=
  fr_rows (ls_frame s) = fr_rows fr ∧
  match ls_error s with
  | None => ls_pending s = drop (length (ls_printed s)) l
  | Some _ => ls_pending s = [] ∧ (length (ls_printed s) < length l)%nat
  end.

(** ** Lemmas *)

Lemma run_analyzers_cons_Ok (a : analyzer) (l : list analyzer) (fr fr' : frame) (o : output) :
  an_run a fr = Ok (o, fr') →
  run_analyzers (a :: l) fr = let '(os, err, fr'') := run_analyzers l fr' in (o :: os, err, fr'').
Proof. intros H. simpl. by rewrite H. Qed.

Lemma run_analyzers_cons_Err (a : analyzer) (l : list analyzer) (fr : frame) (e : exn) :
  an_run a fr = Err e → run_analyzers (a :: l) fr = ([], Some e, fr).
Proof. intros H. simpl. by rewrite H. Qed.

(** The loop keeps the rows of the shared frame, whatever analyzers it
    runs: only their contract is used. *)
Lemma run_analyzers_rows (l : list analyzer) (fr : frame) (outs : list output)
    (err : option exn) (fr' : frame) :
  run_analyzers l fr = (outs, err, fr') → fr_rows fr' = fr_rows fr.
Proof.
  revert fr outs err. induction l as [|a l IH]; intros fr outs err; simpl; [by intros [= _ _ <-]|].
  destruct (an_run a fr) as [[o fr1]|e] eqn:Ha; [|by intros [= _ _ <-]].
  destruct (run_analyzers l fr1) as [[os err'] fr2] eqn:Hl. intros [= _ _ <-].
  rewrite (IH _ _ _ Hl). exact (an_keeps_rows a _ _ _ Ha).
Qed.

(** The step relation and [run_analyzers] agree: from a state whose
    pending list is [l], the loop reaches the state [run_analyzers l]
    computes, so what [Main.main] prints is a state of the loop. *)
Lemma run_analyzers_steps (l : list analyzer) (fr : frame) (outs0 : list output) :
  let '(outs, err, fr') := run_analyzers l fr in
  rtc loop_step (mk_loop_state l fr outs0 None) (mk_loop_state [] fr' (outs0 ++ outs) err).
Proof.
  revert fr outs0. induction l as [|a l IH]; intros fr outs0; simpl.
  - by rewrite app_nil_r.
  - destruct (an_run a fr) as [[o fr1]|e] eqn:Ha.
    + specialize (IH fr1 (outs0 ++ [o])).
      destruct (run_analyzers l fr1) as [[os err] fr2].
      eapply rtc_l; [by constructor|]. by rewrite <- app_assoc in IH.
    + apply rtc_once. rewrite app_nil_r. by constructor.
Qed.

Lemma drop_cons_inv {A} (l l' : list A) (k : nat) (a : A) :
  drop k l = a :: l' → drop (S k) l = l' ∧ (k < length l)%nat.
Proof.
  intros H. split.
  - by rewrite <- Nat.add_1_r, <- drop_drop, H.
  - apply lookup_lt_Some with a. by rewrite <- (Nat.add_0_r k), <- lookup_drop, H.
Qed.

(** Each rule keeps [loop_inv]. *)
Lemma loop_inv_step (l : list analyzer) (fr : frame) (s s' : loop_state) :
  loop_inv l fr s → s ⇝ s' → loop_inv l fr s'.
Proof.
  unfold loop_inv. intros [Hrows Hpend] Hs. destruct Hs as [a l' fr1 outs o fr2 Ha|a l' fr1 outs e Ha];
    simpl in *; destruct (drop_cons_inv _ _ _ _ (eq_sym Hpend)) as [Hdrop Hlt].
  - split; [by rewrite (an_keeps_rows a _ _ _ Ha)|]. by rewrite length_app, Nat.add_1_r.
  - done.
Qed.

(** ** Properties *)

(** C35: Every state the loop reaches keeps the loaded rows of the shared
    frame; without exception, the analyzers still to run are exactly
    those after the ones whose outputs were printed, so they run in list
    order and each at most once; once an analyzer has raised, no
    analyzer is left to run and fewer outputs than analyzers were
    printed. *)
Theorem loop_invariant (l : list analyzer) (fr : frame) (s : loop_state) :
  rtc loop_step (loop_init l fr) s →
  fr_rows (ls_frame s) = fr_rows fr ∧
  match ls_error s with
  | None => ls_pending s = drop (length (ls_printed s)) l
  | Some _ => ls_pending s = [] ∧ (length (ls_printed s) < length l)%nat
  end.
Proof.
  change (rtc loop_step (loop_init l fr) s → loop_inv l fr s). revert s.
  apply rtc_ind_r; [by split | intros s1 s2 _ H12 IH; by eapply loop_inv_step].
Qed.

(** ** Witnesses *)

Lemma loop_invariant_witness :
  rtc loop_step (loop_init [pack mkTripAnalyzer] (frame_of []))
    (mk_loop_state [] (frame_of []) [OutTrip (trip_analyze [])] None) ∧
  fr_rows (frame_of []) = fr_rows (frame_of []) ∧ [] = drop 1 [pack mkTripAnalyzer].
Proof.
  assert (rtc loop_step (loop_init [pack mkTripAnalyzer] (frame_of []))
            (mk_loop_state [] (frame_of []) [OutTrip (trip_analyze [])] None)) as H
    by (apply rtc_once; apply (loop_step_ok _ [] _ []); reflexivity).
  split; [exact H | exact (loop_invariant _ _ _ H)].
Defined.

End Pipeline.
