(* ===== verification/Main.v ===== *)
(** * [main.py]: the pipeline

    [main()] loads the CSV, builds the four analyzers on the same
    DataFrame, runs them in order, builds the [H3Visualizer] on that
    DataFrame and saves its two maps; one [except Exception] around the
    whole body prints ["Error: <message>"] and ends the run.

    The run is modelled as the list of its observable events: the
    status lines (with the leading ["\n"] of lines 20 and 36), what
    each analyzer prints ([Analyzers.output]), and what the visualizer
    does: the directory it creates, the maps it saves and the paths it
    prints.  The loop over the analyzers is [Pipeline.run_analyzers].
    The data path and the output directory are arguments (the code
    computes them from [__file__]). *)

From S2P Require Import Prelude DataLoader RouteAnalyzer H3Visualizer Analyzers Pipeline.
Close Scope Q_scope.

Module Main.
Import DataLoader Analyzers Pipeline.

Inductive event : Type :=
| Line (s : string)
| Printed (o : output)
| MadeDir (path : string)
| Saved (path : string) (m : H3Visualizer.hex_map).

(** What the visualizer does, as events of the run. *)
Definition event_of_effect (ef : H3Visualizer.effect) : event :=
  match ef with
  | H3Visualizer.MakeDir p => MadeDir p
  | H3Visualizer.SaveMap p m => Saved p m
  | H3Visualizer.Print s => Line s
  end.

Section Main.
Variable geodesic_km : RouteAnalyzer.latlng → RouteAnalyzer.latlng → Q.
Variable http_get : string → RouteAnalyzer.http_response.
Variable polyline_decode : string → option (list RouteAnalyzer.latlng).
Variable float_str : Q → string.
Context {Cell : Type} `{EqDecision Cell}.
Variable latlng_to_cell : Q → Q → Z → option Cell.
Variable cell_to_boundary : Cell → option (list (Q * Q)).
(** The [output] directory of the repository ([h3_visualizer.py], line 99). *)
Variable output_dir : string.

(** Lines 22-27. *)
Definition analyzers : list analyzer :=
  [pack mkTripAnalyzer; pack mkSpatialAnalyzer; pack mkCityAnalyzer;
   pack (mkRouteAnalyzer geodesic_km http_get polyline_decode float_str)].

(** Lines 33-34: [H3Visualizer(df)] (resolution 9) and
    [create_visualizations()]. *)
Definition visualize (fr : frame) : list event :=
  map event_of_effect
      (H3Visualizer.create_visualizations latlng_to_cell cell_to_boundary
         (H3Visualizer.init (fr_rows fr) 9) output_dir).

(** [main()]. *)
Definition main (src : csv_file) (data_path : string) : list event :=
  Line "Loading and processing data..." ::
  match load src data_path with
  | Err e => [Line ("Error: " +:+ exn_str e)]
  | Ok df =>
      Line (newline +:+ "Analyzing Citibike data for January 2025...") ::
      let '(outs, err, fr) := run_analyzers analyzers (frame_of df) in
      map Printed outs ++
      match err with
      | Some e => [Line ("Error: " +:+ exn_str e)]
      | None => visualize fr ++ [Line (newline +:+ "Analysis complete!")]
      end
  end.

End Main.

(** A file whose rows have no start station name. *)
Definition demo_no_start_rows : list csv_row :=
  [mk_csv_row (Some "B1") (Some "classic_bike") (Some "2025-01-01 08:00:00")
     (Some "2025-01-01 08:10:00") None None (Some "Hamilton Park") (Some "JC009")
     None None None None (Some "member")].

(** ** Lemmas *)

Lemma run_trip (fr : frame) :
  an_run (pack mkTripAnalyzer) fr = Ok (OutTrip (trip_analyze (fr_rows fr)), fr).
Proof. reflexivity. Qed.

Lemma run_city (fr : frame) :
  an_run (pack mkCityAnalyzer) fr =
    Ok (OutCity (analyze_stations (fr_rows fr)).1 (analyze_stations (fr_rows fr)).2, fr).
Proof. cbn. unfold analyze, city_analyzer_base. by destruct (analyze_stations (fr_rows fr)). Qed.

Lemma run_spatial_Ok (fr : frame) :
  float_column (column start_station_name (fr_rows fr)) = false →
  ∃ routes sp, an_run (pack mkSpatialAnalyzer) fr =
    Ok (OutSpatial routes, mk_frame (fr_rows fr) (Some sp)).
Proof.
  intros Hf. cbn. unfold analyze, spatial_analyzer_base, spatial_analyze, station_pairs.
  rewrite Hf. eexists _, _. reflexivity.
Qed.

(** The printed analyses are not saved maps. *)
Lemma Saved_not_Printed (p : string) (m : H3Visualizer.hex_map) (outs : list output) :
  Saved p m ∉ map Printed outs.
Proof. rewrite list_elem_of_In, in_map_iff. naive_solver. Qed.

#[export] Hint Resolve run_trip run_city : maps.

Section Props.
Variable geodesic_km : RouteAnalyzer.latlng → RouteAnalyzer.latlng → Q.
Variable http_get : string → RouteAnalyzer.http_response.
Variable polyline_decode : string → option (list RouteAnalyzer.latlng).
Variable float_str : Q → string.
Context {Cell : Type} `{EqDecision Cell}.
Variable latlng_to_cell : Q → Q → Z → option Cell.
Variable cell_to_boundary : Cell → option (list (Q * Q)).
Variable output_dir : string.

#[local] Abbreviation main :=
  (main geodesic_km http_get polyline_decode float_str latlng_to_cell cell_to_boundary output_dir).
#[local] Abbreviation route_analyze := (RouteAnalyzer.analyze geodesic_km http_get polyline_decode float_str).

Lemma run_route (fr : frame) :
  an_run (pack (mkRouteAnalyzer geodesic_km http_get polyline_decode float_str)) fr =
    (rm ← route_analyze (fr_rows fr); Ok (OutRoute rm.1 rm.2, fr)).
Proof. cbn. unfold analyze, route_analyzer_base. simpl. by destruct (route_analyze (fr_rows fr)) as [[]|]. Qed.

(** C27: A run without exception prints the four analyses in order (trip
    statistics, popular routes, top stations, longest route) and saves
    the two hexagon maps computed from the loaded rows: the
    [station_pair] column [SpatialAnalyzer] writes into the shared table
    does not change what the later steps see. *)
Theorem main_success (src : csv_file) (path : string) (df : list trip)
    (routes : list (string * nat)) (fr1 : frame) (rep : RouteAnalyzer.route_report)
    (m : RouteAnalyzer.route_map) :
  load src path = Ok df → spatial_analyze (frame_of df) = Ok (routes, fr1) →
  route_analyze df = Ok (rep, m) →
  main src path =
    [Line "Loading and processing data..."; Line (newline +:+ "Analyzing Citibike data for January 2025...");
     Printed (OutTrip (trip_analyze df)); Printed (OutSpatial routes);
     Printed (OutCity (analyze_stations df).1 (analyze_stations df).2);
     Printed (OutRoute rep m)] ++
    map event_of_effect
      (H3Visualizer.create_visualizations latlng_to_cell cell_to_boundary (H3Visualizer.init df 9) output_dir) ++
    [Line (newline +:+ "Analysis complete!")].
Proof.
  intros Hl Hs Hr. unfold Main.main. rewrite Hl. cbn zeta.
  assert (an_run (pack mkSpatialAnalyzer) (frame_of df) = Ok (OutSpatial routes, fr1)) as Hs'.
  { cbn. unfold analyze, spatial_analyzer_base. by rewrite Hs. }
  pose proof (an_keeps_rows _ _ _ _ Hs') as Hrows. simpl in Hrows.
  unfold analyzers. rewrite (run_analyzers_cons_Ok _ _ _ _ _ (run_trip _)).
  rewrite (run_analyzers_cons_Ok _ _ _ _ _ Hs'), (run_analyzers_cons_Ok _ _ _ _ _ (run_city _)).
  assert (an_run (pack (mkRouteAnalyzer geodesic_km http_get polyline_decode float_str)) fr1 =
          Ok (OutRoute rep m, fr1)) as Hr' by (rewrite run_route, Hrows, Hr; reflexivity).
  rewrite (run_analyzers_cons_Ok _ _ _ _ _ Hr'). simpl. unfold visualize. by rewrite Hrows.
Qed.

(** C28: When loading fails, [main] prints the loading line and one error
    line and stops: ["Error: Data file not found: <path>"] or
    ["Error: Error processing file: ..."]; no analysis runs, no map is
    saved. *)
Theorem main_load_failure (src : csv_file) (path : string) :
  (∃ e, load src path = Err e) →
  main src path = [Line "Loading and processing data...";
                   Line ("Error: " +:+ ("Data file not found: " +:+ path))] ∨
  ∃ msg, main src path = [Line "Loading and processing data...";
                          Line ("Error: " +:+ ("Error processing file: " +:+ msg))].
Proof.
  intros [e He]. unfold Main.main. rewrite He. revert He. unfold load.
  destruct (_ ≫= _) as [df|[]]; intros [= <-]; simpl; eauto.
Qed.

(** C29: A table in which no trip has all four coordinates (an empty
    file included) ends the run with the line ["Error: Cannot set a
    DataFrame with multiple columns to the single column
    trip_distance_km"] after the three other analyses: the hexagon maps
    are never drawn, although the visualizer would handle such a
    table. *)
Theorem main_no_valid_trip (src : csv_file) (path : string) (df : list trip) :
  load src path = Ok df → Forall (λ t, RouteAnalyzer.has_coords t = false) df →
  float_column (column start_station_name df) = false →
  ∃ outs, length outs = 3%nat ∧
    main src path = [Line "Loading and processing data...";
                     Line (newline +:+ "Analyzing Citibike data for January 2025...")] ++ map Printed outs ++
                    [Line ("Error: " +:+ exn_str RouteAnalyzer.empty_apply_error)].
Proof.
  intros Hl Hc Hf. unfold Main.main. rewrite Hl. cbn zeta.
  destruct (run_spatial_Ok (frame_of df) Hf) as (routes & sp & Hs).
  unfold analyzers. rewrite (run_analyzers_cons_Ok _ _ _ _ _ (run_trip _)).
  rewrite (run_analyzers_cons_Ok _ _ _ _ _ Hs), (run_analyzers_cons_Ok _ _ _ _ _ (run_city _)).
  rewrite (run_analyzers_cons_Err _ _ _ RouteAnalyzer.empty_apply_error).
  - eexists. split; [|reflexivity]. done.
  - rewrite run_route. simpl. rewrite RouteAnalyzer.analyze_dropna_nil; [done|].
    by apply RouteAnalyzer.dropna_coords_nil.
Qed.

(** C30: A non-empty table with no start station name ends the run in
    [SpatialAnalyzer]: only the trip statistics are printed before the
    error line, and neither the route nor the maps are produced. *)
Theorem main_spatial_type_error (src : csv_file) (path : string) (df : list trip) :
  load src path = Ok df → df ≠ [] → Forall (λ t, start_station_name t = None) df →
  main src path =
    [Line "Loading and processing data..."; Line (newline +:+ "Analyzing Citibike data for January 2025...");
     Printed (OutTrip (trip_analyze df));
     Line ("Error: " +:+ "ufunc 'add' did not contain a loop with signature matching types")].
Proof.
  intros Hl Hne Hall. unfold Main.main. rewrite Hl. cbn zeta.
  assert (float_column (column start_station_name df) = true) as Hf.
  { apply float_column_spec. unfold column. rewrite Forall_map.
    split; [destruct df; [done|discriminate] | done]. }
  unfold analyzers. rewrite (run_analyzers_cons_Ok _ _ _ _ _ (run_trip _)).
  rewrite (run_analyzers_cons_Err _ _ _
             (TypeError "ufunc 'add' did not contain a loop with signature matching types")).
  - reflexivity.
  - cbn. unfold analyze, spatial_analyzer_base, spatial_analyze, station_pairs. simpl. by rewrite Hf.
Qed.

(** C34: Every run starts with the loading line and ends in one of two
    ways: an error line with no map saved (any exception of the loader
    or of an analyzer skips the visualization), or the two hexagon maps
    drawn from the loaded rows, whatever columns the analyzers added to
    the shared table, followed by ["Analysis complete!"]. *)
Theorem main_outcome (src : csv_file) (path : string) :
  head (main src path) = Some (Line "Loading and processing data...") ∧
  ((∃ e, last (main src path) = Some (Line ("Error: " +:+ exn_str e)) ∧
         ∀ p m, Saved p m ∉ main src path) ∨
   (∃ df pre, load src path = Ok df ∧
      main src path = pre ++
        map event_of_effect
      (H3Visualizer.create_visualizations latlng_to_cell cell_to_boundary (H3Visualizer.init df 9) output_dir) ++
        [Line (newline +:+ "Analysis complete!")] ∧
      ∀ p m, Saved p m ∉ pre)).
Proof.
  unfold Main.main. split; [done|]. destruct (load src path) as [df|e] eqn:Hl; cbn zeta.
  - destruct (run_analyzers (analyzers geodesic_km http_get polyline_decode float_str) (frame_of df)) as [[outs [e|]] fr] eqn:Hr.
    + left. exists e. rewrite !app_comm_cons, last_snoc. split; [done|].
      intros p m. rewrite <- !app_comm_cons. pose proof (Saved_not_Printed p m outs). set_solver.
    + right. exists df, (Line "Loading and processing data..." ::
                       Line (newline +:+ "Analyzing Citibike data for January 2025...") :: map Printed outs).
      split_and!; [done | | intros p m; pose proof (Saved_not_Printed p m outs); set_solver].
      unfold visualize. rewrite (run_analyzers_rows _ _ _ _ _ Hr). by rewrite <- !app_comm_cons.
  - left. exists e. split; [done|]. set_solver.
Qed.

End Props.

(** ** Witnesses *)

Import RouteAnalyzer H3Visualizer.

Lemma main_success_witness :
  ∃ df routes fr1 rep m,
    (load (CsvTable demo_rows) "data.csv" = Ok df ∧ spatial_analyze (frame_of df) = Ok (routes, fr1) ∧
     RouteAnalyzer.analyze demo_geodesic demo_down demo_decode demo_float_str df = Ok (rep, m)) ∧
    main demo_geodesic demo_down demo_decode demo_float_str demo_cell demo_boundary "output"
      (CsvTable demo_rows) "data.csv" =
    [Line "Loading and processing data..."; Line (newline +:+ "Analyzing Citibike data for January 2025...");
     Printed (OutTrip (trip_analyze df)); Printed (OutSpatial routes);
     Printed (OutCity (analyze_stations df).1 (analyze_stations df).2);
     Printed (OutRoute rep m)] ++
    map event_of_effect (create_visualizations demo_cell demo_boundary (H3Visualizer.init df 9) "output") ++
    [Line (newline +:+ "Analysis complete!")].
Proof.
  do 5 eexists. split; [split_and!; reflexivity|].
  eapply main_success; reflexivity.
Defined.

Lemma main_load_failure_witness :
  (∃ e, load CsvMissing "data.csv" = Err e) ∧
  (main demo_geodesic demo_down demo_decode demo_float_str demo_cell demo_boundary "output" CsvMissing "data.csv" =
     [Line "Loading and processing data...";
      Line ("Error: " +:+ ("Data file not found: " +:+ "data.csv"))] ∨
   ∃ msg, main demo_geodesic demo_down demo_decode demo_float_str demo_cell demo_boundary "output"
            CsvMissing "data.csv" =
          [Line "Loading and processing data...";
           Line ("Error: " +:+ ("Error processing file: " +:+ msg))]).
Proof.
  assert (∃ e, load CsvMissing "data.csv" = Err e) as H by (eexists; reflexivity).
  split; [exact H | exact (main_load_failure _ _ _ _ _ _ _ CsvMissing "data.csv" H)].
Defined.

Lemma main_no_valid_trip_witness :
  (load (CsvTable []) "data.csv" = Ok [] ∧ Forall (λ t, has_coords t = false) [] ∧
   float_column (column start_station_name []) = false) ∧
  ∃ outs, length outs = 3%nat ∧
    main demo_geodesic demo_down demo_decode demo_float_str demo_cell demo_boundary "output"
      (CsvTable []) "data.csv" =
    [Line "Loading and processing data...";
     Line (newline +:+ "Analyzing Citibike data for January 2025...")] ++ map Printed outs ++
    [Line ("Error: " +:+ exn_str RouteAnalyzer.empty_apply_error)].
Proof.
  assert (load (CsvTable []) "data.csv" = Ok []) as Hl by reflexivity.
  assert (Forall (λ t, has_coords t = false) []) as Hc by constructor.
  assert (float_column (column start_station_name []) = false) as Hf by reflexivity.
  split; [split_and!; assumption|]. exact (main_no_valid_trip _ _ _ _ _ _ _ _ _ _ Hl Hc Hf).
Defined.

Lemma main_spatial_type_error_witness :
  ∃ df, (load (CsvTable demo_no_start_rows) "data.csv" = Ok df ∧ df ≠ [] ∧
         Forall (λ t, start_station_name t = None) df) ∧
    main demo_geodesic demo_down demo_decode demo_float_str demo_cell demo_boundary "output"
      (CsvTable demo_no_start_rows) "data.csv" =
    [Line "Loading and processing data..."; Line (newline +:+ "Analyzing Citibike data for January 2025...");
     Printed (OutTrip (trip_analyze df));
     Line ("Error: " +:+ "ufunc 'add' did not contain a loop with signature matching types")].
Proof.
  eexists. split; [split_and!; [reflexivity | discriminate | repeat constructor]|].
  apply main_spatial_type_error; [reflexivity | discriminate | repeat constructor].
Defined.

End Main.
